(** * observ-metrics: filter engine, domain instrumentor and coordinator

    A shallow embedding of [src/core/SmartFilter.ts],
    [src/core/DomainInstrumentor.ts], [src/index.ts] and [src/types.ts].

    JavaScript numbers are read as exact rationals ([Q]); clock readings,
    durations and counters, which the code only ever produces as integers,
    are [Z].  Code that reads the clock, draws random numbers, calls the
    tracing SDK, the console or a callback runs in a monad over a [World]
    that also collects the calls made; a thrown value leaves the state
    changes and the calls made so far in place, as in JavaScript.  An
    awaited promise is run to its end before the next statement; the
    interleaving of calls that are in flight together is not modelled. *)

From Stdlib Require Import String Ascii List ZArith QArith Lia Lqa Bool DecimalString
  Permutation.
Import ListNotations.
Open Scope string_scope.

(** ** Strings and regular expressions *)

Module Js.

(** [String.prototype.includes]. *)
Fixpoint includes (hay needle : string) : bool :=
  if prefix needle hay then true
  else match hay with
       | EmptyString => false
       | String _ rest => includes rest needle
       end.

Definition lower_ascii (c : ascii) : ascii :=
  let n := nat_of_ascii c in
  if andb (Nat.leb 65 n) (Nat.leb n 90) then ascii_of_nat (n + 32) else c.

Fixpoint toLowerCase (s : string) : string :=
  match s with
  | EmptyString => EmptyString
  | String c rest => String (lower_ascii c) (toLowerCase rest)
  end.

Fixpoint drop (n : nat) (s : string) : string :=
  match n, s with
  | O, _ => s
  | S k, String _ rest => drop k rest
  | S _, EmptyString => EmptyString
  end.

(** Occurrence of [lit] that is followed by ['?'] or by the end of the
    input: the regular expression [lit(\?|$)]. *)
Fixpoint includes_before_end (hay lit : string) : bool :=
  let here :=
    if prefix lit hay then
      match drop (String.length lit) hay with
      | EmptyString => true
      | String c _ => Ascii.eqb c "?"%char
      end
    else false in
  if here then true
  else match hay with
       | EmptyString => false
       | String _ rest => includes_before_end rest lit
       end.

(** The regular expressions the sources use are all of three shapes. *)
Inductive RegExp :=
| Lit (lit : string)            (* /lit/    *)
| LitI (lit : string)           (* /lit/i   *)
| LitEnd (lit : string).        (* /lit(\?|$)/ *)

(** [RegExp.prototype.test] on a string. *)
Definition test (p : RegExp) (s : string) : bool :=
  match p with
  | Lit lit => includes s lit
  | LitI lit => includes (toLowerCase s) (toLowerCase lit)
  | LitEnd lit => includes_before_end s lit
  end.

(** [Array.prototype.join]. *)
Fixpoint join (sep : string) (l : list string) : string :=
  match l with
  | [] => ""
  | [x] => x
  | x :: rest => x ++ sep ++ join sep rest
  end.

(** Decimal text of an integer, as a template literal prints it. *)
Definition dec (z : Z) : string := NilZero.string_of_int (Z.to_int z).

(** [x < y] and [x > y] on numbers. *)
Definition ltb (x y : Q) : bool := negb (Qle_bool y x).
Definition gtb (x y : Q) : bool := ltb y x.

(** Values held in attribute maps and labels ([Record<string, any>]):
    strings, numbers, booleans and [undefined]. *)
Inductive Value :=
| VStr (s : string)
| VNum (q : Q)
| VBool (b : bool)
| VUndefined.

(** ToBoolean. *)
Definition truthy (v : Value) : bool :=
  match v with
  | VStr s => negb (String.eqb s "")
  | VNum q => negb (Qeq_bool q 0)
  | VBool b => b
  | VUndefined => false
  end.

(** [a || b]. *)
Definition or_else (a b : Value) : Value := if truthy a then a else b.

(** [pattern.test(v)]: the argument is converted to a string first.  The
    text of a number is made of digits, [.], [-], [+], [e], [Infinity] or
    [NaN]; every literal of the tables below has a letter that none of
    these texts has, so the test of a number is false. *)
Definition test_value (p : RegExp) (v : Value) : bool :=
  match v with
  | VStr s => test p s
  | VBool true => test p "true"
  | VBool false => test p "false"
  | VNum _ => false
  | VUndefined => test p "undefined"
  end.

(** Plain objects used as string-keyed maps, in insertion order
    (integer-like keys, which JavaScript orders first, are not told
    apart). *)
Definition Obj := list (string * Value).

Fixpoint get (o : Obj) (k : string) : Value :=
  match o with
  | [] => VUndefined
  | (k', v) :: rest => if String.eqb k k' then v else get rest k
  end.

Fixpoint set (o : Obj) (k : string) (v : Value) : Obj :=
  match o with
  | [] => [(k, v)]
  | (k', v') :: rest =>
      if String.eqb k k' then (k', v) :: rest else (k', v') :: set rest k v
  end.

(** [{...base, ...extra}]. *)
Definition spread (base extra : Obj) : Obj :=
  fold_left (fun acc kv => set acc (fst kv) (snd kv)) extra base.

Definition spread_opt (base : Obj) (extra : option Obj) : Obj :=
  match extra with Some e => spread base e | None => base end.

(** Values that can be thrown or rejected with ([catch (error: any)]). *)
Inductive Thrown :=
| Undefined
| Null
| Primitive (v : Value)
| Object (props : Obj).

(** First line of the engine's stack text; the frames that follow are
    engine specific. *)
Definition stack_text (name message : string) : string :=
  name ++ ": " ++ message.

Definition make_error (name message : string) : Thrown :=
  Object [("name", VStr name); ("message", VStr message);
          ("stack", VStr (stack_text name message))].

(** [new Error(message)]. *)
Definition new_Error (message : string) : Thrown := make_error "Error" message.

(** The [TypeError] of a property read on [null] or [undefined]. *)
Definition TypeError_read (of_ prop : string) : Thrown :=
  make_error "TypeError"
    ("Cannot read properties of " ++ of_ ++ " (reading '" ++ prop ++ "')").

(** The [TypeError] of calling a property that is not a function. *)
Definition TypeError_not_a_function (what : string) : Thrown :=
  make_error "TypeError" (what ++ " is not a function").

(** The [ReferenceError] of reading a global that is not declared. *)
Definition ReferenceError (global : string) : Thrown :=
  make_error "ReferenceError" (global ++ " is not defined").

(** Outcome of evaluating an expression or running a statement. *)
Inductive Result (A : Type) :=
| Ok (a : A)
| Throw (e : Thrown).
Arguments Ok {A} a.
Arguments Throw {A} e.

(** [error.prop]. *)
Definition prop (e : Thrown) (p : string) : Result Value :=
  match e with
  | Undefined => Throw (TypeError_read "undefined" p)
  | Null => Throw (TypeError_read "null" p)
  | Primitive _ => Ok VUndefined
  | Object props => Ok (get props p)
  end.

End Js.

(** ** Data model ([src/types.ts]) *)

Module DeviceType.
Inductive t := mobile | tablet | desktop.
Definition to_string (d : t) : string :=
  match d with mobile => "mobile" | tablet => "tablet" | desktop => "desktop" end.
End DeviceType.

Module Priority.
Inductive t := critical | high | medium | low.
Definition to_string (p : t) : string :=
  match p with
  | critical => "critical" | high => "high" | medium => "medium" | low => "low"
  end.
Definition is_critical (p : t) : bool :=
  match p with critical => true | _ => false end.
End Priority.

Module EventType.
Inductive t := span | metric | log | error.
End EventType.

Module Severity.
Inductive t := info | warn | error | critical.
End Severity.

Module BusinessImpact.
(** The four impacts of [BusinessContext['businessImpact']], and the
    value that a lookup in an impact table returns for a name that the
    table inherits from [Object.prototype]: that member itself, which is
    none of the four strings. *)
Inductive t :=
| revenue | engagement | performance | reliability
| inherited_member (name : string).
End BusinessImpact.

Module UserContext.
Record t := mk {
  userId : option string;
  sessionId : string;
  userSegment : string;
  isAuthenticated : bool;
  deviceType : DeviceType.t;
  customAttributes : option Js.Obj
}.

(** [Partial<UserContext>]: [None] is an absent property. *)
Record partial := mkPartial {
  p_userId : option string;
  p_sessionId : option string;
  p_userSegment : option string;
  p_isAuthenticated : option bool;
  p_deviceType : option DeviceType.t;
  p_customAttributes : option Js.Obj
}.

Definition empty : partial := mkPartial None None None None None None.

Definition over {A} (new old : option A) : option A :=
  match new with Some x => Some x | None => old end.

(** [{...a, ...b}] on partial contexts. *)
Definition merge (a b : partial) : partial :=
  mkPartial (over (p_userId b) (p_userId a))
            (over (p_sessionId b) (p_sessionId a))
            (over (p_userSegment b) (p_userSegment a))
            (over (p_isAuthenticated b) (p_isAuthenticated a))
            (over (p_deviceType b) (p_deviceType a))
            (over (p_customAttributes b) (p_customAttributes a)).

Definition or_default {A} (o : option A) (d : A) : A :=
  match o with Some x => x | None => d end.

(** [{...defaults, ...p}] where [defaults] has the four required fields. *)
Definition complete (defaults : t) (p : partial) : t :=
  mk (over (p_userId p) (userId defaults))
     (or_default (p_sessionId p) (sessionId defaults))
     (or_default (p_userSegment p) (userSegment defaults))
     (or_default (p_isAuthenticated p) (isAuthenticated defaults))
     (or_default (p_deviceType p) (deviceType defaults))
     (over (p_customAttributes p) (customAttributes defaults)).
End UserContext.

Module DomainConfig.
Record t := mk {
  name : string;
  priority : Priority.t;
  slaTarget : Q;
  errorThreshold : Q;
  features : list string;
  customAttributes : option Js.Obj
}.
End DomainConfig.

Module BusinessContext.
Record t := mk {
  domain : string;
  feature : option string;
  userJourney : option string;
  businessImpact : BusinessImpact.t;
  customMetrics : option (list (string * Q))
}.
End BusinessContext.

Module TelemetryEvent.
(** [id] is the pair (clock reading, random draw) that the template
    [`${Date.now()}_${Math.random().toString(36).substr(2, 9)}`] prints;
    [timestamp] is the clock reading that [toISOString] prints. *)
Record t := mk {
  id : Z * Q;
  timestamp : Z;
  domain : string;
  eventType : EventType.t;
  name : string;
  attributes : Js.Obj;
  businessContext : BusinessContext.t;
  severity : option Severity.t
}.

(** [Partial<TelemetryEvent>] as [emitTelemetryEvent] receives it. *)
Record partial := mkPartial {
  p_eventType : option EventType.t;
  p_name : option string;
  p_attributes : option Js.Obj;
  p_businessContext : option BusinessContext.t;
  p_severity : option Severity.t
}.
End TelemetryEvent.

Module ApiCallContext.
(** The properties [instrumentApiCall] reads. *)
Record t := mk {
  journeyName : option string;
  stepName : option string;
  customAttributes : option Js.Obj
}.
(** The default argument [{}]. *)
Definition empty : t := mk None None None.
End ApiCallContext.

Module InstrumentationResult.
Record t := mk {
  success : bool;
  duration : Z;
  error : option Js.Thrown;
  customMetrics : list (string * Z)
}.
End InstrumentationResult.

(** A caller-supplied predicate, by what a call of it comes to: the
    truth value of what it returns, or the value it throws.  What else a
    predicate does to the outside is not modelled. *)
Definition FilterFunction := TelemetryEvent.t -> UserContext.t -> Js.Result bool.

Module FilterConfig.
Record t := mk {
  enableBotDetection : bool;
  domainWhitelist : option (list string);
  errorThreshold : Q;
  samplingRate : Q;
  excludeExtensions : bool;
  excludeThirdPartyErrors : bool;
  customFilters : option (list FilterFunction)
}.

(** [Partial<FilterConfig>]: [None] is an absent property. *)
Record partial := mkPartial {
  p_enableBotDetection : option bool;
  p_domainWhitelist : option (list string);
  p_errorThreshold : option Q;
  p_samplingRate : option Q;
  p_excludeExtensions : option bool;
  p_excludeThirdPartyErrors : option bool;
  p_customFilters : option (list FilterFunction)
}.

Definition over {A} (new old : option A) : option A :=
  match new with Some x => Some x | None => old end.

Definition or_keep {A} (new : option A) (old : A) : A :=
  match new with Some x => x | None => old end.

(** [{...c, ...p}]. *)
Definition merge (c : t) (p : partial) : t :=
  mk (or_keep (p_enableBotDetection p) (enableBotDetection c))
     (over (p_domainWhitelist p) (domainWhitelist c))
     (or_keep (p_errorThreshold p) (errorThreshold c))
     (or_keep (p_samplingRate p) (samplingRate c))
     (or_keep (p_excludeExtensions p) (excludeExtensions c))
     (or_keep (p_excludeThirdPartyErrors p) (excludeThirdPartyErrors c))
     (over (p_customFilters p) (customFilters c)).

(** [{...p, ...q}] on partial configurations. *)
Definition merge_partial (p q : partial) : partial :=
  mkPartial (over (p_enableBotDetection q) (p_enableBotDetection p))
            (over (p_domainWhitelist q) (p_domainWhitelist p))
            (over (p_errorThreshold q) (p_errorThreshold p))
            (over (p_samplingRate q) (p_samplingRate p))
            (over (p_excludeExtensions q) (p_excludeExtensions p))
            (over (p_excludeThirdPartyErrors q) (p_excludeThirdPartyErrors p))
            (over (p_customFilters q) (p_customFilters p)).
End FilterConfig.

Module PlatformConfig.
Inductive platform_t := datadog | newrelic | grafana | jaeger | console.
Record t := mk {
  platform : platform_t;
  endpoint : option string;
  apiKey : option string
}.

(** [Partial<PlatformConfig>] as the constructor may receive it. *)
Record partial := mkPartial {
  p_platform : option platform_t;
  p_endpoint : option string;
  p_apiKey : option string
}.
End PlatformConfig.

Module ObservMetricsConfig.
(** The configuration the constructor receives; [userContext] and
    [platform] may be missing or partial there. *)
Record input := mkInput {
  i_userContext : option UserContext.partial;
  i_domains : list DomainConfig.t;
  i_filtering : FilterConfig.t;
  i_platform : option PlatformConfig.partial;
  i_debug : bool
}.

(** The configuration the coordinator holds. *)
Record t := mk {
  userContext : UserContext.partial;
  domains : list DomainConfig.t;
  filtering : FilterConfig.t;
  platform : PlatformConfig.t;
  debug : bool
}.
End ObservMetricsConfig.

(** ** The world the code runs in *)

Module Env.
(** What the code reads from [navigator], [window], [document], [screen]
    and [Date], and what the tracing SDK's set-up does.  A number that
    is only tested for being zero or missing is [0] when missing.
    [navigator] and [screen] are taken to exist also where there is no
    window. *)
Record t := mk {
  userAgent : string;                      (* navigator.userAgent || '' *)
  hasWindow : bool;                        (* typeof window !== 'undefined' *)
  chrome : bool;                           (* window.chrome *)
  chrome_runtime : bool;                   (* window.chrome.runtime *)
  callPhantom : bool;
  _phantom : bool;
  outerHeight : Z;
  outerWidth : Z;
  webdriver : bool;                        (* navigator.webdriver *)
  cdc_asdjflasutopfhvcZLmcfl_ : bool;      (* document.$cdc_asdjflasutopfhvcZLmcfl_ *)
  chrome_asyncScriptInfo : bool;           (* document.$chrome_asyncScriptInfo *)
  permissions_query : option string;       (* navigator.permissions?.query?.toString() *)
  screen_width : Z;
  screen_height : Z;
  hostname : string;                       (* window.location.hostname *)
  ontouchstart : bool;                     (* 'ontouchstart' in window *)
  innerWidth : Z;
  innerHeight : Z;
  timezoneOffset : Z;
  otel_setup_error : option Js.Thrown      (* what initializeOpenTelemetry throws, if anything *)
}.
End Env.

Set Warnings "-register-all".

(** Calls that leave the modelled code, in the order made.  A call of an
    event sink carries the calls the sink made in turn. *)
Inductive Effect :=
| StartSpan (name : string)
| SetAttributes (attrs : Js.Obj)
| RecordException (e : Js.Thrown)
| SetStatus (code : Z) (message : Js.Value)
| EndSpan
| CounterAdd (metric : string) (n : Z) (labels : Js.Obj)
| HistogramRecord (metric : string) (v : Q) (labels : Js.Obj)
| SetTimeout (ms : Q)
| OnEvent (event : TelemetryEvent.t) (inner : list Effect)
| Console (level message : string)
| CreateInstrumentor (domain : string)
| ProviderRegister
| Export (exporter : string) (events : list TelemetryEvent.t)
| ExporterDestroy (exporter : string).

Import Js.

(** [now_src n] is the [n]-th reading of [Date.now()] and [rnd_src n] the
    [n]-th draw of [Math.random()]; [owner] is the state of the object that
    owns the event sink. *)
Record World (X : Type) := mkWorld {
  env : Env.t;
  now_src : nat -> Z;
  now_pos : nat;
  rnd_src : nat -> Q;
  rnd_pos : nat;
  owner : X
}.
Arguments mkWorld {X}.
Arguments env {X}.
Arguments now_src {X}.
Arguments now_pos {X}.
Arguments rnd_src {X}.
Arguments rnd_pos {X}.
Arguments owner {X}.

(** A run ends with a value or a thrown value, in a new world, having made
    some calls. *)
Record Run (X A : Type) := mkRun {
  result : Result A;
  world : World X;
  calls : list Effect
}.
Arguments mkRun {X A}.
Arguments result {X A}.
Arguments world {X A}.
Arguments calls {X A}.

Definition M (X A : Type) : Type := World X -> Run X A.

Section Monad.
Context {X : Type}.

Definition ret {A} (a : A) : M X A := fun w => mkRun (Ok a) w [].

Definition bind {A B} (m : M X A) (k : A -> M X B) : M X B :=
  fun w => match m w with
           | mkRun (Ok a) w' c =>
               match k a w' with
               | mkRun r w'' c' => mkRun r w'' (c ++ c')
               end
           | mkRun (Throw e) w' c => mkRun (Throw e) w' c
           end.

Definition throw {A} (e : Thrown) : M X A := fun w => mkRun (Throw e) w [].

(** [try { body } catch (error) { handler }]. *)
Definition try_catch {A} (body : M X A) (handler : Thrown -> M X A) : M X A :=
  fun w => match body w with
           | mkRun (Ok a) w' c => mkRun (Ok a) w' c
           | mkRun (Throw e) w' c =>
               match handler e w' with
               | mkRun r w'' c' => mkRun r w'' (c ++ c')
               end
           end.

(** [try { body } finally { cleanup }]. *)
Definition finally {A} (body : M X A) (cleanup : M X unit) : M X A :=
  fun w => match body w with
           | mkRun r w' c =>
               match cleanup w' with
               | mkRun (Ok _) w'' c' => mkRun r w'' (c ++ c')
               | mkRun (Throw e) w'' c' => mkRun (Throw e) w'' (c ++ c')
               end
           end.

Definition lift {A} (r : Result A) : M X A := fun w => mkRun r w [].

Definition effect (e : Effect) : M X unit := fun w => mkRun (Ok tt) w [e].

(** [sink(event)]: one call, which carries the sink's own. *)
Definition call_sink (sink : TelemetryEvent.t -> M X unit)
           (event : TelemetryEvent.t) : M X unit :=
  fun w => match sink event w with
           | mkRun r w' c => mkRun r w' [OnEvent event c]
           end.

Definition Date_now : M X Z :=
  fun w => mkRun (Ok (now_src w (now_pos w)))
                 (mkWorld (env w) (now_src w) (S (now_pos w)) (rnd_src w) (rnd_pos w)
                          (owner w))
                 [].

Definition Math_random : M X Q :=
  fun w => mkRun (Ok (rnd_src w (rnd_pos w)))
                 (mkWorld (env w) (now_src w) (now_pos w) (rnd_src w) (S (rnd_pos w))
                          (owner w))
                 [].

Definition get_env : M X Env.t := fun w => mkRun (Ok (env w)) w [].

Definition get_owner : M X X := fun w => mkRun (Ok (owner w)) w [].

Definition put_owner (x : X) : M X unit :=
  fun w => mkRun (Ok tt)
                 (mkWorld (env w) (now_src w) (now_pos w) (rnd_src w) (rnd_pos w) x)
                 [].

Definition when (b : bool) (m : M X unit) : M X unit := if b then m else ret tt.

(** [l.forEach(f)]. *)
Fixpoint forEach {A} (l : list A) (f : A -> M X unit) : M X unit :=
  match l with
  | [] => ret tt
  | a :: rest => bind (f a) (fun _ => forEach rest f)
  end.
End Monad.

Declare Scope js_scope.
Delimit Scope js_scope with js.
Notation "x <- m ;; k" := (bind m (fun x => k))
  (at level 100, m at next level, right associativity) : js_scope.
Notation "m ;; k" := (bind m (fun _ => k))
  (at level 100, right associativity) : js_scope.
Open Scope js_scope.

(** Events handed to the sink by the calls [c] themselves, oldest first. *)
Fixpoint emitted (c : list Effect) : list TelemetryEvent.t :=
  match c with
  | [] => []
  | OnEvent ev _ :: rest => ev :: emitted rest
  | _ :: rest => emitted rest
  end.

(** Batches handed to exporters, by the calls [c] or by a sink they
    called, oldest first. *)
Fixpoint exported_by (e : Effect) : list (string * list TelemetryEvent.t) :=
  match e with
  | Export n evs => [(n, evs)]
  | OnEvent _ inner =>
      (fix all (l : list Effect) :=
         match l with
         | [] => []
         | e' :: rest => exported_by e' ++ all rest
         end)%list inner
  | _ => []
  end.

Definition exported (c : list Effect) : list (string * list TelemetryEvent.t) :=
  flat_map exported_by c.
Arguments exported : simpl never.

(** ** Filter engine ([src/core/SmartFilter.ts]) *)

Module Filter.
Record t := mk {
  config : FilterConfig.t;
  botPatterns : list RegExp;
  extensionPatterns : list RegExp;
  noisePatterns : list RegExp
}.

Definition bot_table : list RegExp :=
  [LitI "bot"; LitI "crawler"; LitI "spider"; LitI "scraper";
   LitI "phantom"; LitI "headless"; LitI "selenium";
   LitI "puppeteer"; LitI "playwright";
   LitI "googlebot"; LitI "bingbot"; LitI "slurp";
   LitI "facebookexternalhit"; LitI "twitterbot";
   LitI "linkedinbot"; LitI "whatsapp"; LitI "telegrambot"].

Definition extension_table : list RegExp :=
  [LitI "chrome-extension:"; LitI "moz-extension:"; LitI "safari-extension:";
   LitI "extension/"; LitI "addon"; LitI "greasemonkey";
   LitI "tampermonkey"; LitI "adblock"; LitI "ublock";
   LitI "ghostery"; LitI "privacy"; LitI "disconnect"].

Definition noise_table : list RegExp :=
  [LitEnd ".css"; LitEnd ".js"; LitEnd ".png";
   LitEnd ".jpg"; LitEnd ".gif"; LitEnd ".svg";
   LitEnd ".woff"; LitEnd ".ttf"; LitEnd ".ico";
   Lit "favicon"; Lit "manifest.json"; Lit "robots.txt";
   Lit "sw.js"; Lit "service-worker"; Lit "workbox"].

Definition initializePatterns (f : t) : t :=
  mk (config f) bot_table extension_table noise_table.

Definition constructor (c : FilterConfig.t) : t :=
  initializePatterns (mk c [] [] []).

Definition hasHeadlessIndicators (e : Env.t) : bool :=
  if negb (Env.hasWindow e) then false
  else if Env.chrome e && negb (Env.chrome_runtime e) then true
  else if Env.callPhantom e || Env._phantom e then true
  else if Z.eqb (Env.outerHeight e) 0 || Z.eqb (Env.outerWidth e) 0 then true
  else if Env.webdriver e then true
  else false.

Definition hasAutomationIndicators (e : Env.t) : bool :=
  if negb (Env.hasWindow e) then false
  else if Env.cdc_asdjflasutopfhvcZLmcfl_ e then true
  else if Env.chrome_asyncScriptInfo e then true
  else match Env.permissions_query e with
       | Some src => if includes src "NotSupportedError" then true else false
       | None => false
       end.

Definition hasUnusualSessionCharacteristics (e : Env.t) (context : UserContext.t) : bool :=
  if Z.eqb (Env.screen_width e) 0 || Z.eqb (Env.screen_height e) 0 then true
  else false.

Definition isBotSession (f : t) (e : Env.t) (context : UserContext.t) : bool :=
  let userAgent := Env.userAgent e in
  let hasBotPattern := existsb (fun pattern => test pattern userAgent) (botPatterns f) in
  if hasBotPattern then true
  else if hasHeadlessIndicators e then true
  else if hasAutomationIndicators e then true
  else if hasUnusualSessionCharacteristics e context then true
  else false.

(** [window.location.hostname] is read without a [typeof window] test:
    where there is no window the read throws (a [ReferenceError], the
    global not being declared). *)
Definition isDomainAllowed (f : t) (e : Env.t) (event : TelemetryEvent.t)
  : Result bool :=
  match FilterConfig.domainWhitelist (config f) with
  | None => Ok true
  | Some [] => Ok true
  | Some whitelist =>
      if Env.hasWindow e then
        let currentDomain := Env.hostname e in
        Ok (existsb (String.eqb currentDomain) whitelist)
      else Throw (ReferenceError "window")
  end.

Definition isNoiseEvent (f : t) (event : TelemetryEvent.t) : bool :=
  let attrs := TelemetryEvent.attributes event in
  let url := or_else (or_else (get attrs "http.url") (get attrs "url")) (VStr "") in
  existsb (fun pattern => test_value pattern url) (noisePatterns f).

Definition isExtensionEvent (f : t) (event : TelemetryEvent.t) : bool :=
  let attrs := TelemetryEvent.attributes event in
  let url := or_else (or_else (get attrs "http.url") (get attrs "url")) (VStr "") in
  let stack := or_else (get attrs "error.stack") (VStr "") in
  existsb (fun pattern => test_value pattern url || test_value pattern stack)
          (extensionPatterns f).

(** The loop over [customFilters]: the first predicate that returns
    false decides, and what a predicate throws leaves the loop, since
    nothing catches it. *)
Fixpoint passes_customFilters (l : list FilterFunction)
         (event : TelemetryEvent.t) (context : UserContext.t) : Result bool :=
  match l with
  | [] => Ok true
  | filter :: rest =>
      match filter event context with
      | Ok passed =>
          if negb passed then Ok false
          else passes_customFilters rest event context
      | Throw e => Throw e
      end
  end.

Definition is_error_or_critical (s : option Severity.t) : bool :=
  match s with
  | Some Severity.error => true
  | Some Severity.critical => true
  | _ => false
  end.

Definition hasRealUserIndicators (e : Env.t) : bool :=
  if Env.ontouchstart e then true
  else if Z.ltb 0 (Env.innerWidth e) && Z.ltb 0 (Env.innerHeight e) then true
  else if Z.leb (-720) (Env.timezoneOffset e) && Z.leb (Env.timezoneOffset e) 720 then true
  else true.

Definition getStats (f : t) :=
  (List.length (botPatterns f), List.length (extensionPatterns f),
   List.length (noisePatterns f), FilterConfig.samplingRate (config f),
   (FilterConfig.enableBotDetection (config f),
    FilterConfig.domainWhitelist (config f),
    FilterConfig.excludeExtensions (config f))).

Definition addCustomFilter (f : t) (filter : FilterFunction) : t :=
  let c := config f in
  let filters := match FilterConfig.customFilters c with
                 | Some l => l
                 | None => []
                 end in
  mk (FilterConfig.mk (FilterConfig.enableBotDetection c)
                      (FilterConfig.domainWhitelist c)
                      (FilterConfig.errorThreshold c)
                      (FilterConfig.samplingRate c)
                      (FilterConfig.excludeExtensions c)
                      (FilterConfig.excludeThirdPartyErrors c)
                      (Some (filters ++ [filter])%list))
     (botPatterns f) (extensionPatterns f) (noisePatterns f).

Definition is_some {A} (o : option A) : bool :=
  match o with Some _ => true | None => false end.

Definition updateConfig (f : t) (newConfig : FilterConfig.partial) : t :=
  let f' := mk (FilterConfig.merge (config f) newConfig)
               (botPatterns f) (extensionPatterns f) (noisePatterns f) in
  if is_some (FilterConfig.p_samplingRate newConfig)
     || is_some (FilterConfig.p_enableBotDetection newConfig)
     || is_some (FilterConfig.p_excludeExtensions newConfig)
  then initializePatterns f'
  else f'.

Section InWorld.
Context {X : Type}.

Definition shouldProcess (f : t) (event : TelemetryEvent.t)
           (context : UserContext.t) : M X bool :=
  if is_error_or_critical (TelemetryEvent.severity event) then ret true
  else
    e <- get_env ;;
    if FilterConfig.enableBotDetection (config f) && isBotSession f e context
    then ret false
    else
      allowed <- lift (isDomainAllowed f e event) ;;
      if negb allowed then ret false
      else if isNoiseEvent f event then ret false
      else if FilterConfig.excludeExtensions (config f) && isExtensionEvent f event
      then ret false
      else
        passed <- lift (match FilterConfig.customFilters (config f) with
                        | Some filters => passes_customFilters filters event context
                        | None => Ok true
                        end) ;;
        if negb passed then ret false
        else
          r <- Math_random ;;
          if gtb r (FilterConfig.samplingRate (config f)) then ret false
          else ret true.

Definition createDefaultContext : M X UserContext.t :=
  now <- Date_now ;;
  e <- get_env ;;
  ret (UserContext.mk None ("session_" ++ dec now) "anonymous" false
         (if test (LitI "mobi") (Env.userAgent e) || test (LitI "android") (Env.userAgent e)
          then DeviceType.mobile else DeviceType.desktop)
         None).

Definition isRealUserSession (f : t) (context : option UserContext.t) : M X bool :=
  e <- get_env ;;
  if negb (Env.hasWindow e) then ret false
  else
    c <- match context with
         | Some c => ret c
         | None => createDefaultContext
         end ;;
    if isBotSession f e c then ret false
    else ret (hasRealUserIndicators e).
End InWorld.
End Filter.

(** ** Domain instrumentor ([src/core/DomainInstrumentor.ts]) *)

(** The entry of a [Map], or the own property of an object literal,
    under the key [k]. *)
Fixpoint table_get {A} (table : list (string * A)) (k : string) : option A :=
  match table with
  | [] => None
  | (k', v) :: rest => if String.eqb k k' then Some v else table_get rest k
  end.

(** The property names that every object literal inherits from
    [Object.prototype]. *)
Definition Object_prototype_names : list string :=
  ["constructor"; "__defineGetter__"; "__defineSetter__"; "hasOwnProperty";
   "__lookupGetter__"; "__lookupSetter__"; "isPrototypeOf";
   "propertyIsEnumerable"; "toString"; "valueOf"; "__proto__"; "toLocaleString"].

Definition inherited (k : string) : bool :=
  existsb (String.eqb k) Object_prototype_names.

(** [table[k]] on an object literal used as a table: an own property; or
    a member inherited from [Object.prototype], which is a function (for
    [__proto__], the prototype object), so truthy, and neither a string
    nor an array; or [undefined]. *)
Inductive Lookup (A : Type) :=
| Own (a : A)
| Inherited
| Absent.
Arguments Own {A} a.
Arguments Inherited {A}.
Arguments Absent {A}.

Definition literal_get {A} (table : list (string * A)) (k : string) : Lookup A :=
  match table_get table k with
  | Some v => Own v
  | None => if inherited k then Inherited else Absent
  end.

(** [Array.prototype.indexOf]. *)
Fixpoint indexOf (l : list string) (x : string) : Z :=
  match l with
  | [] => -1
  | y :: rest =>
      if String.eqb x y then 0
      else let i := indexOf rest x in
           if Z.ltb i 0 then -1 else i + 1
  end.

Module ApiResponse.
Record t := mk { status : Z; success : bool }.
End ApiResponse.

Module DomainInstrumentor.
Section WithOwner.
Context {X : Type}.

Record t := mk {
  domain : DomainConfig.t;
  userContext : UserContext.t;
  onEvent : option (TelemetryEvent.t -> M X unit)
}.

(** [getTracer], [getMeter] and the six instruments of
    [initializeMetrics] are one call to the SDK here. *)
Definition constructor (domain : DomainConfig.t) (userContext : UserContext.t)
           (onEvent : option (TelemetryEvent.t -> M X unit)) : M X t :=
  effect (CreateInstrumentor (DomainConfig.name domain)) ;;
  ret (mk domain userContext onEvent).

Definition getApiBusinessImpact (apiName : string) : BusinessImpact.t :=
  let impactMap :=
    [("login", BusinessImpact.engagement);
     ("register", BusinessImpact.engagement);
     ("checkout", BusinessImpact.revenue);
     ("payment", BusinessImpact.revenue);
     ("search", BusinessImpact.engagement);
     ("cart", BusinessImpact.revenue)] in
  match literal_get impactMap apiName with
  | Own impact => impact
  | Inherited => BusinessImpact.inherited_member apiName
  | Absent => BusinessImpact.performance
  end.

Definition getJourneyBusinessImpact (journeyName : string) : BusinessImpact.t :=
  let impactMap :=
    [("user_login_flow", BusinessImpact.engagement);
     ("purchase_flow", BusinessImpact.revenue);
     ("product_discovery", BusinessImpact.engagement)] in
  match literal_get impactMap journeyName with
  | Own impact => impact
  | Inherited => BusinessImpact.inherited_member journeyName
  | Absent => BusinessImpact.engagement
  end.

Definition getMetricBusinessImpact (metricName : string) : BusinessImpact.t :=
  if includes metricName "revenue" || includes metricName "purchase"
  then BusinessImpact.revenue
  else if includes metricName "login" || includes metricName "engagement"
  then BusinessImpact.engagement
  else if includes metricName "latency" || includes metricName "performance"
  then BusinessImpact.performance
  else BusinessImpact.reliability.

(** The quotient is the exact one here.  The code's quotient is the
    nearest double, which falls on the same side of 3, 2 and 1.5 when the
    duration is an integer below 2^53 in size and the target a positive
    integer below 2^52; the quotient by a zero target is [Infinity] for a
    positive duration, and [-Infinity] or [NaN] otherwise. *)
Definition getSlaViolationSeverity (i : t) (duration : Z) : string :=
  let target := DomainConfig.slaTarget (domain i) in
  if Qeq_bool target 0 then
    if Z.ltb 0 duration then "critical" else "low"
  else
    let ratio := (inject_Z duration / target)%Q in
    if gtb ratio 3 then "critical"
    else if gtb ratio 2 then "high"
    else if gtb ratio (3 # 2) then "medium"
    else "low".

(** For a journey name that the table inherits from [Object.prototype],
    [steps] is that member, which has no [indexOf]: the call throws. *)
Definition getStepNumber (journeyName stepName : string) : Result Z :=
  let journeySteps :=
    [("user_login_flow",
      ["load_login_page"; "enter_credentials"; "submit_login"; "redirect_dashboard"]);
     ("purchase_flow",
      ["add_to_cart"; "view_cart"; "enter_shipping"; "select_payment";
       "complete_purchase"]);
     ("product_discovery",
      ["search_query"; "view_results"; "filter_results"; "select_product"])] in
  match literal_get journeySteps journeyName with
  | Own steps => Ok (indexOf steps stepName + 1)%Z
  | Inherited => Throw (TypeError_not_a_function "steps.indexOf")
  | Absent => Ok (indexOf [] stepName + 1)%Z
  end.

Definition createBusinessContext (i : t) (apiName : string)
           (context : ApiCallContext.t) : BusinessContext.t :=
  BusinessContext.mk (DomainConfig.name (domain i))
                     (Some apiName)
                     (ApiCallContext.journeyName context)
                     (getApiBusinessImpact apiName)
                     None.

Definition emitTelemetryEvent (i : t) (eventData : TelemetryEvent.partial) : M X unit :=
  match onEvent i with
  | Some sink =>
      now <- Date_now ;;
      r <- Math_random ;;
      stamp <- Date_now ;;
      let event :=
        TelemetryEvent.mk
          (now, r) stamp
          (DomainConfig.name (domain i))
          (UserContext.or_default (TelemetryEvent.p_eventType eventData) EventType.span)
          (UserContext.or_default (TelemetryEvent.p_name eventData) "")
          (UserContext.or_default (TelemetryEvent.p_attributes eventData) [])
          (UserContext.or_default (TelemetryEvent.p_businessContext eventData)
             (BusinessContext.mk (DomainConfig.name (domain i)) None None
                                 BusinessImpact.performance None))
          (TelemetryEvent.p_severity eventData) in
      call_sink sink event
  | None => ret tt
  end.

Definition executeApiCall (i : t) (endpoint method : string) : M X ApiResponse.t :=
  let baseLatency : Q :=
    if Priority.is_critical (DomainConfig.priority (domain i)) then 100 else 200 in
  r <- Math_random ;;
  let jitter := (r * 300)%Q in
  let duration := (baseLatency + jitter)%Q in
  effect (SetTimeout duration) ;;
  r' <- Math_random ;;
  if ltb r' (DomainConfig.errorThreshold (domain i))
  then throw (new_Error ("API call failed: " ++ endpoint))
  else ret (ApiResponse.mk 200 true).

Definition api_attributes (i : t) (name endpoint method : string)
           (context : ApiCallContext.t) : Obj :=
  let d := domain i in
  let u := userContext i in
  let base : Obj :=
    [("domain.name", VStr (DomainConfig.name d));
     ("domain.priority", VStr (Priority.to_string (DomainConfig.priority d)));
     ("domain.sla_target_ms", VNum (DomainConfig.slaTarget d));
     ("domain.error_threshold", VNum (DomainConfig.errorThreshold d));
     ("api.name", VStr name);
     ("http.method", VStr method);
     ("http.url", VStr endpoint);
     ("user.session_id", VStr (UserContext.sessionId u));
     ("user.segment", VStr (UserContext.userSegment u));
     ("user.authenticated", VBool (UserContext.isAuthenticated u));
     ("user.device_type", VStr (DeviceType.to_string (UserContext.deviceType u)))] in
  let journey : Obj :=
    match ApiCallContext.journeyName context with
    | Some j =>
        if String.eqb j "" then []
        else [("journey.name", VStr j);
              ("journey.step",
               match ApiCallContext.stepName context with
               | Some s => if String.eqb s "" then VStr "unknown" else VStr s
               | None => VStr "unknown"
               end)]
    | None => []
    end in
  spread_opt (spread_opt (spread base journey) (ApiCallContext.customAttributes context))
             (DomainConfig.customAttributes d).

Definition instrumentApiCall (i : t) (name endpoint : string)
           (method_arg : option string) (context_arg : option ApiCallContext.t)
  : M X InstrumentationResult.t :=
  let method := UserContext.or_default method_arg "GET" in
  let context := UserContext.or_default context_arg ApiCallContext.empty in
  let d := domain i in
  let u := userContext i in
  let spanName := DomainConfig.name d ++ "." ++ name in
  effect (StartSpan spanName) ;;
  startTime <- Date_now ;;
  finally
    (try_catch
       (let attributes := api_attributes i name endpoint method context in
        effect (SetAttributes attributes) ;;
        response <- executeApiCall i endpoint method ;;
        now <- Date_now ;;
        let duration := (now - startTime)%Z in
        effect (CounterAdd "api_calls" 1
                  [("domain", VStr (DomainConfig.name d));
                   ("api_name", VStr name);
                   ("method", VStr method);
                   ("status", VStr (dec (ApiResponse.status response)));
                   ("user_segment", VStr (UserContext.userSegment u))]) ;;
        effect (HistogramRecord "api_duration" (inject_Z duration)
                  [("domain", VStr (DomainConfig.name d));
                   ("api_name", VStr name);
                   ("method", VStr method);
                   ("user_segment", VStr (UserContext.userSegment u))]) ;;
        let slaViolated := gtb (inject_Z duration) (DomainConfig.slaTarget d) in
        when slaViolated
             (effect (SetAttributes
                        [("sla.violated", VBool true);
                         ("sla.target_ms", VNum (DomainConfig.slaTarget d));
                         ("sla.actual_ms", VNum (inject_Z duration));
                         ("sla.violation_severity",
                          VStr (getSlaViolationSeverity i duration))])) ;;
        effect (SetAttributes
                  [("http.status_code", VNum (inject_Z (ApiResponse.status response)));
                   ("http.response_time_ms", VNum (inject_Z duration));
                   ("api.success", VBool (ApiResponse.success response))]) ;;
        emitTelemetryEvent i
          (TelemetryEvent.mkPartial
             (Some EventType.span) (Some spanName) (Some attributes)
             (Some (createBusinessContext i name context))
             (Some (if slaViolated then Severity.warn else Severity.info))) ;;
        ret (InstrumentationResult.mk true duration None
               [("sla_violated", if slaViolated then 1 else 0);
                ("response_status", ApiResponse.status response)]%Z))
       (fun error =>
          now <- Date_now ;;
          let duration := (now - startTime)%Z in
          effect (RecordException error) ;;
          message <- lift (prop error "message") ;;
          effect (SetStatus 2 message) ;;
          error_type <- lift (prop error "name") ;;
          effect (CounterAdd "errors" 1
                    [("domain", VStr (DomainConfig.name d));
                     ("api_name", VStr name);
                     ("error_type", error_type);
                     ("user_segment", VStr (UserContext.userSegment u))]) ;;
          e_name <- lift (prop error "name") ;;
          e_message <- lift (prop error "message") ;;
          e_stack <- lift (prop error "stack") ;;
          emitTelemetryEvent i
            (TelemetryEvent.mkPartial
               (Some EventType.error) (Some (spanName ++ "_error"))
               (Some [("error.type", e_name);
                      ("error.message", e_message);
                      ("error.stack", e_stack)])
               (Some (createBusinessContext i name context))
               (Some Severity.error)) ;;
          ret (InstrumentationResult.mk false duration (Some error)
                 [("error_occurred", 1%Z)])))
    (effect EndSpan).

(** [operation] is the caller's [() => Promise<any>]; its value is not
    used. *)
Definition instrumentUserJourney (i : t) (journeyName stepName : string)
           (operation : M X unit) : M X InstrumentationResult.t :=
  let d := domain i in
  let u := userContext i in
  let spanName :=
    DomainConfig.name d ++ ".journey." ++ journeyName ++ "." ++ stepName in
  effect (StartSpan spanName) ;;
  startTime <- Date_now ;;
  finally
    (try_catch
       (step_number <- lift (getStepNumber journeyName stepName) ;;
        let attributes : Obj :=
          [("domain.name", VStr (DomainConfig.name d));
           ("journey.name", VStr journeyName);
           ("journey.step", VStr stepName);
           ("journey.step_number", VNum (inject_Z step_number));
           ("user.session_id", VStr (UserContext.sessionId u));
           ("user.segment", VStr (UserContext.userSegment u));
           ("conversion.tracking", VBool true)] in
        effect (SetAttributes attributes) ;;
        operation ;;
        now <- Date_now ;;
        let duration := (now - startTime)%Z in
        effect (CounterAdd "journey_steps" 1
                  [("domain", VStr (DomainConfig.name d));
                   ("journey", VStr journeyName);
                   ("step", VStr stepName);
                   ("success", VStr "true");
                   ("user_segment", VStr (UserContext.userSegment u))]) ;;
        effect (HistogramRecord "journey_duration" (inject_Z duration)
                  [("domain", VStr (DomainConfig.name d));
                   ("journey", VStr journeyName);
                   ("step", VStr stepName);
                   ("user_segment", VStr (UserContext.userSegment u))]) ;;
        emitTelemetryEvent i
          (TelemetryEvent.mkPartial
             (Some EventType.span) (Some spanName) (Some attributes)
             (Some (BusinessContext.mk (DomainConfig.name d) None (Some journeyName)
                      (getJourneyBusinessImpact journeyName) None))
             (Some Severity.info)) ;;
        ret (InstrumentationResult.mk true duration None
               [("journey_step_completed", 1%Z);
                ("step_duration_ms", duration)]))
       (fun error =>
          now <- Date_now ;;
          let duration := (now - startTime)%Z in
          effect (RecordException error) ;;
          message <- lift (prop error "message") ;;
          effect (SetStatus 2 message) ;;
          error_type <- lift (prop error "name") ;;
          effect (CounterAdd "journey_steps" 1
                    [("domain", VStr (DomainConfig.name d));
                     ("journey", VStr journeyName);
                     ("step", VStr stepName);
                     ("success", VStr "false");
                     ("error_type", error_type);
                     ("user_segment", VStr (UserContext.userSegment u))]) ;;
          ret (InstrumentationResult.mk false duration (Some error)
                 [("journey_step_failed", 1%Z)])))
    (effect EndSpan).

Definition recordBusinessMetric (i : t) (metricName : string) (value : Q)
           (context_arg : option Obj) : M X unit :=
  let context := UserContext.or_default context_arg [] in
  let d := domain i in
  let labels :=
    spread [("domain", VStr (DomainConfig.name d));
            ("metric_name", VStr metricName);
            ("user_segment", VStr (UserContext.userSegment (userContext i)))]
           context in
  effect (HistogramRecord "business_metrics" value labels) ;;
  emitTelemetryEvent i
    (TelemetryEvent.mkPartial
       (Some EventType.metric)
       (Some (DomainConfig.name d ++ ".business." ++ metricName))
       (Some (spread [("metric.name", VStr metricName); ("metric.value", VNum value)]
                     labels))
       (Some (BusinessContext.mk (DomainConfig.name d) None None
                (getMetricBusinessImpact metricName) None))
       (Some Severity.info)).

(** [error] is an [Error] object, given by its properties. *)
Definition trackError (i : t) (error : Obj) (context_arg : option Obj) : M X unit :=
  let context := UserContext.or_default context_arg [] in
  let d := domain i in
  effect (StartSpan (DomainConfig.name d ++ ".error")) ;;
  finally
    (effect (RecordException (Object error)) ;;
     effect (SetAttributes
               (spread [("domain.name", VStr (DomainConfig.name d));
                        ("error.type", get error "name");
                        ("error.message", get error "message");
                        ("user.session_id",
                         VStr (UserContext.sessionId (userContext i)))]
                       context)) ;;
     effect (CounterAdd "errors" 1
               [("domain", VStr (DomainConfig.name d));
                ("error_type", get error "name");
                ("user_segment", VStr (UserContext.userSegment (userContext i)))]) ;;
     emitTelemetryEvent i
       (TelemetryEvent.mkPartial
          (Some EventType.error)
          (Some (DomainConfig.name d ++ ".error"))
          (Some (spread [("error.type", get error "name");
                         ("error.message", get error "message");
                         ("error.stack", get error "stack")]
                        context))
          (Some (BusinessContext.mk (DomainConfig.name d) None None
                   BusinessImpact.reliability None))
          (Some Severity.error)))
    (effect EndSpan).

Definition getStats (i : t) :=
  let d := domain i in
  let u := userContext i in
  (DomainConfig.name d, DomainConfig.priority d, DomainConfig.slaTarget d,
   DomainConfig.errorThreshold d, DomainConfig.features d,
   (UserContext.userSegment u, UserContext.isAuthenticated u,
    UserContext.deviceType u)).
End WithOwner.
Arguments t : clear implicits.
End DomainInstrumentor.

(** ** Coordinator ([src/index.ts]) *)

Module ExporterPlugin.
(** An exporter as the coordinator sees it: its name, whether it has a
    [destroy] method, and the value its [export] rejects with, if any.
    Batching and delivery belong to the exporters. *)
Record t := mk {
  name : string;
  has_destroy : bool;
  export_rejects : list TelemetryEvent.t -> option Thrown
}.
End ExporterPlugin.

(** [Map.prototype.set]: a present key keeps its place. *)
Fixpoint map_set {A} (m : list (string * A)) (k : string) (v : A) : list (string * A) :=
  match m with
  | [] => [(k, v)]
  | (k', v') :: rest =>
      if String.eqb k k' then (k', v) :: rest else (k', v') :: map_set rest k v
  end.

(** [Array.from(m.keys())]. *)
Definition map_keys {A} (m : list (string * A)) : list string := map fst m.

Module ObservMetrics.

(** A constructed instrumentor of the coordinator: its sink is always
    [(event) => this.handleTelemetryEvent(event)], so the domain and the
    captured context determine it. *)
Record Instrumentor := mkInstrumentor {
  i_domain : DomainConfig.t;
  i_userContext : UserContext.t
}.

(** [Filter] holds [config.filtering] itself, not a copy. *)
Record t := mk {
  config : ObservMetricsConfig.t;
  Filter : Filter.t;
  instrumentors : list (string * Instrumentor);
  exporters : list ExporterPlugin.t;
  events : list TelemetryEvent.t;
  isInitialized : bool
}.

Record Stats := mkStats {
  initialized : bool;
  domains : list string;
  eventsProcessed : nat;
  filterStats : nat * nat * nat * Q * (bool * option (list string) * bool);
  userContext : UserContext.t;
  exporters_names : list string
}.

Definition set_instrumentors (o : t) (m : list (string * Instrumentor)) : t :=
  mk (config o) (Filter o) m (exporters o) (events o) (isInitialized o).

Definition set_events (o : t) (l : list TelemetryEvent.t) : t :=
  mk (config o) (Filter o) (instrumentors o) (exporters o) l (isInitialized o).

Definition set_isInitialized (o : t) (b : bool) : t :=
  mk (config o) (Filter o) (instrumentors o) (exporters o) (events o) b.

Definition set_userContext (o : t) (p : UserContext.partial) : t :=
  let c := config o in
  mk (ObservMetricsConfig.mk p (ObservMetricsConfig.domains c)
        (ObservMetricsConfig.filtering c) (ObservMetricsConfig.platform c)
        (ObservMetricsConfig.debug c))
     (Filter o) (instrumentors o) (exporters o) (events o) (isInitialized o).

Definition set_Filter (o : t) (f : Filter.t) : t :=
  let c := config o in
  mk (ObservMetricsConfig.mk (ObservMetricsConfig.userContext c)
        (ObservMetricsConfig.domains c) (Filter.config f)
        (ObservMetricsConfig.platform c) (ObservMetricsConfig.debug c))
     f (instrumentors o) (exporters o) (events o) (isInitialized o).

Definition consoleExporter : ExporterPlugin.t :=
  ExporterPlugin.mk "console" false (fun _ => None).

Definition DatadogExporter : ExporterPlugin.t :=
  ExporterPlugin.mk "datadog" true (fun _ => None).

Definition NewRelicExporter : ExporterPlugin.t :=
  ExporterPlugin.mk "newrelic" true (fun _ => None).

Definition setupExporters (p : PlatformConfig.t) : list ExporterPlugin.t :=
  match PlatformConfig.platform p with
  | PlatformConfig.datadog => [DatadogExporter]
  | PlatformConfig.newrelic => [NewRelicExporter]
  | _ => [consoleExporter]
  end.

Definition constructor (c : ObservMetricsConfig.input) : t :=
  let platform :=
    match ObservMetricsConfig.i_platform c with
    | Some p =>
        PlatformConfig.mk
          (UserContext.or_default (PlatformConfig.p_platform p) PlatformConfig.console)
          (PlatformConfig.p_endpoint p) (PlatformConfig.p_apiKey p)
    | None => PlatformConfig.mk PlatformConfig.console None None
    end in
  let config :=
    ObservMetricsConfig.mk
      (UserContext.or_default (ObservMetricsConfig.i_userContext c) UserContext.empty)
      (ObservMetricsConfig.i_domains c)
      (ObservMetricsConfig.i_filtering c)
      platform
      (ObservMetricsConfig.i_debug c) in
  mk config (Filter.constructor (ObservMetricsConfig.filtering config))
     [] (setupExporters platform) [] false.

Definition getCurrentUserContext : M t UserContext.t :=
  this <- get_owner ;;
  now <- Date_now ;;
  e <- get_env ;;
  ret (UserContext.complete
         (UserContext.mk None ("session_" ++ dec now) "anonymous" false
            (if test (LitI "mobi") (Env.userAgent e) || test (LitI "android") (Env.userAgent e)
             then DeviceType.mobile else DeviceType.desktop)
            None)
         (ObservMetricsConfig.userContext (config this))).

Definition handleTelemetryEvent (event : TelemetryEvent.t) : M t unit :=
  userContext <- getCurrentUserContext ;;
  this <- get_owner ;;
  pass <- Filter.shouldProcess (Filter this) event userContext ;;
  if negb pass then
    when (ObservMetricsConfig.debug (config this))
         (effect (Console "log"
                    ("[ObservMetrics] Event filtered out: " ++ TelemetryEvent.name event)))
  else
    put_owner (set_events this (events this ++ [event])) ;;
    forEach (exporters this)
      (fun exporter =>
         effect (Export (ExporterPlugin.name exporter) [event]) ;;
         match ExporterPlugin.export_rejects exporter [event] with
         | Some _ =>
             effect (Console "error"
                       ("[ObservMetrics] Export failed for "
                          ++ ExporterPlugin.name exporter ++ ":"))
         | None => ret tt
         end).

(** The instrumentor object that a stored entry stands for. *)
Definition instrumentor_object (i : Instrumentor) : DomainInstrumentor.t t :=
  DomainInstrumentor.mk (i_domain i) (i_userContext i) (Some handleTelemetryEvent).

Definition initializeOpenTelemetry : M t unit :=
  e <- get_env ;;
  match Env.otel_setup_error e with
  | Some err => throw err
  | None => effect ProviderRegister
  end.

(** The callback of [domains.forEach] in [initializeDomainInstrumentors]. *)
Definition create_instrumentor (domain : DomainConfig.t) : M t unit :=
  context <- getCurrentUserContext ;;
  effect (CreateInstrumentor (DomainConfig.name domain)) ;;
  this <- get_owner ;;
  put_owner (set_instrumentors this
               (map_set (instrumentors this) (DomainConfig.name domain)
                        (mkInstrumentor domain context))).

Definition initializeDomainInstrumentors : M t unit :=
  this <- get_owner ;;
  forEach (ObservMetricsConfig.domains (config this)) create_instrumentor.

Definition logConfiguration : M t unit :=
  effect (Console "group" "[ObservMetrics] Configuration") ;;
  effect (Console "log" "Domains:") ;;
  effect (Console "log" "Platform:") ;;
  effect (Console "log" "Filtering:") ;;
  _ <- getCurrentUserContext ;;
  effect (Console "log" "User Context:") ;;
  effect (Console "groupEnd" "").

Definition initialize : M t unit :=
  this <- get_owner ;;
  if isInitialized this then
    effect (Console "warn" "[ObservMetrics] Already initialized")
  else
    real <- Filter.isRealUserSession (Filter this) None ;;
    if negb real then
      when (ObservMetricsConfig.debug (config this))
           (effect (Console "log"
                      "[ObservMetrics] Bot/automated session detected, skipping initialization"))
    else
      try_catch
        (initializeOpenTelemetry ;;
         initializeDomainInstrumentors ;;
         this <- get_owner ;;
         put_owner (set_isInitialized this true) ;;
         when (ObservMetricsConfig.debug (config this))
              (effect (Console "log"
                         "[ObservMetrics] Successfully initialized with business context monitoring") ;;
               logConfiguration))
        (fun error =>
           effect (Console "error" "[ObservMetrics] Failed to initialize:") ;;
           throw error).

Definition getDomainInstrumentor (domainName : string) : M t (DomainInstrumentor.t t) :=
  this <- get_owner ;;
  match table_get (instrumentors this) domainName with
  | None =>
      throw (new_Error ("Domain instrumentor not found: " ++ domainName
                          ++ ". Available domains: "
                          ++ join ", " (map_keys (instrumentors this))))
  | Some instrumentor => ret (instrumentor_object instrumentor)
  end.

(** [a || b] where [a] evaluates to an instrumentor: an object is truthy,
    so [b] is evaluated only if [a] returned a falsy value, which an
    instrumentor never is. *)
Definition instrumentor_truthy (i : DomainInstrumentor.t t) : bool := true.

Definition or_instrumentor (a b : M t (DomainInstrumentor.t t))
  : M t (DomainInstrumentor.t t) :=
  i <- a ;;
  if instrumentor_truthy i then ret i else b.

Definition auth : M t (DomainInstrumentor.t t) :=
  or_instrumentor (getDomainInstrumentor "authentication") (getDomainInstrumentor "auth").

Definition ecommerce : M t (DomainInstrumentor.t t) :=
  or_instrumentor (getDomainInstrumentor "ecommerce") (getDomainInstrumentor "commerce").

Definition content : M t (DomainInstrumentor.t t) := getDomainInstrumentor "content".

(** The callback of [instrumentors.forEach] in [updateUserContext]. *)
Definition rebuild_instrumentor (entry : string * Instrumentor) : M t unit :=
  let instrumentor := snd entry in
  this <- get_owner ;;
  match find (fun d => String.eqb (DomainConfig.name d)
                                  (DomainConfig.name (i_domain instrumentor)))
             (ObservMetricsConfig.domains (config this)) with
  | Some domain =>
      context <- getCurrentUserContext ;;
      effect (CreateInstrumentor (DomainConfig.name domain)) ;;
      this <- get_owner ;;
      put_owner (set_instrumentors this
                   (map_set (instrumentors this) (DomainConfig.name domain)
                            (mkInstrumentor domain context)))
  | None => ret tt
  end.

(** [instrumentors.forEach] visits the entries in insertion order; every
    entry is stored under the name of its own domain, the only key the
    callback writes. *)
Definition updateUserContext (newContext : UserContext.partial) : M t unit :=
  this <- get_owner ;;
  put_owner (set_userContext this
               (UserContext.merge (ObservMetricsConfig.userContext (config this))
                                  newContext)) ;;
  forEach (instrumentors this) rebuild_instrumentor.

Definition addFilter (filter : FilterFunction) : M t unit :=
  this <- get_owner ;;
  put_owner (set_Filter this (Filter.addCustomFilter (Filter this) filter)).

Definition getStats : M t Stats :=
  this <- get_owner ;;
  context <- getCurrentUserContext ;;
  ret (mkStats (isInitialized this)
               (map_keys (instrumentors this))
               (List.length (events this))
               (Filter.getStats (Filter this))
               context
               (map ExporterPlugin.name (exporters this))).

Definition destroy : M t unit :=
  this <- get_owner ;;
  forEach (exporters this)
    (fun exporter =>
       when (ExporterPlugin.has_destroy exporter)
            (effect (ExporterDestroy (ExporterPlugin.name exporter)))) ;;
  this <- get_owner ;;
  put_owner (mk (config this) (Filter this) [] [] [] false).

(** A span of the auto-instrumentation, as the request hooks read it. *)
Record SpanInfo := mkSpanInfo {
  span_name : option string;
  span_attributes : option Obj
}.

(** A request, as [enrichSpanWithBusinessContext] reads it. *)
Record RequestInfo := mkRequestInfo {
  request_url : option string;
  request_requestURL : option string
}.

Definition createEventFromSpan (span : SpanInfo) (type : string) : M t TelemetryEvent.t :=
  now <- Date_now ;;
  r <- Math_random ;;
  stamp <- Date_now ;;
  ret (TelemetryEvent.mk
         (now, r) stamp "unknown" EventType.span
         (match span_name span with
          | Some n => if String.eqb n "" then type else n
          | None => type
          end)
         (UserContext.or_default (span_attributes span) [])
         (BusinessContext.mk "unknown" None None BusinessImpact.performance None)
         None).

Definition find_domain (this : t) (name : string) : option DomainConfig.t :=
  find (fun d => String.eqb (DomainConfig.name d) name)
       (ObservMetricsConfig.domains (config this)).

Definition inferDomainFromUrl (this : t) (url : string) : option DomainConfig.t :=
  if includes url "/auth/" || includes url "/login" || includes url "/register"
  then find_domain this "authentication"
  else if includes url "/cart" || includes url "/checkout" || includes url "/payment"
  then find_domain this "ecommerce"
  else if includes url "/search" || includes url "/products" || includes url "/content"
  then find_domain this "content"
  else None.

Definition truthy_string (o : option string) : bool :=
  match o with Some s => negb (String.eqb s "") | None => false end.

Definition enrichSpanWithBusinessContext (request : RequestInfo) : M t unit :=
  this <- get_owner ;;
  let url :=
    if truthy_string (request_url request)
    then UserContext.or_default (request_url request) ""
    else if truthy_string (request_requestURL request)
    then UserContext.or_default (request_requestURL request) ""
    else "" in
  match inferDomainFromUrl this url with
  | Some domain =>
      effect (SetAttributes
                [("business.domain", VStr (DomainConfig.name domain));
                 ("business.priority",
                  VStr (Priority.to_string (DomainConfig.priority domain)));
                 ("business.sla_target", VNum (DomainConfig.slaTarget domain))])
  | None => ret tt
  end.

(** The [requestHook] of the fetch ([type = "fetch"]) and XMLHttpRequest
    ([type = "xhr"]) instrumentations. *)
Definition requestHook (type : string) (span : SpanInfo) (request : RequestInfo)
  : M t unit :=
  event <- createEventFromSpan span type ;;
  context <- getCurrentUserContext ;;
  this <- get_owner ;;
  pass <- Filter.shouldProcess (Filter this) event context ;;
  if negb pass then effect EndSpan
  else enrichSpanWithBusinessContext request.

(** What a host application can do with a coordinator and with the
    instrumentors it hands out.  The operation of a journey step is
    given by the value it rejects with, if any. *)
Inductive Call :=
| CallInitialize
| CallDestroy
| CallUpdateUserContext (newContext : UserContext.partial)
| CallAddFilter (filter : FilterFunction)
| CallGetStats
| CallApi (domainName name endpoint : string) (method : option string)
          (context : option ApiCallContext.t)
| CallJourney (domainName journeyName stepName : string) (rejection : option Thrown)
| CallMetric (domainName metricName : string) (value : Q) (context : option Obj)
| CallTrackError (domainName : string) (error : Obj) (context : option Obj).

Definition run_call (c : Call) : M t unit :=
  match c with
  | CallInitialize => initialize
  | CallDestroy => destroy
  | CallUpdateUserContext p => updateUserContext p
  | CallAddFilter f => addFilter f
  | CallGetStats => _ <- getStats ;; ret tt
  | CallApi domainName name endpoint method context =>
      i <- getDomainInstrumentor domainName ;;
      _ <- DomainInstrumentor.instrumentApiCall i name endpoint method context ;;
      ret tt
  | CallJourney domainName journeyName stepName rejection =>
      i <- getDomainInstrumentor domainName ;;
      _ <- DomainInstrumentor.instrumentUserJourney i journeyName stepName
             (match rejection with Some e => throw e | None => ret tt end) ;;
      ret tt
  | CallMetric domainName metricName value context =>
      i <- getDomainInstrumentor domainName ;;
      DomainInstrumentor.recordBusinessMetric i metricName value context
  | CallTrackError domainName error context =>
      i <- getDomainInstrumentor domainName ;;
      DomainInstrumentor.trackError i error context
  end.

(** A sequence of calls; a call that throws does not stop the host from
    making the next one. *)
Fixpoint run_calls (l : list Call) : M t unit :=
  match l with
  | [] => ret tt
  | c :: rest =>
      fun w => match run_call c w with
               | mkRun _ w' out =>
                   match run_calls rest w' with
                   | mkRun r w'' out' => mkRun r w'' (out ++ out')
                   end
               end
  end.
End ObservMetrics.

(** [defaultConfigs.ecommerce]. *)
Module defaultConfigs.
Definition ecommerce_domains : list DomainConfig.t :=
  [DomainConfig.mk "authentication" Priority.critical 2000 (1 # 10)
                   ["login"; "register"; "profile"] None;
   DomainConfig.mk "ecommerce" Priority.critical 3000 (5 # 100)
                   ["cart"; "checkout"; "payment"] None;
   DomainConfig.mk "content" Priority.medium 2000 1
                   ["search"; "browse"; "recommendations"] None].

Definition ecommerce_filtering (e : Env.t) : FilterConfig.t :=
  FilterConfig.mk true
                  (Some [if Env.hasWindow e then Env.hostname e else "localhost"])
                  5 1 true true None.
End defaultConfigs.

(** ** Exporters ([src/integrations/DatadogExporter.ts],
       [src/integrations/NewRelicExporter.ts])

    The batching of the two exporters.  What happens on the network is
    given from outside: whether a send goes through. *)

Module Datadog.
Record t := mk {
  apiKey : option string;
  endpoint : option string;
  batchSize : option Z;
  batchedEvents : list TelemetryEvent.t
}.

(** What leaves the exporter. *)
Inductive Delivery :=
| Sent (events : list TelemetryEvent.t)          (* sendToDatadog went through *)
| Logged (events : list TelemetryEvent.t)        (* logToConsole *)
| SendFailed (events : list TelemetryEvent.t).   (* console.error in the handler *)

Definition constructor : t := mk None None (Some 100%Z) [].

(** The properties of the platform configuration that the batching reads. *)
Record settings := mkSettings {
  s_apiKey : option string;
  s_endpoint : option string;
  s_batchSize : option Z
}.

Definition configure (x : t) (c : settings) : t :=
  mk (FilterConfig.over (s_apiKey c) (apiKey x))
     (FilterConfig.over (s_endpoint c) (endpoint x))
     (FilterConfig.over (s_batchSize c) (batchSize x))
     (batchedEvents x).

Definition set_batch (x : t) (l : list TelemetryEvent.t) : t :=
  mk (apiKey x) (endpoint x) (batchSize x) l.

(** [this.config.batchSize || 100]. *)
Definition threshold (x : t) : Z :=
  match batchSize x with
  | Some n => if Z.eqb n 0 then 100 else n
  | None => 100
  end.

Definition flush (send_ok : bool) (x : t) : t * list Delivery :=
  match batchedEvents x with
  | [] => (x, [])
  | _ :: _ =>
      let eventsToFlush := batchedEvents x in
      let x0 := set_batch x [] in
      if ObservMetrics.truthy_string (apiKey x) && ObservMetrics.truthy_string (endpoint x)
      then if send_ok then (x0, [Sent eventsToFlush])
           else (set_batch x0 (firstn 50 eventsToFlush ++ batchedEvents x0),
                 [SendFailed eventsToFlush])
      else (x0, [Logged eventsToFlush])
  end.

Definition export (send_ok : bool) (x : t) (events : list TelemetryEvent.t)
  : t * list Delivery :=
  let x1 := set_batch x (batchedEvents x ++ events) in
  if Z.leb (threshold x1) (Z.of_nat (List.length (batchedEvents x1)))
  then flush send_ok x1
  else (x1, []).

(** The callback of the flush timer. *)
Definition timer_tick (send_ok : bool) (x : t) : t * list Delivery :=
  match batchedEvents x with
  | [] => (x, [])
  | _ :: _ => flush send_ok x
  end.

Definition forceFlush (send_ok : bool) (x : t) : t * list Delivery := flush send_ok x.

Definition destroy (send_ok : bool) (x : t) : t * list Delivery :=
  match batchedEvents x with
  | [] => (x, [])
  | _ :: _ => flush send_ok x
  end.

(** A sequence of [export] calls, each with the fate of its send. *)
Fixpoint exports (x : t) (l : list (bool * list TelemetryEvent.t)) : t * list Delivery :=
  match l with
  | [] => (x, [])
  | (send_ok, events) :: rest =>
      let (x1, out) := export send_ok x events in
      let (x2, out') := exports x1 rest in
      (x2, (out ++ out')%list)
  end.

(** The events that were handed on, to Datadog or to the console. *)
Fixpoint delivered (out : list Delivery) : list TelemetryEvent.t :=
  match out with
  | [] => []
  | Sent l :: rest => (l ++ delivered rest)%list
  | Logged l :: rest => (l ++ delivered rest)%list
  | SendFailed _ :: rest => delivered rest
  end.
End Datadog.

Module NewRelic.
Record t := mk {
  apiKey : option string;
  batchSize : option Z;
  batchedEvents : list TelemetryEvent.t
}.

Inductive Delivery :=
| SentSpans (events : list TelemetryEvent.t)     (* sendSpansToNewRelic went through *)
| SentCustom (events : list TelemetryEvent.t)    (* sendCustomEventsToNewRelic *)
| SentErrors (events : list TelemetryEvent.t)    (* sendErrorsToNewRelic *)
| Logged (events : list TelemetryEvent.t)
| SendFailed (events : list TelemetryEvent.t).

(** Whether each of the three requests goes through. *)
Record Network := mkNetwork {
  spans_ok : bool;
  custom_ok : bool;
  errors_ok : bool
}.

Definition constructor : t := mk None (Some 50%Z) [].

Definition set_batch (x : t) (l : list TelemetryEvent.t) : t :=
  mk (apiKey x) (batchSize x) l.

Definition threshold (x : t) : Z :=
  match batchSize x with
  | Some n => if Z.eqb n 0 then 50 else n
  | None => 50
  end.

Definition is_span (e : TelemetryEvent.t) : bool :=
  match TelemetryEvent.eventType e with EventType.span => true | _ => false end.

Definition is_custom (e : TelemetryEvent.t) : bool :=
  match TelemetryEvent.eventType e with
  | EventType.metric => true
  | EventType.log => true
  | _ => false
  end.

Definition is_error (e : TelemetryEvent.t) : bool :=
  match TelemetryEvent.eventType e with EventType.error => true | _ => false end.

Definition is_empty {A} (l : list A) : bool :=
  match l with [] => true | _ :: _ => false end.

(** [sendToNewRelic]: the deliveries made, and whether it returned
    ([true]) or threw ([false]). *)
Definition sendToNewRelic (net : Network) (events : list TelemetryEvent.t)
  : bool * list Delivery :=
  let spanEvents := filter is_span events in
  let customEvents := filter is_custom events in
  let errorEvents := filter is_error events in
  let after_spans :=
    if is_empty spanEvents then (true, [])
    else if spans_ok net then (true, [SentSpans spanEvents]) else (false, []) in
  if negb (fst after_spans) then after_spans
  else
    let after_custom :=
      if is_empty customEvents then (true, snd after_spans)
      else if custom_ok net then (true, (snd after_spans ++ [SentCustom customEvents])%list)
           else (false, snd after_spans) in
    if negb (fst after_custom) then after_custom
    else
      if is_empty errorEvents then (true, snd after_custom)
      else if errors_ok net then (true, (snd after_custom ++ [SentErrors errorEvents])%list)
           else (false, snd after_custom).

Definition flush (net : Network) (x : t) : t * list Delivery :=
  match batchedEvents x with
  | [] => (x, [])
  | _ :: _ =>
      let eventsToFlush := batchedEvents x in
      let x0 := set_batch x [] in
      if ObservMetrics.truthy_string (apiKey x)
      then match sendToNewRelic net eventsToFlush with
           | (true, out) => (x0, out)
           | (false, out) =>
               (set_batch x0 (firstn 25 eventsToFlush ++ batchedEvents x0),
                (out ++ [SendFailed eventsToFlush])%list)
           end
      else (x0, [Logged eventsToFlush])
  end.

Definition export (net : Network) (x : t) (events : list TelemetryEvent.t)
  : t * list Delivery :=
  let x1 := set_batch x (batchedEvents x ++ events) in
  if Z.leb (threshold x1) (Z.of_nat (List.length (batchedEvents x1)))
  then flush net x1
  else (x1, []).

Fixpoint delivered (out : list Delivery) : list TelemetryEvent.t :=
  match out with
  | [] => []
  | SentSpans l :: rest => (l ++ delivered rest)%list
  | SentCustom l :: rest => (l ++ delivered rest)%list
  | SentErrors l :: rest => (l ++ delivered rest)%list
  | Logged l :: rest => (l ++ delivered rest)%list
  | SendFailed _ :: rest => delivered rest
  end.
End NewRelic.

(** ** Fixtures, after the repository's tests *)

Module Fixtures.
(** An ordinary desktop browser ([tests/setup.ts]). *)
Definition desktop : Env.t :=
  Env.mk "Mozilla/5.0 (Windows NT 10.0; Win64; x64) AppleWebKit/537.36"
         true false false false false 1040 1920 false false false None
         1920 1080 "localhost" false 1920 969 0 None.

(** A clock that advances by 250 ms between readings. *)
Definition clock (n : nat) : Z := 1700000000000 + 250 * Z.of_nat n.

Definition world_of {X} (rnd : nat -> Q) (x : X) : World X :=
  mkWorld desktop clock 0 rnd 0 x.

Definition mockContext : UserContext.t :=
  UserContext.mk None "test-session" "premium" true DeviceType.desktop None.

Definition mockEvent (severity : Severity.t) : TelemetryEvent.t :=
  TelemetryEvent.mk (0%Z, 0%Q) 0 "unknown" EventType.span "test-event"
    [("http.url", VStr "http://localhost:3000/test")]
    (BusinessContext.mk "unknown" None None BusinessImpact.performance None)
    (Some severity).

(** The configuration of the test [should apply sampling rate]. *)
Definition samplingConfig : FilterConfig.t :=
  FilterConfig.mk false (Some ["localhost"]) 0 0 false false None.

(** A configuration in which every rule but the first rejects. *)
Definition rejectingConfig : FilterConfig.t :=
  FilterConfig.mk true (Some ["example.com"]) 0 0 true true
                  (Some [fun _ _ => Ok false]).

Definition mockDomain : DomainConfig.t :=
  DomainConfig.mk "ecommerce" Priority.critical 2000 (1 # 10)
                  ["cart"; "checkout"; "payment"] None.

Definition mockUserContext : UserContext.t :=
  UserContext.mk None "test-session-123" "premium" true DeviceType.desktop None.

(** A sink that takes the event and returns. *)
Definition mockOnEvent {X} : TelemetryEvent.t -> M X unit := fun _ => ret tt.

(** The configuration of the coordinator's unit tests. *)
Definition mockConfig (userContext : option UserContext.partial)
  : ObservMetricsConfig.input :=
  ObservMetricsConfig.mkInput
    userContext
    [DomainConfig.mk "authentication" Priority.critical 2000 (1 # 10)
                     ["login"; "register"] None;
     DomainConfig.mk "ecommerce" Priority.critical 3000 (5 # 100)
                     ["cart"; "checkout"] None]
    (FilterConfig.mk true (Some ["localhost"]) 0 1 true false None)
    (Some (PlatformConfig.mkPartial (Some PlatformConfig.console) None None))
    false.

Definition testUserContext : UserContext.partial :=
  UserContext.mkPartial None (Some "test-session") (Some "premium") (Some true)
                        (Some DeviceType.desktop) None.
End Fixtures.

(** ** Vocabulary of the statements *)

(** The rules that come before sampling all let the event through. *)
Definition reaches_sampling (f : Filter.t) (e : Env.t) (event : TelemetryEvent.t)
           (context : UserContext.t) : Prop :=
  Filter.is_error_or_critical (TelemetryEvent.severity event) = false /\
  (FilterConfig.enableBotDetection (Filter.config f) && Filter.isBotSession f e context
   = false) /\
  Filter.isDomainAllowed f e event = Ok true /\
  Filter.isNoiseEvent f event = false /\
  (FilterConfig.excludeExtensions (Filter.config f) && Filter.isExtensionEvent f event
   = false) /\
  match FilterConfig.customFilters (Filter.config f) with
  | Some filters => Filter.passes_customFilters filters event context = Ok true
  | None => True
  end.

Definition draw_next {X} (w : World X) : World X :=
  mkWorld (env w) (now_src w) (now_pos w) (rnd_src w) (S (rnd_pos w)) (owner w).

(** A sink that returns normally on every event. *)
Definition never_throws {X} (sink : TelemetryEvent.t -> M X unit) : Prop :=
  forall ev w, result (sink ev w) = Ok tt.

(** The world after [n] more readings of the clock and [m] more draws. *)
Definition advance {X} (n m : nat) (w : World X) : World X :=
  mkWorld (env w) (now_src w) (n + now_pos w) (rnd_src w) (m + rnd_pos w) (owner w).

(** [part] occurs in [whole]. *)
Definition occurs_in (part whole : string) : Prop :=
  exists pre post, whole = pre ++ part ++ post.

(** The coordinator [b] differs from [a] at most in its instrumentor map. *)
Definition same_but_instrumentors (a b : ObservMetrics.t) : Prop :=
  ObservMetrics.config b = ObservMetrics.config a /\
  ObservMetrics.Filter b = ObservMetrics.Filter a /\
  ObservMetrics.exporters b = ObservMetrics.exporters a /\
  ObservMetrics.events b = ObservMetrics.events a /\
  ObservMetrics.isInitialized b = ObservMetrics.isInitialized a.

(** The browser passes [isRealUserSession]: there is a window and no bot
    signal. *)
Definition real_user_env (f : Filter.t) (e : Env.t) : Prop :=
  Env.hasWindow e = true /\ forall c, Filter.isBotSession f e c = false.

(** [handleTelemetryEvent] admits [event] in the world [w]. *)
Definition admits (w : World ObservMetrics.t) (event : TelemetryEvent.t) : Prop :=
  exists context,
    result (ObservMetrics.getCurrentUserContext w) = Ok context /\
    result (Filter.shouldProcess (ObservMetrics.Filter (owner w)) event context
              (world (ObservMetrics.getCurrentUserContext w))) = Ok true.

(** [m] keeps the property [J] of the owner and hands nothing to an
    exporter, itself or through a sink. *)
Definition keeps {X A} (J : X -> Prop) (m : M X A) : Prop :=
  forall w, J (owner w) ->
            J (owner (world (m w))) /\ exported (calls (m w)) = [].

Definition no_exporters (o : ObservMetrics.t) : Prop := ObservMetrics.exporters o = [].

Ltac js_unfold :=
  unfold finally, try_catch, bind, effect, lift, when, ret, throw,
         Date_now, Math_random, get_env, get_owner, put_owner, call_sink.

Ltac js_simpl :=
  cbn -[ltb gtb String.append stack_text dec Qdiv inject_Z Z.sub].

(** Case analysis on what a called sink did. *)
Ltac sink_cases :=
  repeat match goal with
         | |- context [?sink ?ev ?w] =>
             match type of (sink ev w) with
             | Run _ unit => destruct (sink ev w) as [[[]|[| |?|?]] ? ?]; js_simpl
             end
         end.

(** The URL that the noise and extension rules read from [event]:
    [attributes['http.url'] || attributes['url']], when it is a non-empty
    string. *)
Definition event_url (event : TelemetryEvent.t) (url : string) : Prop :=
  url <> "" /\
  (get (TelemetryEvent.attributes event) "http.url" = VStr url \/
   (truthy (get (TelemetryEvent.attributes event) "http.url") = false /\
    get (TelemetryEvent.attributes event) "url" = VStr url)).

(** The stack trace that the extension rule reads from [event]. *)
Definition event_stack (event : TelemetryEvent.t) (stack : string) : Prop :=
  stack <> "" /\ get (TelemetryEvent.attributes event) "error.stack" = VStr stack.

(** [s] ends with [suffix], or has [suffix] followed by a question mark. *)
Definition ends_or_query (suffix s : string) : Prop :=
  (exists pre, s = pre ++ suffix) \/ (exists pre post, s = pre ++ suffix ++ "?" ++ post).

(** A filter whose pattern tables are the ones [initializePatterns] sets. *)
Definition has_static_patterns (f : Filter.t) : Prop :=
  Filter.botPatterns f = Filter.bot_table /\
  Filter.extensionPatterns f = Filter.extension_table /\
  Filter.noisePatterns f = Filter.noise_table.

(** The regular expression [p] matches [s]. *)
Definition matches (p : RegExp) (s : string) : Prop :=
  match p with
  | Lit lit => occurs_in lit s
  | LitI lit => occurs_in (toLowerCase lit) (toLowerCase s)
  | LitEnd lit => ends_or_query lit s
  end.

(** The instrumentor map [after] holds, for every name of [domains], an
    instrumentor of a domain of that name taken from [domains]; under
    every other name it holds what [before] held; and it repeats no name
    if [before] repeated none. *)
Definition registers (domains : list DomainConfig.t)
           (before after : list (string * ObservMetrics.Instrumentor)) : Prop :=
  (forall k, In k (map DomainConfig.name domains) ->
             exists i, table_get after k = Some i /\
                       In (ObservMetrics.i_domain i) domains /\
                       DomainConfig.name (ObservMetrics.i_domain i) = k) /\
  (forall k, ~ In k (map DomainConfig.name domains) ->
             table_get after k = table_get before k) /\
  (NoDup (map_keys before) -> NoDup (map_keys after)).

(** The instrumentor [i] captured the context that
    [getCurrentUserContext] returns, at some reading of the clock, in the
    browser [e] for a coordinator holding the user context [held]. *)
Definition refreshed (held : UserContext.partial) (e : Env.t)
           (i : ObservMetrics.Instrumentor) : Prop :=
  exists w : World ObservMetrics.t,
    env w = e /\
    ObservMetricsConfig.userContext (ObservMetrics.config (owner w)) = held /\
    result (ObservMetrics.getCurrentUserContext w) = Ok (ObservMetrics.i_userContext i).

(** Every instrumentor of [o] is stored under the name of its own
    domain, and that name is the name of a configured domain. *)
Definition stored_by_domain_name (o : ObservMetrics.t) : Prop :=
  forall k i,
    In (k, i) (ObservMetrics.instrumentors o) ->
    k = DomainConfig.name (ObservMetrics.i_domain i) /\
    In k (map DomainConfig.name
              (ObservMetricsConfig.domains (ObservMetrics.config o))).

(** Every rule before the custom predicates lets [event] through in the
    browser [e], and the loop over the predicates throws [err]. *)
Definition predicate_throws (f : Filter.t) (e : Env.t) (event : TelemetryEvent.t)
           (context : UserContext.t) (err : Thrown) : Prop :=
  Filter.is_error_or_critical (TelemetryEvent.severity event) = false /\
  (FilterConfig.enableBotDetection (Filter.config f) && Filter.isBotSession f e context
   = false) /\
  Filter.isDomainAllowed f e event = Ok true /\
  Filter.isNoiseEvent f event = false /\
  (FilterConfig.excludeExtensions (Filter.config f) && Filter.isExtensionEvent f event
   = false) /\
  exists filters,
    FilterConfig.customFilters (Filter.config f) = Some filters /\
    Filter.passes_customFilters filters event context = Throw err.

(** What the filter of the coordinator comes to on [event] when
    [handleTelemetryEvent] consults it in the world [w]: a decision or a
    thrown value. *)
Definition filter_decides (w : World ObservMetrics.t) (event : TelemetryEvent.t)
           (outcome : Result bool) : Prop :=
  exists context,
    result (ObservMetrics.getCurrentUserContext w) = Ok context /\
    result (Filter.shouldProcess (ObservMetrics.Filter (owner w)) event context
              (world (ObservMetrics.getCurrentUserContext w))) = outcome.

(** * Properties *)

(** ** Filter engine *)

Lemma ltb_spec (x y : Q) : ltb x y = true <-> (x < y)%Q.
Proof.
  unfold ltb. rewrite negb_true_iff. split; intro H.
  - apply Qnot_le_lt. intro Hle. apply Qle_bool_iff in Hle. congruence.
  - destruct (Qle_bool y x) eqn:E; [|reflexivity].
    apply Qle_bool_iff in E. exfalso. exact (Qlt_not_le _ _ H E).
Qed.

Lemma gtb_spec (x y : Q) : gtb x y = true <-> (y < x)%Q.
Proof. unfold gtb. apply ltb_spec. Qed.

Lemma gtb_false (x y : Q) : gtb x y = false <-> (x <= y)%Q.
Proof.
  split; intro H.
  - apply Qnot_lt_le. intro Hlt. apply gtb_spec in Hlt. congruence.
  - destruct (gtb x y) eqn:E; [|reflexivity].
    apply gtb_spec in E. exfalso. exact (Qlt_not_le _ _ E H).
Qed.

(** C1. An event of severity [error] or [critical] is admitted by
    [shouldProcess], whatever the filter's configuration and pattern
    tables, the user context, the browser and the random source; the
    decision is taken before anything is read or drawn. *)
Theorem shouldProcess_admits_error_and_critical :
  forall (X : Type) (f : Filter.t) (event : TelemetryEvent.t)
         (context : UserContext.t) (w : World X),
    TelemetryEvent.severity event = Some Severity.error \/
    TelemetryEvent.severity event = Some Severity.critical ->
    Filter.shouldProcess f event context w = mkRun (Ok true) w [].
Proof.
  intros X f event context w [H | H]; unfold Filter.shouldProcess;
    rewrite H; reflexivity.
Qed.

Lemma shouldProcess_admits_error_and_critical_witness :
  (TelemetryEvent.severity (Fixtures.mockEvent Severity.error) = Some Severity.error \/
   TelemetryEvent.severity (Fixtures.mockEvent Severity.error) = Some Severity.critical) /\
  Filter.shouldProcess (Filter.constructor Fixtures.rejectingConfig)
    (Fixtures.mockEvent Severity.error) Fixtures.mockContext
    (Fixtures.world_of (fun _ => 1 # 2) tt)
  = mkRun (Ok true) (Fixtures.world_of (fun _ => 1 # 2) tt) [].
Proof.
  split.
  - left. reflexivity.
  - apply (shouldProcess_admits_error_and_critical unit
             (Filter.constructor Fixtures.rejectingConfig)
             (Fixtures.mockEvent Severity.error) Fixtures.mockContext
             (Fixtures.world_of (fun _ => 1 # 2) tt)).
    left. reflexivity.
Defined.

(** When sampling is reached, the decision is [not (draw > samplingRate)]. *)
Lemma shouldProcess_at_sampling :
  forall (X : Type) (f : Filter.t) (event : TelemetryEvent.t)
         (context : UserContext.t) (w : World X),
    reaches_sampling f (env w) event context ->
    Filter.shouldProcess f event context w
    = mkRun (Ok (negb (gtb (rnd_src w (rnd_pos w))
                           (FilterConfig.samplingRate (Filter.config f)))))
            (draw_next w) [].
Proof.
  intros X f event context w (Hsev & Hbot & Hdom & Hnoise & Hext & Hcustom).
  unfold Filter.shouldProcess, bind, lift, get_env, Math_random, ret, draw_next.
  rewrite Hsev. cbn. rewrite Hbot, Hdom. cbn. rewrite Hnoise, Hext.
  replace (match FilterConfig.customFilters (Filter.config f) with
           | Some filters => Filter.passes_customFilters filters event context
           | None => Ok true
           end) with (@Ok bool true)
    by (destruct (FilterConfig.customFilters (Filter.config f)); congruence).
  cbn. destruct (gtb _ _); reflexivity.
Qed.

(** With [samplingRate = 1] no draw of [[0, 1)] is rejected by sampling. *)
Lemma sampling_rate_one_never_rejects :
  forall (X : Type) (f : Filter.t) (event : TelemetryEvent.t)
         (context : UserContext.t) (w : World X),
    reaches_sampling f (env w) event context ->
    (FilterConfig.samplingRate (Filter.config f) == 1)%Q ->
    (0 <= rnd_src w (rnd_pos w) < 1)%Q ->
    result (Filter.shouldProcess f event context w) = Ok true.
Proof.
  intros X f event context w Hreach Hrate [_ Hlt].
  rewrite (shouldProcess_at_sampling X f event context w Hreach). cbn.
  replace (gtb (rnd_src w (rnd_pos w)) (FilterConfig.samplingRate (Filter.config f)))
    with false; [reflexivity|].
  symmetry. apply gtb_false. rewrite Hrate. apply Qlt_le_weak. exact Hlt.
Qed.

(** With [samplingRate = 0] every positive draw is rejected. *)
Lemma sampling_rate_zero_rejects_positive_draws :
  forall (X : Type) (f : Filter.t) (event : TelemetryEvent.t)
         (context : UserContext.t) (w : World X),
    reaches_sampling f (env w) event context ->
    (FilterConfig.samplingRate (Filter.config f) == 0)%Q ->
    (0 < rnd_src w (rnd_pos w))%Q ->
    result (Filter.shouldProcess f event context w) = Ok false.
Proof.
  intros X f event context w Hreach Hrate Hpos.
  rewrite (shouldProcess_at_sampling X f event context w Hreach). cbn.
  replace (gtb (rnd_src w (rnd_pos w)) (FilterConfig.samplingRate (Filter.config f)))
    with true; [reflexivity|].
  symmetry. apply gtb_spec. rewrite Hrate. exact Hpos.
Qed.

(** C2. With [samplingRate = 0.0], the configuration of the test
    [should apply sampling rate] and an [info] event that passes every
    earlier rule, a draw of exactly [0] is not greater than the rate, and
    [shouldProcess] returns true. *)
Theorem shouldProcess_rate_zero_draw_zero :
  reaches_sampling (Filter.constructor Fixtures.samplingConfig) Fixtures.desktop
                   (Fixtures.mockEvent Severity.info) Fixtures.mockContext /\
  FilterConfig.samplingRate (Filter.config (Filter.constructor Fixtures.samplingConfig))
  = 0%Q /\
  result (Filter.shouldProcess (Filter.constructor Fixtures.samplingConfig)
            (Fixtures.mockEvent Severity.info) Fixtures.mockContext
            (Fixtures.world_of (fun _ => 0%Q) tt))
  = Ok true.
Proof.
  split; [|split].
  - unfold reaches_sampling. repeat split; vm_compute; reflexivity.
  - reflexivity.
  - vm_compute. reflexivity.
Qed.

(** ** Domain instrumentor *)

Lemma emitted_app (a b : list Effect) : emitted (a ++ b) = (emitted a ++ emitted b)%list.
Proof.
  induction a as [|e a IH]; [reflexivity|].
  destruct e; cbn; rewrite ?IH; reflexivity.
Qed.

(** Without a sink the failure path of [instrumentApiCall] hands no event
    to anyone and returns the same failure result. *)
Lemma instrumentApiCall_failure_without_sink :
  forall X (d : DomainConfig.t) (u : UserContext.t) name endpoint method context
         (w : World X),
    (rnd_src w (S (rnd_pos w)) < DomainConfig.errorThreshold d)%Q ->
    let run := DomainInstrumentor.instrumentApiCall (DomainInstrumentor.mk d u None)
                 name endpoint method context w in
    result run
    = Ok (InstrumentationResult.mk false
            (now_src w (S (now_pos w)) - now_src w (now_pos w))
            (Some (new_Error ("API call failed: " ++ endpoint)))
            [("error_occurred", 1%Z)]) /\
    emitted (calls run) = [].
Proof.
  intros X d u name endpoint method context w Hdraw run. subst run.
  apply ltb_spec in Hdraw.
  unfold DomainInstrumentor.instrumentApiCall, DomainInstrumentor.executeApiCall,
         DomainInstrumentor.emitTelemetryEvent.
  js_unfold. js_simpl. rewrite Hdraw. js_simpl. split; reflexivity.
Qed.

(** C3 (amended). When the instrumentor has a sink that returns normally
    and the executor step throws, [instrumentApiCall] hands the sink
    exactly one event, of type [error] and severity [error], whose
    attributes are the error's name, message and stack; it returns without
    throwing the result [{success: false, duration, error, customMetrics:
    {error_occurred: 1}}], where [duration] is the clock reading in the
    handler minus the reading at the start of the call. *)
Theorem instrumentApiCall_failure_with_sink :
  forall X (i : DomainInstrumentor.t X) sink name endpoint method context (w : World X),
    DomainInstrumentor.onEvent i = Some sink ->
    never_throws sink ->
    (rnd_src w (S (rnd_pos w)) < DomainConfig.errorThreshold (DomainInstrumentor.domain i))%Q ->
    let run := DomainInstrumentor.instrumentApiCall i name endpoint method context w in
    let message := "API call failed: " ++ endpoint in
    result run
    = Ok (InstrumentationResult.mk false
            (now_src w (S (now_pos w)) - now_src w (now_pos w))
            (Some (new_Error message))
            [("error_occurred", 1%Z)]) /\
    exists ev,
      emitted (calls run) = [ev] /\
      TelemetryEvent.eventType ev = EventType.error /\
      TelemetryEvent.severity ev = Some Severity.error /\
      TelemetryEvent.attributes ev
      = [("error.type", VStr "Error");
         ("error.message", VStr message);
         ("error.stack", VStr (stack_text "Error" message))].
Proof.
  intros X [d u o] sink name endpoint method context w Ho Hsink Hdraw run message.
  cbn in Ho, Hdraw. subst o run message.
  apply ltb_spec in Hdraw.
  unfold DomainInstrumentor.instrumentApiCall, DomainInstrumentor.executeApiCall,
         DomainInstrumentor.emitTelemetryEvent.
  js_unfold. js_simpl. rewrite Hdraw. js_simpl.
  match goal with
  | |- context [sink ?ev ?w1] =>
      pose proof (Hsink ev w1) as Hs; destruct (sink ev w1) as [r w2 c2]
  end.
  cbn in Hs. subst r. js_simpl.
  split; [reflexivity|].
  eexists. split; [reflexivity|]. repeat split.
Qed.

Lemma instrumentApiCall_failure_with_sink_witness :
  let i := DomainInstrumentor.mk Fixtures.mockDomain Fixtures.mockUserContext
                                 (Some Fixtures.mockOnEvent) in
  let run := DomainInstrumentor.instrumentApiCall i "checkout" "/api/checkout"
               (Some "POST") None (Fixtures.world_of (fun _ => 1 # 20) tt) in
  result run
  = Ok (InstrumentationResult.mk false 250
          (Some (new_Error "API call failed: /api/checkout"))
          [("error_occurred", 1%Z)]) /\
  List.length (emitted (calls run)) = 1%nat.
Proof.
  intros i run.
  destruct (instrumentApiCall_failure_with_sink unit i Fixtures.mockOnEvent
              "checkout" "/api/checkout" (Some "POST") None
              (Fixtures.world_of (fun _ => 1 # 20) tt))
    as [Hres [ev [Hev _]]].
  - reflexivity.
  - intros ev w. reflexivity.
  - vm_compute. reflexivity.
  - split.
    + exact Hres.
    + fold run in Hev. rewrite Hev. reflexivity.
Defined.

(** C3 as stated fails for an instrumentor built without a sink: the
    executor throws, the failure result is returned, and no event is
    handed to anyone. *)
Lemma instrumentApiCall_failure_no_sink_no_event :
  let i := DomainInstrumentor.mk Fixtures.mockDomain Fixtures.mockUserContext None in
  let run := DomainInstrumentor.instrumentApiCall i "checkout" "/api/checkout"
               (Some "POST") None (Fixtures.world_of (fun _ => 1 # 20) tt) in
  result run
  = Ok (InstrumentationResult.mk false 250
          (Some (new_Error "API call failed: /api/checkout"))
          [("error_occurred", 1%Z)]) /\
  emitted (calls run) = [] /\
  ~ (exists ev, emitted (calls run) = [ev]).
Proof.
  intros i run.
  assert (H : emitted (calls run) = []) by (vm_compute; reflexivity).
  split; [vm_compute; reflexivity|]. split; [exact H|].
  intros [ev Hev]. rewrite H in Hev. discriminate.
Qed.

(** [getStepNumber] returns a number for every journey name that is not
    inherited from [Object.prototype], and throws for the others. *)
Lemma getStepNumber_cases (journeyName stepName : string) :
  (inherited journeyName = false ->
   exists n, @DomainInstrumentor.getStepNumber journeyName stepName = Ok n) /\
  (inherited journeyName = true ->
   @DomainInstrumentor.getStepNumber journeyName stepName
   = Throw (TypeError_not_a_function "steps.indexOf")).
Proof.
  unfold DomainInstrumentor.getStepNumber, literal_get. cbn [table_get].
  destruct (String.eqb journeyName "user_login_flow") eqn:E1;
    [|destruct (String.eqb journeyName "purchase_flow") eqn:E2;
      [|destruct (String.eqb journeyName "product_discovery") eqn:E3]].
  all: try apply String.eqb_eq in E1; try apply String.eqb_eq in E2;
    try apply String.eqb_eq in E3; subst.
  all: split; intro H; try (eexists; reflexivity); try discriminate H.
  - rewrite H. eexists. reflexivity.
  - rewrite H. reflexivity.
Qed.

(** When the operation rejects with an object or a primitive,
    [instrumentUserJourney] returns the failure result and hands the sink
    no event of its own (for a journey name that is not inherited from
    [Object.prototype], so that the operation is run). *)
Lemma instrumentUserJourney_failure_returns :
  forall X (i : DomainInstrumentor.t X) journeyName stepName
         (operation : M X unit) (w w' : World X) (error : Thrown) (c : list Effect),
    inherited journeyName = false ->
    operation (advance 1 0 w) = mkRun (Throw error) w' c ->
    error <> Undefined -> error <> Null ->
    let run := DomainInstrumentor.instrumentUserJourney i journeyName stepName operation w in
    result run
    = Ok (InstrumentationResult.mk false
            (now_src w' (now_pos w') - now_src w (now_pos w))
            (Some error)
            [("journey_step_failed", 1%Z)]) /\
    emitted (calls run) = emitted c.
Proof.
  intros X i journeyName stepName operation w w' error c Hname Hop Hu Hn run. subst run.
  destruct (proj1 (getStepNumber_cases journeyName stepName) Hname) as [n Hstep].
  unfold DomainInstrumentor.instrumentUserJourney.
  js_unfold. cbn -[ltb gtb String.append stack_text dec Qdiv inject_Z Z.sub
                   DomainInstrumentor.getStepNumber].
  rewrite Hstep.
  js_simpl. unfold advance in Hop. cbn in Hop. rewrite Hop. js_simpl.
  destruct error as [| |v|props]; try congruence; js_simpl;
    (split; [reflexivity|]);
    cbn; rewrite !emitted_app; cbn; rewrite !app_nil_r; reflexivity.
Qed.

(** C4. An operation that rejects with [null] makes the handler's read of
    [error.message] throw: [instrumentUserJourney] itself throws a
    [TypeError], for every instrumentor and step and every journey whose
    operation is run, and the same happens for [undefined].  The
    operation is run unless the journey name is one that the step table
    inherits from [Object.prototype]: there [getStepNumber] throws
    first, and the handler returns the failure result with that
    [TypeError]. *)
Theorem instrumentUserJourney_nullish_rejection_throws :
  forall X (i : DomainInstrumentor.t X) journeyName stepName (w : World X),
    (inherited journeyName = false ->
     result (DomainInstrumentor.instrumentUserJourney i journeyName stepName
               (throw Null) w)
     = Throw (TypeError_read "null" "message") /\
     result (DomainInstrumentor.instrumentUserJourney i journeyName stepName
               (throw Undefined) w)
     = Throw (TypeError_read "undefined" "message")) /\
    (inherited journeyName = true ->
     forall operation,
       result (DomainInstrumentor.instrumentUserJourney i journeyName stepName
                 operation w)
       = Ok (InstrumentationResult.mk false
               (now_src w (S (now_pos w)) - now_src w (now_pos w))
               (Some (TypeError_not_a_function "steps.indexOf"))
               [("journey_step_failed", 1%Z)])).
Proof.
  intros X i journeyName stepName w.
  destruct (getStepNumber_cases journeyName stepName) as [Hown Hinherited].
  split; intro Hname.
  - destruct (Hown Hname) as [n Hstep].
    unfold DomainInstrumentor.instrumentUserJourney.
    js_unfold. cbn -[ltb gtb String.append stack_text dec Qdiv inject_Z Z.sub
                     DomainInstrumentor.getStepNumber].
    rewrite Hstep. js_simpl. split; reflexivity.
  - intro operation. specialize (Hinherited Hname).
    unfold DomainInstrumentor.instrumentUserJourney.
    js_unfold. cbn -[ltb gtb String.append stack_text dec Qdiv inject_Z Z.sub
                     DomainInstrumentor.getStepNumber].
    rewrite Hinherited. js_simpl. reflexivity.
Qed.

Lemma instrumentUserJourney_nullish_rejection_throws_witness :
  result (DomainInstrumentor.instrumentUserJourney
            (DomainInstrumentor.mk Fixtures.mockDomain Fixtures.mockUserContext
                                   (Some Fixtures.mockOnEvent))
            "purchase_flow" "checkout" (throw Null)
            (Fixtures.world_of (fun _ => 1 # 2) tt))
  = Throw (TypeError_read "null" "message").
Proof.
  apply (instrumentUserJourney_nullish_rejection_throws unit
           (DomainInstrumentor.mk Fixtures.mockDomain Fixtures.mockUserContext
                                  (Some Fixtures.mockOnEvent))
           "purchase_flow" "checkout" (Fixtures.world_of (fun _ => 1 # 2) tt)).
  reflexivity.
Defined.

Lemma getSlaViolationSeverity_buckets :
  forall X (i : DomainInstrumentor.t X) (duration : Z),
    (0 < DomainConfig.slaTarget (DomainInstrumentor.domain i))%Q ->
    let ratio :=
      (inject_Z duration / DomainConfig.slaTarget (DomainInstrumentor.domain i))%Q in
    let bucket := DomainInstrumentor.getSlaViolationSeverity i duration in
    ((3 < ratio)%Q -> bucket = "critical") /\
    (~ (3 < ratio)%Q -> (2 < ratio)%Q -> bucket = "high") /\
    (~ (2 < ratio)%Q -> (3 # 2 < ratio)%Q -> bucket = "medium") /\
    (~ (3 # 2 < ratio)%Q -> bucket = "low").
Proof.
  intros X i duration Hpos ratio bucket. subst bucket.
  unfold DomainInstrumentor.getSlaViolationSeverity.
  replace (Qeq_bool (DomainConfig.slaTarget (DomainInstrumentor.domain i)) 0) with false
    by (symmetry; apply not_true_is_false; intro H; apply Qeq_bool_iff in H;
        rewrite H in Hpos; discriminate Hpos).
  fold ratio. clearbody ratio.
  destruct (gtb ratio 3) eqn:H3;
    [apply gtb_spec in H3 | apply gtb_false in H3];
  (destruct (gtb ratio 2) eqn:H2;
    [apply gtb_spec in H2 | apply gtb_false in H2]);
  (destruct (gtb ratio (3 # 2)) eqn:H1;
    [apply gtb_spec in H1 | apply gtb_false in H1]);
  repeat split; intros; try reflexivity; exfalso; lra.
Qed.

Ltac decide_iff :=
  split; unfold not; intros;
  first [reflexivity | discriminate | assumption | lra | (exfalso; lra)].

(** C5. A call of [instrumentApiCall] that returns [success: true], for a
    domain whose SLA target [t] is a positive whole number of
    milliseconds below 2^52 and with clock readings in the range of
    [Date.now()] (where the double quotient [d / t] stands on the same
    side of 3, 2 and 1.5 as the exact one), measured the duration [d] as
    the second clock reading minus the first, and: [sla_violated] is 1
    when [d > t] and 0 otherwise; every event handed to the sink is a
    [span] event of severity [warn] when [d > t] and [info] otherwise
    (exactly one event when there is a sink); and when [d > t] the span
    is given the attribute [sla.violation_severity], which is [critical]
    if [d / t > 3], else [high] if [d / t > 2], else [medium] if
    [d / t > 1.5], else [low]. *)
Theorem instrumentApiCall_success_sla :
  forall X (i : DomainInstrumentor.t X) name endpoint method context (w : World X) res
         (target : Z),
    (DomainConfig.slaTarget (DomainInstrumentor.domain i) == inject_Z target)%Q ->
    (0 < target < 2 ^ 52)%Z ->
    (0 <= now_src w (now_pos w) <= 8640000000000000)%Z ->
    (0 <= now_src w (S (now_pos w)) <= 8640000000000000)%Z ->
    result (DomainInstrumentor.instrumentApiCall i name endpoint method context w) = Ok res ->
    InstrumentationResult.success res = true ->
    let run := DomainInstrumentor.instrumentApiCall i name endpoint method context w in
    let d := inject_Z (InstrumentationResult.duration res) in
    let t := DomainConfig.slaTarget (DomainInstrumentor.domain i) in
    InstrumentationResult.duration res
    = (now_src w (S (now_pos w)) - now_src w (now_pos w))%Z /\
    (exists flag : Z,
        InstrumentationResult.customMetrics res
        = [("sla_violated", flag); ("response_status", 200%Z)] /\
        (flag = 1%Z <-> (t < d)%Q) /\ (flag = 0%Z <-> ~ (t < d)%Q)) /\
    (forall ev, In ev (emitted (calls run)) ->
                TelemetryEvent.eventType ev = EventType.span /\
                (TelemetryEvent.severity ev = Some Severity.warn <-> (t < d)%Q) /\
                (TelemetryEvent.severity ev = Some Severity.info <-> ~ (t < d)%Q)) /\
    (DomainInstrumentor.onEvent i <> None -> List.length (emitted (calls run)) = 1%nat) /\
    ((t < d)%Q ->
     exists bucket : string,
       In (SetAttributes [("sla.violated", VBool true);
                          ("sla.target_ms", VNum t);
                          ("sla.actual_ms", VNum d);
                          ("sla.violation_severity", VStr bucket)])
          (calls run) /\
       ((3 < d / t)%Q -> bucket = "critical") /\
       (~ (3 < d / t)%Q -> (2 < d / t)%Q -> bucket = "high") /\
       (~ (2 < d / t)%Q -> (3 # 2 < d / t)%Q -> bucket = "medium") /\
       (~ (3 # 2 < d / t)%Q -> bucket = "low")).
Proof.
  intros X [dm u sink] name endpoint method context w res target
         Htarget [Hlow _] _ _ Hrun Hok run d t.
  assert (Ht : (0 < DomainConfig.slaTarget dm)%Q).
  { cbn in Htarget. rewrite Htarget. unfold Qlt. cbn. lia. }
  pose proof (getSlaViolationSeverity_buckets X (DomainInstrumentor.mk dm u sink)
                (InstrumentationResult.duration res) Ht) as Hbucket.
  subst run d t. revert Hrun Hbucket.
  unfold DomainInstrumentor.instrumentApiCall, DomainInstrumentor.executeApiCall,
         DomainInstrumentor.emitTelemetryEvent.
  js_unfold. js_simpl.
  destruct (ltb (rnd_src w (S (rnd_pos w))) (DomainConfig.errorThreshold dm)) eqn:Hdraw.
  - js_simpl. destruct sink as [sink|]; js_simpl; sink_cases;
      intro Hrun; inversion Hrun; subst res; discriminate.
  - js_simpl.
    destruct (gtb _ _) eqn:Hsla;
      [apply gtb_spec in Hsla | apply gtb_false in Hsla]; js_simpl;
      (destruct sink as [sink|]; js_simpl; sink_cases;
       intro Hrun; inversion Hrun; subst res; try discriminate; js_simpl; intro Hbucket;
       clear Hrun Hok);
      (split; [reflexivity|]);
      (split; [eexists; split; [reflexivity|]; split; decide_iff|]);
      (split; [intros ev Hin; cbn in Hin;
               try (destruct Hin as [Hin|[]]; subst ev; cbn;
                    split; [reflexivity|]; split; decide_iff);
               try contradiction|]);
      (split; [intro Hne; try reflexivity; exfalso; apply Hne; reflexivity|]);
      intro Hv; try (exfalso; lra);
      eexists; (split; [|exact Hbucket]);
      cbn; repeat (first [left; reflexivity | right]).
Qed.

Lemma instrumentApiCall_success_sla_witness :
  let strictDomain :=
    DomainConfig.mk "ecommerce" Priority.critical 1 (1 # 10)
                    ["cart"; "checkout"; "payment"] None in
  let i := DomainInstrumentor.mk strictDomain Fixtures.mockUserContext
                                 (Some Fixtures.mockOnEvent) in
  let w := Fixtures.world_of (fun _ => 1 # 5) tt in
  let res := InstrumentationResult.mk true 250 None
               [("sla_violated", 1%Z); ("response_status", 200%Z)] in
  (DomainConfig.slaTarget strictDomain == inject_Z 1)%Q /\
  result (DomainInstrumentor.instrumentApiCall i "slow_api" "/api/slow" (Some "GET") None w)
  = Ok res /\
  InstrumentationResult.success res = true /\
  List.length
    (emitted (calls (DomainInstrumentor.instrumentApiCall i "slow_api" "/api/slow"
                       (Some "GET") None w))) = 1%nat.
Proof.
  intros strictDomain i w res.
  assert (Ht : (DomainConfig.slaTarget strictDomain == inject_Z 1)%Q) by reflexivity.
  assert (Hrun : result (DomainInstrumentor.instrumentApiCall i "slow_api" "/api/slow"
                           (Some "GET") None w) = Ok res)
    by (vm_compute; reflexivity).
  assert (Hok : InstrumentationResult.success res = true) by reflexivity.
  split; [exact Ht|]. split; [exact Hrun|]. split; [exact Hok|].
  assert (Hrange : (0 < 1 < 2 ^ 52)%Z) by (split; reflexivity).
  assert (H1 : (0 <= now_src w (now_pos w) <= 8640000000000000)%Z)
    by (vm_compute; split; discriminate).
  assert (H2 : (0 <= now_src w (S (now_pos w)) <= 8640000000000000)%Z)
    by (vm_compute; split; discriminate).
  destruct (instrumentApiCall_success_sla unit i "slow_api" "/api/slow" (Some "GET") None
              w res 1%Z Ht Hrange H1 H2 Hrun Hok) as (_ & _ & _ & Hone & _).
  apply Hone. discriminate.
Defined.

(** C9 (amended). [recordBusinessMetric] on an instrumentor with a sink
    hands the sink one [metric] event whose business impact follows from
    substrings of the metric name: [revenue] when it contains "revenue" or
    "purchase"; otherwise [engagement] when it contains "login" or
    "engagement"; otherwise [performance] when it contains "latency" or
    "performance"; otherwise [reliability].  For "cart_value" none of the
    six substrings occurs and the impact is [reliability]. *)
Theorem recordBusinessMetric_impact :
  forall X (i : DomainInstrumentor.t X) sink metricName value context (w : World X),
    DomainInstrumentor.onEvent i = Some sink ->
    let run := DomainInstrumentor.recordBusinessMetric i metricName value context w in
    exists ev,
      emitted (calls run) = [ev] /\
      TelemetryEvent.eventType ev = EventType.metric /\
      let impact := BusinessContext.businessImpact (TelemetryEvent.businessContext ev) in
      let has := includes metricName in
      (has "revenue" = true \/ has "purchase" = true -> impact = BusinessImpact.revenue) /\
      (has "revenue" = false -> has "purchase" = false ->
       has "login" = true \/ has "engagement" = true ->
       impact = BusinessImpact.engagement) /\
      (has "revenue" = false -> has "purchase" = false ->
       has "login" = false -> has "engagement" = false ->
       has "latency" = true \/ has "performance" = true ->
       impact = BusinessImpact.performance) /\
      (has "revenue" = false -> has "purchase" = false ->
       has "login" = false -> has "engagement" = false ->
       has "latency" = false -> has "performance" = false ->
       impact = BusinessImpact.reliability) /\
      (metricName = "cart_value" -> impact = BusinessImpact.reliability).
Proof.
  intros X [d u o] sink metricName value context w Ho run. cbn in Ho. subst o run.
  unfold DomainInstrumentor.recordBusinessMetric, DomainInstrumentor.emitTelemetryEvent.
  js_unfold. js_simpl.
  match goal with
  | |- context [sink ?ev ?w1] => destruct (sink ev w1) as [r w2 c2]
  end.
  js_simpl. eexists. split; [reflexivity|]. split; [reflexivity|].
  cbn -[includes]. unfold DomainInstrumentor.getMetricBusinessImpact.
  split; [|split; [|split; [|split]]].
  - intros [H | H]; rewrite H; [|rewrite orb_true_r]; reflexivity.
  - intros H1 H2 [H | H]; rewrite H1, H2, H; [|rewrite orb_true_r]; reflexivity.
  - intros H1 H2 H3 H4 [H | H]; rewrite H1, H2, H3, H4, H; [|rewrite orb_true_r];
      reflexivity.
  - intros H1 H2 H3 H4 H5 H6. rewrite H1, H2, H3, H4, H5, H6. reflexivity.
  - intros ->. vm_compute. reflexivity.
Qed.

Lemma recordBusinessMetric_impact_witness :
  let i := DomainInstrumentor.mk Fixtures.mockDomain Fixtures.mockUserContext
                                 (Some Fixtures.mockOnEvent) in
  let run := DomainInstrumentor.recordBusinessMetric i "revenue_per_user" 50 None
               (Fixtures.world_of (fun _ => 1 # 2) tt) in
  DomainInstrumentor.onEvent i = Some Fixtures.mockOnEvent /\
  exists ev,
    emitted (calls run) = [ev] /\
    BusinessContext.businessImpact (TelemetryEvent.businessContext ev)
    = BusinessImpact.revenue.
Proof.
  intros i run. split; [reflexivity|].
  destruct (recordBusinessMetric_impact unit i Fixtures.mockOnEvent "revenue_per_user"
              50 None (Fixtures.world_of (fun _ => 1 # 2) tt) eq_refl)
    as [ev (Hev & _ & Hrevenue & _)].
  exists ev. split; [exact Hev|].
  apply Hrevenue. left. reflexivity.
Defined.

(** C9 as stated fails: the event that [recordBusinessMetric] emits for
    "cart_value" (the call of the test [should record business metrics
    with context]) has business impact [reliability], not [revenue]. *)
Lemma recordBusinessMetric_cart_value_not_revenue :
  let i := DomainInstrumentor.mk Fixtures.mockDomain Fixtures.mockUserContext
                                 (Some Fixtures.mockOnEvent) in
  let run := DomainInstrumentor.recordBusinessMetric i "cart_value" (12999 # 100)
               (Some [("currency", VStr "USD"); ("items_count", VNum 3)])
               (Fixtures.world_of (fun _ => 1 # 2) tt) in
  map (fun ev => (TelemetryEvent.eventType ev, TelemetryEvent.name ev,
                  BusinessContext.businessImpact (TelemetryEvent.businessContext ev)))
      (emitted (calls run))
  = [(EventType.metric, "ecommerce.business.cart_value", BusinessImpact.reliability)] /\
  ~ (exists ev, In ev (emitted (calls run)) /\
                BusinessContext.businessImpact (TelemetryEvent.businessContext ev)
                = BusinessImpact.revenue).
Proof.
  intros i run.
  assert (H : map (fun ev => BusinessContext.businessImpact
                               (TelemetryEvent.businessContext ev))
                  (emitted (calls run)) = [BusinessImpact.reliability])
    by (vm_compute; reflexivity).
  split; [vm_compute; reflexivity|].
  intros [ev [Hin Himpact]].
  apply (in_map (fun ev => BusinessContext.businessImpact
                             (TelemetryEvent.businessContext ev))) in Hin.
  rewrite H, Himpact in Hin. destruct Hin as [Hin | []]. discriminate.
Qed.

(** ** Coordinator *)

(** C7. On a coordinator that is already initialised, [initialize]
    returns without throwing, makes one call, the console warning, and
    leaves the world as it was: the instrumentor map, the event log (and so
    [eventsProcessed]), the exporter list, the [isInitialized] flag and the
    configuration are the same, and neither the clock nor the random
    source is read. *)
Theorem initialize_when_initialized :
  forall (w : World ObservMetrics.t),
    ObservMetrics.isInitialized (owner w) = true ->
    ObservMetrics.initialize w
    = mkRun (Ok tt) w [Console "warn" "[ObservMetrics] Already initialized"] /\
    let after := owner (world (ObservMetrics.initialize w)) in
    ObservMetrics.instrumentors after = ObservMetrics.instrumentors (owner w) /\
    List.length (ObservMetrics.events after) = List.length (ObservMetrics.events (owner w)) /\
    ObservMetrics.exporters after = ObservMetrics.exporters (owner w) /\
    ObservMetrics.isInitialized after = true.
Proof.
  intros w Hinit.
  assert (Hrun : ObservMetrics.initialize w
                 = mkRun (Ok tt) w [Console "warn" "[ObservMetrics] Already initialized"]).
  { unfold ObservMetrics.initialize. js_unfold. cbn. rewrite Hinit. reflexivity. }
  split; [exact Hrun|]. rewrite Hrun. cbn. repeat split. exact Hinit.
Qed.

Lemma initialize_when_initialized_witness :
  let w0 := Fixtures.world_of (fun _ => 1 # 2)
              (ObservMetrics.constructor (Fixtures.mockConfig (Some Fixtures.testUserContext))) in
  let w1 := world (ObservMetrics.initialize w0) in
  ObservMetrics.isInitialized (owner w1) = true /\
  ObservMetrics.initialize w1
  = mkRun (Ok tt) w1 [Console "warn" "[ObservMetrics] Already initialized"].
Proof.
  intros w0 w1.
  assert (H : ObservMetrics.isInitialized (owner w1) = true) by (vm_compute; reflexivity).
  split; [exact H|].
  exact (proj1 (initialize_when_initialized w1 H)).
Defined.

(** *** Strings *)






Lemma table_get_none {A} (m : list (string * A)) (k : string) :
  table_get m k = None <-> ~ In k (map_keys m).
Proof.
  induction m as [|[k' v] m IH]; cbn.
  - split; [intros _ [] | reflexivity].
  - destruct (String.eqb k k') eqn:E.
    + apply String.eqb_eq in E. subst k'. split; [discriminate|].
      intro H. exfalso. apply H. left. reflexivity.
    + apply String.eqb_neq in E. rewrite IH. split.
      * intros H [Heq | Hin]; [congruence | exact (H Hin)].
      * intros H Hin. apply H. right. exact Hin.
Qed.


(** The scenario of the specification: only "authentication" is
    configured and "nonexistent" is requested. *)
Example getDomainInstrumentor_nonexistent :
  let config :=
    ObservMetricsConfig.mkInput
      (Some Fixtures.testUserContext)
      [DomainConfig.mk "authentication" Priority.critical 2000 (1 # 10)
                       ["login"; "register"] None]
      (FilterConfig.mk true (Some ["localhost"]) 0 1 true false None)
      None false in
  let w := world (ObservMetrics.initialize
                    (Fixtures.world_of (fun _ => 1 # 2) (ObservMetrics.constructor config))) in
  result (ObservMetrics.getDomainInstrumentor "nonexistent" w)
  = Throw (new_Error
             "Domain instrumentor not found: nonexistent. Available domains: authentication").
Proof. vm_compute. reflexivity. Qed.

(** *** Loops over the domains and the instrumentors *)

Lemma forEach_invariant :
  forall X A (I : World X -> Prop) (f : A -> M X unit) (l : list A),
    (forall a w, I w -> result (f a w) = Ok tt /\ I (world (f a w))) ->
    forall w, I w -> result (forEach l f w) = Ok tt /\ I (world (forEach l f w)).
Proof.
  intros X A I f l Hf. induction l as [|a l IH]; intros w Hw.
  - split; [reflexivity | exact Hw].
  - cbn [forEach]. unfold bind.
    destruct (Hf a w Hw) as [Hr Hi].
    destruct (f a w) as [r w' c]. cbn in Hr, Hi. subst r.
    destruct (IH w' Hi) as [Hr' Hi'].
    destruct (forEach l f w') as [r' w'' c']. cbn in Hr', Hi' |- *.
    split; assumption.
Qed.

Lemma same_but_instrumentors_refl (o : ObservMetrics.t) : same_but_instrumentors o o.
Proof. repeat split. Qed.

Lemma same_but_instrumentors_set (a o : ObservMetrics.t) m :
  same_but_instrumentors a o ->
  same_but_instrumentors a (ObservMetrics.set_instrumentors o m).
Proof. intros H. exact H. Qed.


Lemma initializeDomainInstrumentors_loop :
  forall (o : ObservMetrics.t) (domains : list DomainConfig.t) (w : World ObservMetrics.t),
    same_but_instrumentors o (owner w) ->
    result (forEach domains ObservMetrics.create_instrumentor w) = Ok tt /\
    same_but_instrumentors o
      (owner (world (forEach domains ObservMetrics.create_instrumentor w))).
Proof.
  intros o domains w Hw.
  apply (forEach_invariant _ _ (fun w' => same_but_instrumentors o (owner w')));
    [|exact Hw].
  intros domain w' Hw'.
  unfold ObservMetrics.create_instrumentor, ObservMetrics.getCurrentUserContext.
  js_unfold. js_simpl.
  split; [reflexivity | exact Hw'].
Qed.


(** What [getStats] reports. *)
Lemma getStats_run :
  forall (w : World ObservMetrics.t),
    exists stats,
      result (ObservMetrics.getStats w) = Ok stats /\
      ObservMetrics.initialized stats = ObservMetrics.isInitialized (owner w) /\
      ObservMetrics.domains stats = map_keys (ObservMetrics.instrumentors (owner w)) /\
      ObservMetrics.eventsProcessed stats = List.length (ObservMetrics.events (owner w)) /\
      ObservMetrics.exporters_names stats
      = map ExporterPlugin.name (ObservMetrics.exporters (owner w)) /\
      UserContext.sessionId (ObservMetrics.userContext stats)
      = UserContext.or_default
          (UserContext.p_sessionId
             (ObservMetricsConfig.userContext (ObservMetrics.config (owner w))))
          ("session_" ++ dec (now_src w (now_pos w))) /\
      UserContext.userSegment (ObservMetrics.userContext stats)
      = UserContext.or_default
          (UserContext.p_userSegment
             (ObservMetricsConfig.userContext (ObservMetrics.config (owner w))))
          "anonymous".
Proof.
  intros w. unfold ObservMetrics.getStats, ObservMetrics.getCurrentUserContext.
  js_unfold. js_simpl. eexists. split; [reflexivity|]. cbn. repeat split.
Qed.




(** *** Calls that reach no exporter *)

Lemma exported_app (c1 c2 : list Effect) :
  exported (c1 ++ c2) = (exported c1 ++ exported c2)%list.
Proof. unfold exported. apply flat_map_app. Qed.

Lemma exported_OnEvent (ev : TelemetryEvent.t) (c : list Effect) :
  exported [OnEvent ev c] = exported c.
Proof.
  unfold exported. cbn [flat_map exported_by]. rewrite app_nil_r.
  induction c as [|e c IH]; [reflexivity|].
  cbn [flat_map]. congruence.
Qed.

Section Keeps.
Context {X : Type} (J : X -> Prop).

Lemma keeps_ret {A} (a : A) : keeps J (@ret X A a).
Proof. intros w Hw. split; [exact Hw | reflexivity]. Qed.

Lemma keeps_throw {A} (e : Thrown) : keeps J (@throw X A e).
Proof. intros w Hw. split; [exact Hw | reflexivity]. Qed.

Lemma keeps_lift {A} (r : Result A) : keeps J (@lift X A r).
Proof. intros w Hw. split; [exact Hw | reflexivity]. Qed.

Lemma keeps_get_env : keeps J (@get_env X).
Proof. intros w Hw. split; [exact Hw | reflexivity]. Qed.

Lemma keeps_get_owner : keeps J (@get_owner X).
Proof. intros w Hw. split; [exact Hw | reflexivity]. Qed.

Lemma keeps_Date_now : keeps J (@Date_now X).
Proof. intros w Hw. split; [exact Hw | reflexivity]. Qed.

Lemma keeps_Math_random : keeps J (@Math_random X).
Proof. intros w Hw. split; [exact Hw | reflexivity]. Qed.

Lemma keeps_effect (e : Effect) : exported_by e = [] -> keeps J (@effect X e).
Proof.
  intros He w Hw. split; [exact Hw|].
  cbn. unfold exported. cbn. rewrite He. reflexivity.
Qed.

Lemma keeps_put_owner (x : X) : J x -> keeps J (put_owner x).
Proof. intros Hx w Hw. split; [exact Hx | reflexivity]. Qed.

Lemma keeps_bind {A B} (m : M X A) (k : A -> M X B) :
  keeps J m -> (forall a, keeps J (k a)) -> keeps J (bind m k).
Proof.
  intros Hm Hk w Hw. unfold bind.
  destruct (Hm w Hw) as [Hj Hc]. destruct (m w) as [[a|e] w' c]; cbn in Hj, Hc |- *.
  - destruct (Hk a w' Hj) as [Hj' Hc']. destruct (k a w') as [r w'' c'].
    cbn in Hj', Hc' |- *. split; [exact Hj'|].
    rewrite exported_app, Hc, Hc'. reflexivity.
  - split; assumption.
Qed.

Lemma keeps_bind_owner {B} (k : X -> M X B) :
  (forall this, J this -> keeps J (k this)) -> keeps J (bind get_owner k).
Proof.
  intros Hk w Hw. unfold bind, get_owner.
  destruct (Hk (owner w) Hw w Hw) as [Hj Hc]. destruct (k (owner w) w) as [r w' c].
  cbn in Hj, Hc |- *. split; assumption.
Qed.

Lemma keeps_try_catch {A} (body : M X A) (handler : Thrown -> M X A) :
  keeps J body -> (forall e, keeps J (handler e)) -> keeps J (try_catch body handler).
Proof.
  intros Hb Hh w Hw. unfold try_catch.
  destruct (Hb w Hw) as [Hj Hc]. destruct (body w) as [[a|e] w' c]; cbn in Hj, Hc |- *.
  - split; assumption.
  - destruct (Hh e w' Hj) as [Hj' Hc']. destruct (handler e w') as [r w'' c'].
    cbn in Hj', Hc' |- *. split; [exact Hj'|].
    rewrite exported_app, Hc, Hc'. reflexivity.
Qed.

Lemma keeps_finally {A} (body : M X A) (cleanup : M X unit) :
  keeps J body -> keeps J cleanup -> keeps J (finally body cleanup).
Proof.
  intros Hb Hcl w Hw. unfold finally.
  destruct (Hb w Hw) as [Hj Hc]. destruct (body w) as [r w' c]. cbn in Hj, Hc.
  destruct (Hcl w' Hj) as [Hj' Hc']. destruct (cleanup w') as [[u|e] w'' c'];
    cbn in Hj', Hc' |- *; (split; [exact Hj'|]);
    rewrite exported_app, Hc, Hc'; reflexivity.
Qed.

Lemma keeps_when (b : bool) (m : M X unit) : keeps J m -> keeps J (when b m).
Proof. intros Hm. destruct b; [exact Hm | apply keeps_ret]. Qed.

Lemma keeps_forEach {A} (l : list A) (f : A -> M X unit) :
  (forall a, keeps J (f a)) -> keeps J (forEach l f).
Proof.
  intros Hf. induction l as [|a l IH]; cbn [forEach].
  - apply keeps_ret.
  - apply keeps_bind; [apply Hf | intros _; exact IH].
Qed.

Lemma keeps_call_sink (sink : TelemetryEvent.t -> M X unit) (ev : TelemetryEvent.t) :
  keeps J (sink ev) -> keeps J (call_sink sink ev).
Proof.
  intros Hs w Hw. unfold call_sink.
  destruct (Hs w Hw) as [Hj Hc]. destruct (sink ev w) as [r w' c].
  cbn in Hj, Hc |- *. split; [exact Hj|].
  rewrite exported_OnEvent. exact Hc.
Qed.
End Keeps.

(** One step of a proof that a piece of code keeps a property and reaches
    no exporter. *)
Ltac keeps_step :=
  first
    [ assumption
    | apply keeps_ret | apply keeps_throw | apply keeps_lift
    | apply keeps_get_env | apply keeps_get_owner
    | apply keeps_Date_now | apply keeps_Math_random
    | apply keeps_effect; reflexivity
    | apply keeps_bind_owner; intros ? ?
    | apply keeps_bind; [|intros ?]
    | apply keeps_try_catch; [|intros ?]
    | apply keeps_finally
    | apply keeps_when
    | apply keeps_call_sink
    | match goal with
      | |- keeps _ (if ?b then _ else _) => destruct b
      | |- keeps _ (match ?x with _ => _ end) => destruct x
      end ].

Section InstrumentorKeeps.
Context {X : Type} (J : X -> Prop).
Variable i : DomainInstrumentor.t X.
Hypothesis sink_keeps :
  forall sink ev, DomainInstrumentor.onEvent i = Some sink -> keeps J (sink ev).

Lemma emitTelemetryEvent_keeps (eventData : TelemetryEvent.partial) :
  keeps J (DomainInstrumentor.emitTelemetryEvent i eventData).
Proof.
  unfold DomainInstrumentor.emitTelemetryEvent.
  destruct (DomainInstrumentor.onEvent i) as [sink|] eqn:Ho; [|apply keeps_ret].
  repeat keeps_step. apply (sink_keeps sink _ eq_refl).
Qed.

Lemma executeApiCall_keeps (endpoint method : string) :
  keeps J (DomainInstrumentor.executeApiCall i endpoint method).
Proof. unfold DomainInstrumentor.executeApiCall. repeat keeps_step. Qed.

Lemma instrumentApiCall_keeps name endpoint method context :
  keeps J (DomainInstrumentor.instrumentApiCall i name endpoint method context).
Proof.
  unfold DomainInstrumentor.instrumentApiCall.
  repeat first [ apply emitTelemetryEvent_keeps | apply executeApiCall_keeps
               | keeps_step ].
Qed.

Lemma instrumentUserJourney_keeps journeyName stepName (operation : M X unit) :
  keeps J operation ->
  keeps J (DomainInstrumentor.instrumentUserJourney i journeyName stepName operation).
Proof.
  intro Hop. unfold DomainInstrumentor.instrumentUserJourney.
  repeat first [ apply emitTelemetryEvent_keeps | keeps_step ].
Qed.

Lemma recordBusinessMetric_keeps metricName value context :
  keeps J (DomainInstrumentor.recordBusinessMetric i metricName value context).
Proof.
  unfold DomainInstrumentor.recordBusinessMetric.
  repeat first [ apply emitTelemetryEvent_keeps | keeps_step ].
Qed.

Lemma trackError_keeps error context :
  keeps J (DomainInstrumentor.trackError i error context).
Proof.
  unfold DomainInstrumentor.trackError.
  repeat first [ apply emitTelemetryEvent_keeps | keeps_step ].
Qed.
End InstrumentorKeeps.

Lemma shouldProcess_keeps :
  forall X (J : X -> Prop) (f : Filter.t) event context,
    keeps J (@Filter.shouldProcess X f event context).
Proof. intros. unfold Filter.shouldProcess. repeat keeps_step. Qed.

Lemma isRealUserSession_keeps :
  forall X (J : X -> Prop) (f : Filter.t) context,
    keeps J (@Filter.isRealUserSession X f context).
Proof.
  intros. unfold Filter.isRealUserSession, Filter.createDefaultContext.
  repeat keeps_step.
Qed.

Lemma getCurrentUserContext_keeps :
  forall (J : ObservMetrics.t -> Prop), keeps J ObservMetrics.getCurrentUserContext.
Proof. intros. unfold ObservMetrics.getCurrentUserContext. repeat keeps_step. Qed.

Ltac coordinator_step :=
  first
    [ apply getCurrentUserContext_keeps
    | apply shouldProcess_keeps
    | apply isRealUserSession_keeps
    | apply keeps_put_owner; unfold no_exporters in *; cbn; assumption
    | keeps_step ].

Lemma handleTelemetryEvent_keeps :
  forall event, keeps no_exporters (ObservMetrics.handleTelemetryEvent event).
Proof.
  intros event. unfold ObservMetrics.handleTelemetryEvent.
  apply keeps_bind; [apply getCurrentUserContext_keeps | intros context].
  apply keeps_bind_owner; intros this Hthis.
  replace (ObservMetrics.exporters this) with (@nil ExporterPlugin.t)
    by (symmetry; exact Hthis).
  cbn [forEach]. repeat coordinator_step.
Qed.

Lemma initialize_keeps : keeps no_exporters ObservMetrics.initialize.
Proof.
  unfold ObservMetrics.initialize, ObservMetrics.initializeOpenTelemetry,
         ObservMetrics.initializeDomainInstrumentors, ObservMetrics.logConfiguration,
         ObservMetrics.create_instrumentor.
  repeat first [ apply keeps_forEach; intros ? | coordinator_step ].
Qed.

Lemma updateUserContext_keeps :
  forall newContext, keeps no_exporters (ObservMetrics.updateUserContext newContext).
Proof.
  intros. unfold ObservMetrics.updateUserContext, ObservMetrics.rebuild_instrumentor.
  repeat first [ apply keeps_forEach; intros ? | coordinator_step ].
Qed.

Lemma addFilter_keeps : forall filter, keeps no_exporters (ObservMetrics.addFilter filter).
Proof. intros. unfold ObservMetrics.addFilter. repeat coordinator_step. Qed.

Lemma getStats_keeps : keeps no_exporters ObservMetrics.getStats.
Proof. unfold ObservMetrics.getStats. repeat coordinator_step. Qed.

Lemma destroy_keeps : keeps no_exporters ObservMetrics.destroy.
Proof.
  unfold ObservMetrics.destroy.
  apply keeps_bind_owner; intros this Hthis.
  replace (ObservMetrics.exporters this) with (@nil ExporterPlugin.t)
    by (symmetry; exact Hthis).
  cbn [forEach]. repeat coordinator_step.
  apply keeps_put_owner. reflexivity.
Qed.

(** Whatever is done with an instrumentor that the coordinator hands out
    reaches no exporter either: its sink is [handleTelemetryEvent]. *)
Lemma with_instrumentor_keeps :
  forall A (domainName : string) (k : DomainInstrumentor.t ObservMetrics.t -> M ObservMetrics.t A),
    (forall i, DomainInstrumentor.onEvent i = Some ObservMetrics.handleTelemetryEvent ->
               keeps no_exporters (k i)) ->
    keeps no_exporters (bind (ObservMetrics.getDomainInstrumentor domainName) k).
Proof.
  intros A domainName k Hk w Hw.
  assert (Heq : bind (ObservMetrics.getDomainInstrumentor domainName) k w
                = match table_get (ObservMetrics.instrumentors (owner w)) domainName with
                  | Some inst => k (ObservMetrics.instrumentor_object inst) w
                  | None =>
                      mkRun (Throw (new_Error
                                      ("Domain instrumentor not found: " ++ domainName
                                         ++ ". Available domains: "
                                         ++ join ", " (map_keys (ObservMetrics.instrumentors
                                                                   (owner w))))))
                            w []
                  end).
  { unfold ObservMetrics.getDomainInstrumentor. js_unfold.
    cbn -[String.append new_Error].
    destruct (table_get _ _) as [inst|]; cbn -[String.append new_Error];
      [destruct (k _ w)|]; reflexivity. }
  rewrite Heq. destruct (table_get _ _) as [inst|].
  - exact (Hk (ObservMetrics.instrumentor_object inst) eq_refl w Hw).
  - split; [exact Hw | reflexivity].
Qed.

Lemma coordinator_sink_keeps :
  forall (i : DomainInstrumentor.t ObservMetrics.t),
    DomainInstrumentor.onEvent i = Some ObservMetrics.handleTelemetryEvent ->
    forall sink ev, DomainInstrumentor.onEvent i = Some sink -> keeps no_exporters (sink ev).
Proof.
  intros i Hi sink ev Hs. rewrite Hi in Hs. injection Hs as <-.
  apply handleTelemetryEvent_keeps.
Qed.

Lemma run_call_keeps : forall c, keeps no_exporters (ObservMetrics.run_call c).
Proof.
  intros [| |p|f| |d n e m c|d j s r|d m v c|d e c]; cbn [ObservMetrics.run_call].
  - apply initialize_keeps.
  - apply destroy_keeps.
  - apply updateUserContext_keeps.
  - apply addFilter_keeps.
  - apply keeps_bind; [apply getStats_keeps | intros; apply keeps_ret].
  - apply with_instrumentor_keeps. intros i Hi.
    apply keeps_bind; [|intros; apply keeps_ret].
    apply instrumentApiCall_keeps, coordinator_sink_keeps, Hi.
  - apply with_instrumentor_keeps. intros i Hi.
    apply keeps_bind; [|intros; apply keeps_ret].
    apply instrumentUserJourney_keeps; [apply coordinator_sink_keeps, Hi|].
    destruct r; [apply keeps_throw | apply keeps_ret].
  - apply with_instrumentor_keeps. intros i Hi.
    apply recordBusinessMetric_keeps, coordinator_sink_keeps, Hi.
  - apply with_instrumentor_keeps. intros i Hi.
    apply trackError_keeps, coordinator_sink_keeps, Hi.
Qed.

Lemma run_calls_keeps : forall l, keeps no_exporters (ObservMetrics.run_calls l).
Proof.
  induction l as [|c l IH]; cbn [ObservMetrics.run_calls]; [apply keeps_ret|].
  intros w Hw. destruct (run_call_keeps c w Hw) as [Hj Hc].
  destruct (ObservMetrics.run_call c w) as [r w' out]. cbn in Hj, Hc.
  destruct (IH w' Hj) as [Hj' Hc']. destruct (ObservMetrics.run_calls l w') as [r' w'' out'].
  cbn in Hj', Hc' |- *. split; [exact Hj'|].
  rewrite exported_app, Hc, Hc'. reflexivity.
Qed.

Lemma hasRealUserIndicators_true : forall e, Filter.hasRealUserIndicators e = true.
Proof.
  intros e. unfold Filter.hasRealUserIndicators.
  destruct (Env.ontouchstart e); [reflexivity|].
  destruct (_ && _); [reflexivity|]. destruct (_ && _); reflexivity.
Qed.

(** What a first, successful [initialize] leaves behind. *)
Lemma initialize_fresh_run :
  forall (w : World ObservMetrics.t),
    ObservMetrics.isInitialized (owner w) = false ->
    real_user_env (ObservMetrics.Filter (owner w)) (env w) ->
    Env.otel_setup_error (env w) = None ->
    let run := ObservMetrics.initialize w in
    result run = Ok tt /\
    ObservMetrics.isInitialized (owner (world run)) = true /\
    ObservMetrics.events (owner (world run)) = ObservMetrics.events (owner w) /\
    ObservMetrics.exporters (owner (world run)) = ObservMetrics.exporters (owner w).
Proof.
  intros w Hinit [Hwin Hbot] Hotel run. subst run.
  unfold ObservMetrics.initialize, Filter.isRealUserSession, Filter.createDefaultContext,
         ObservMetrics.initializeOpenTelemetry, ObservMetrics.initializeDomainInstrumentors,
         ObservMetrics.logConfiguration, ObservMetrics.getCurrentUserContext.
  js_unfold.
  cbn -[forEach ObservMetrics.create_instrumentor String.append dec Js.test].
  rewrite Hinit, Hwin. cbn -[forEach ObservMetrics.create_instrumentor String.append dec Js.test].
  rewrite Hbot, hasRealUserIndicators_true.
  cbn -[forEach ObservMetrics.create_instrumentor String.append dec Js.test].
  rewrite Hotel.
  cbn -[forEach ObservMetrics.create_instrumentor String.append dec Js.test].
  match goal with
  | |- context [forEach ?l ?f ?w1] =>
      destruct (initializeDomainInstrumentors_loop (owner w) l w1
                  (same_but_instrumentors_refl _)) as [Hr (Hc & Hf & He & Hv & Hi)];
      destruct (forEach l f w1) as [r w2 c2]
  end.
  cbn in Hr, Hc, Hf, He, Hv, Hi. subst r.
  cbn -[String.append dec Js.test]. rewrite Hc.
  destruct (ObservMetricsConfig.debug (ObservMetrics.config (owner w)));
    cbn -[String.append dec Js.test]; repeat split; assumption.
Qed.

Lemma export_loop_world :
  forall (event : TelemetryEvent.t) (l : list ExporterPlugin.t) (w : World ObservMetrics.t),
    let body := fun exporter : ExporterPlugin.t =>
      effect (Export (ExporterPlugin.name exporter) [event]) ;;
      match ExporterPlugin.export_rejects exporter [event] with
      | Some _ =>
          effect (Console "error"
                    ("[ObservMetrics] Export failed for "
                       ++ ExporterPlugin.name exporter ++ ":"))
      | None => ret tt
      end in
    world (forEach l body w) = w.
Proof.
  intros event l w body.
  apply (forEach_invariant _ _ (fun w' => w' = w) body l); [|reflexivity].
  intros exporter w' ->. subst body. js_unfold. cbn.
  destruct (ExporterPlugin.export_rejects exporter [event]); cbn; split; reflexivity.
Qed.

(** An admitted event is appended to the event log. *)
Lemma handleTelemetryEvent_admitted :
  forall (w : World ObservMetrics.t) (event : TelemetryEvent.t),
    admits w event ->
    ObservMetrics.events (owner (world (ObservMetrics.handleTelemetryEvent event w)))
    = (ObservMetrics.events (owner w) ++ [event])%list.
Proof.
  intros w event (context & Hctx & Hpass).
  unfold ObservMetrics.handleTelemetryEvent.
  unfold bind at 1. revert Hctx Hpass.
  destruct (ObservMetrics.getCurrentUserContext w) as [r w1 c1] eqn:Hg.
  assert (Hown : owner w1 = owner w).
  { revert Hg. unfold ObservMetrics.getCurrentUserContext. js_unfold. cbn.
    intro Hg. injection Hg as _ <- _. reflexivity. }
  cbn [result world]. intros -> Hpass.
  unfold bind at 1. cbn [get_owner]. unfold bind at 1. rewrite Hown.
  destruct (Filter.shouldProcess _ event context w1) as [r2 w2 c2].
  cbn in Hpass. subst r2. cbn [negb].
  unfold bind at 1. cbn [put_owner].
  match goal with
  | |- context [forEach ?l ?f ?w3] =>
      pose proof (export_loop_world event l w3) as Hw3; cbn zeta in Hw3;
      destruct (forEach l f w3) as [r4 w4 c4]
  end.
  cbn in Hw3 |- *. subst w4. reflexivity.
Qed.

(** What [destroy] leaves behind. *)
Lemma destroy_run :
  forall (w : World ObservMetrics.t),
    let run := ObservMetrics.destroy w in
    result run = Ok tt /\
    world run
    = mkWorld (env w) (now_src w) (now_pos w) (rnd_src w) (rnd_pos w)
              (ObservMetrics.mk (ObservMetrics.config (owner w))
                                (ObservMetrics.Filter (owner w)) [] [] [] false).
Proof.
  intros w run. subst run.
  unfold ObservMetrics.destroy, bind, get_owner, put_owner, when, effect, ret.
  cbn beta.
  match goal with
  | |- context [forEach ?l ?f w] =>
      destruct (forEach_invariant _ _ (fun w' => w' = w) f l) with (w := w)
        as [Hr Hw]; [|reflexivity|destruct (forEach l f w) as [r w1 c1]]
  end.
  - intros exporter w' ->. destruct (ExporterPlugin.has_destroy exporter);
      cbn; split; reflexivity.
  - cbn in Hr, Hw. subst r w1. cbn. split; reflexivity.
Qed.

(** C10. Exporters are built by the constructor only.  After [destroy],
    an [initialize] that goes through (window present, no bot signal, SDK
    set-up succeeding) returns normally and leaves a coordinator with
    [isInitialized = true], an empty event log ([eventsProcessed = 0]) and
    an empty exporter list; whatever the host then calls on the
    coordinator or on its instrumentors, the exporter list stays empty
    and no batch is handed to any exporter, while every event that
    [handleTelemetryEvent] admits is appended to the event log. *)
Theorem exporters_stay_empty_after_destroy :
  forall (w : World ObservMetrics.t),
    real_user_env (ObservMetrics.Filter (owner w)) (env w) ->
    Env.otel_setup_error (env w) = None ->
    let destroyed := ObservMetrics.destroy w in
    let initialized := ObservMetrics.initialize (world destroyed) in
    let o := owner (world initialized) in
    result destroyed = Ok tt /\
    ObservMetrics.exporters (owner (world destroyed)) = [] /\
    result initialized = Ok tt /\
    ObservMetrics.isInitialized o = true /\
    ObservMetrics.events o = [] /\
    ObservMetrics.exporters o = [] /\
    (exists stats,
        result (ObservMetrics.getStats (world initialized)) = Ok stats /\
        ObservMetrics.initialized stats = true /\
        ObservMetrics.eventsProcessed stats = 0%nat /\
        ObservMetrics.exporters_names stats = []) /\
    forall (later : list ObservMetrics.Call),
      let then_ := ObservMetrics.run_calls later (world initialized) in
      ObservMetrics.exporters (owner (world then_)) = [] /\
      exported (calls then_) = [] /\
      forall event,
        let handled := ObservMetrics.handleTelemetryEvent event (world then_) in
        exported (calls handled) = [] /\
        (admits (world then_) event ->
         ObservMetrics.events (owner (world handled))
         = (ObservMetrics.events (owner (world then_)) ++ [event])%list).
Proof.
  intros w Hreal Hotel destroyed initialized o.
  destruct (destroy_run w) as [Hd Hwd]. fold destroyed in Hd, Hwd.
  assert (Hexp : ObservMetrics.exporters (owner (world destroyed)) = [])
    by (rewrite Hwd; reflexivity).
  destruct (initialize_fresh_run (world destroyed)) as (Hi & Hflag & Hev & Hex).
  { rewrite Hwd. reflexivity. }
  { rewrite Hwd. exact Hreal. }
  { rewrite Hwd. exact Hotel. }
  fold initialized in Hi, Hflag, Hev, Hex. fold o in Hflag, Hev, Hex.
  assert (Hev' : ObservMetrics.events o = []) by (rewrite Hev, Hwd; reflexivity).
  assert (Hex' : ObservMetrics.exporters o = []) by (rewrite Hex; exact Hexp).
  repeat (split; [assumption|]).
  split.
  - destruct (getStats_run (world initialized)) as (stats & Hs & Hsi & _ & Hse & Hsx & _).
    exists stats. fold o in Hsi, Hse, Hsx.
    rewrite Hflag in Hsi. rewrite Hev' in Hse. rewrite Hex' in Hsx.
    repeat split; assumption.
  - intros later then_.
    destruct (run_calls_keeps later (world initialized) Hex') as [Hj Hc].
    fold then_ in Hj, Hc.
    split; [exact Hj|]. split; [exact Hc|].
    intros event handled. split.
    + exact (proj2 (handleTelemetryEvent_keeps event (world then_) Hj)).
    + intro Hadm. exact (handleTelemetryEvent_admitted (world then_) event Hadm).
Qed.

Lemma exporters_stay_empty_after_destroy_witness :
  let w := world (ObservMetrics.initialize
                    (Fixtures.world_of (fun _ => 1 # 2)
                       (ObservMetrics.constructor
                          (Fixtures.mockConfig (Some Fixtures.testUserContext))))) in
  let again := ObservMetrics.initialize (world (ObservMetrics.destroy w)) in
  let later :=
    [ObservMetrics.CallMetric "ecommerce" "cart_value" (12999 # 100) None;
     ObservMetrics.CallApi "authentication" "login" "/api/auth/login" (Some "POST") None] in
  map ExporterPlugin.name (ObservMetrics.exporters (owner w)) = ["console"] /\
  real_user_env (ObservMetrics.Filter (owner w)) (env w) /\
  Env.otel_setup_error (env w) = None /\
  result again = Ok tt /\
  ObservMetrics.isInitialized (owner (world again)) = true /\
  ObservMetrics.exporters (owner (world again)) = [] /\
  exported (calls (ObservMetrics.run_calls later (world again))) = [] /\
  List.length (ObservMetrics.events
                 (owner (world (ObservMetrics.run_calls later (world again))))) = 2%nat.
Proof.
  intros w again later.
  assert (Hreal : real_user_env (ObservMetrics.Filter (owner w)) (env w)).
  { split; [vm_compute; reflexivity|]. intros c. vm_compute. reflexivity. }
  assert (Hotel : Env.otel_setup_error (env w) = None) by (vm_compute; reflexivity).
  destruct (exporters_stay_empty_after_destroy w Hreal Hotel)
    as (_ & _ & Hi & Hflag & _ & Hex & _ & Hlater).
  destruct (Hlater later) as (_ & Hc & _).
  split; [vm_compute; reflexivity|].
  split; [exact Hreal|]. split; [exact Hotel|]. split; [exact Hi|].
  split; [exact Hflag|]. split; [exact Hex|]. split; [exact Hc|].
  vm_compute. reflexivity.
Defined.

(** * Further properties *)

(** ** Substrings *)

Lemma prefix_spec (a b : string) : prefix a b = true <-> exists post, b = a ++ post.
Proof.
  revert b. induction a as [|x a IH]; intros b.
  - split; [intros _; exists b; reflexivity | intros _; destruct b; reflexivity].
  - destruct b as [|y b]; cbn.
    + split; [discriminate | intros [post H]; discriminate].
    + destruct (ascii_dec x y) as [->|Hne].
      * rewrite IH. split; intros [post H]; exists post; [congruence | injection H; auto].
      * split; [discriminate | intros [post H]; injection H; intros; congruence].
Qed.

Lemma includes_spec (hay needle : string) :
  includes hay needle = true <-> occurs_in needle hay.
Proof.
  split.
  - induction hay as [|c hay IH]; cbn [includes].
    + destruct (prefix needle "") eqn:E; [|discriminate].
      intros _. apply prefix_spec in E. destruct E as [post E].
      exists "", post. exact E.
    + destruct (prefix needle (String c hay)) eqn:E.
      * intros _. apply prefix_spec in E. destruct E as [post E].
        exists "", post. exact E.
      * intros H. destruct (IH H) as (pre & post & ->).
        exists (String c pre), post. reflexivity.
  - intros (pre & post & ->). induction pre as [|c pre IH].
    + cbn [String.append]. destruct (needle ++ post) eqn:E; cbn [includes].
      * replace (prefix needle "") with true; [reflexivity|].
        symmetry. apply prefix_spec. exists post. symmetry. exact E.
      * replace (prefix needle (String a s)) with true; [reflexivity|].
        symmetry. apply prefix_spec. exists post. symmetry. exact E.
    + change (String c pre ++ needle ++ post) with (String c (pre ++ needle ++ post)).
      cbn [includes]. rewrite IH. destruct (prefix _ _); reflexivity.
Qed.

Lemma drop_append (a b : string) : drop (String.length a) (a ++ b) = b.
Proof. induction a as [|x a IH]; cbn; [destruct b; reflexivity | exact IH]. Qed.

Lemma includes_before_end_spec (hay suffix : string) :
  ends_or_query suffix hay -> includes_before_end hay suffix = true.
Proof.
  assert (Hhere : forall rest,
             (rest = "" \/ exists post, rest = "?" ++ post) ->
             includes_before_end (suffix ++ rest) suffix = true).
  { intros rest Hrest.
    assert (Hp : prefix suffix (suffix ++ rest) = true)
      by (apply prefix_spec; exists rest; reflexivity).
    destruct (suffix ++ rest) eqn:E; cbn [includes_before_end]; rewrite Hp, <- E;
      rewrite drop_append; destruct Hrest as [-> | [post ->]]; reflexivity. }
  assert (Hshift : forall pre s, includes_before_end s suffix = true ->
                                 includes_before_end (pre ++ s) suffix = true).
  { induction pre as [|c pre IH]; intros s Hs; [exact Hs|].
    change (String c pre ++ s) with (String c (pre ++ s)).
    cbn [includes_before_end]. rewrite (IH s Hs).
    destruct (if prefix suffix (String c (pre ++ s)) then _ else _); reflexivity. }
  intros [[pre ->] | (pre & post & ->)]; apply Hshift.
  - replace suffix with (suffix ++ "") at 1.
    + apply Hhere. left. reflexivity.
    + clear. induction suffix as [|x s IH]; cbn; congruence.
  - apply Hhere. right. exists post. reflexivity.
Qed.

Lemma existsb_eqb_false (x : string) (l : list string) :
  ~ In x l -> existsb (String.eqb x) l = false.
Proof.
  induction l as [|y l IH]; [reflexivity|]. intros H. cbn.
  destruct (String.eqb x y) eqn:E.
  - apply String.eqb_eq in E. subst y. exfalso. apply H. left. reflexivity.
  - apply IH. intro Hin. apply H. right. exact Hin.
Qed.

(** ** Filter engine, rule by rule *)

(** X1. With a non-empty domain whitelist, for every event whose
    severity is not [error] or [critical]: in a browser whose host name
    is not in the whitelist, [shouldProcess] returns false, whatever the
    other settings, and nothing is drawn from the random source; where
    there is no window (and bot detection is off, so that the whitelist
    rule is reached without reading the browser), [shouldProcess] throws:
    the read of [window.location.hostname] is not guarded. *)
Theorem shouldProcess_rejects_outside_whitelist :
  forall X (f : Filter.t) (event : TelemetryEvent.t) (context : UserContext.t)
         (w : World X) (whitelist : list string),
    Filter.is_error_or_critical (TelemetryEvent.severity event) = false ->
    FilterConfig.domainWhitelist (Filter.config f) = Some whitelist ->
    whitelist <> [] ->
    (Env.hasWindow (env w) = true ->
     ~ In (Env.hostname (env w)) whitelist ->
     Filter.shouldProcess f event context w = mkRun (Ok false) w []) /\
    (Env.hasWindow (env w) = false ->
     FilterConfig.enableBotDetection (Filter.config f) = false ->
     exists e, Filter.shouldProcess f event context w = mkRun (Throw e) w []).
Proof.
  intros X f event context w whitelist Hsev Hwl Hne.
  unfold Filter.shouldProcess. rewrite Hsev. js_unfold. cbn.
  unfold Filter.isDomainAllowed. rewrite Hwl.
  destruct whitelist as [|h rest]; [congruence|].
  split.
  - intros Hwin Hout. rewrite Hwin.
    destruct (_ && _); [reflexivity|].
    rewrite (existsb_eqb_false _ _ Hout). reflexivity.
  - intros Hwin Hbot. rewrite Hwin, Hbot. cbn.
    eexists. reflexivity.
Qed.

Lemma shouldProcess_rejects_outside_whitelist_witness :
  let f := Filter.constructor
             (FilterConfig.mk false (Some ["example.com"]) 0 1 false false None) in
  let w := Fixtures.world_of (fun _ => 0%Q) tt in
  ~ In (Env.hostname (env w)) ["example.com"] /\
  Filter.shouldProcess f (Fixtures.mockEvent Severity.info) Fixtures.mockContext w
  = mkRun (Ok false) w [].
Proof.
  intros f w.
  assert (Hout : ~ In (Env.hostname (env w)) ["example.com"])
    by (intros [H | []]; discriminate).
  split; [exact Hout|].
  apply (shouldProcess_rejects_outside_whitelist unit f (Fixtures.mockEvent Severity.info)
           Fixtures.mockContext w ["example.com"]);
    [reflexivity | reflexivity | discriminate | reflexivity | exact Hout].
Defined.

Lemma test_matches (p : RegExp) (s : string) : matches p s -> test p s = true.
Proof.
  destruct p as [lit|lit|lit]; cbn [matches test]; intro H.
  - apply includes_spec, H.
  - apply includes_spec, H.
  - apply includes_before_end_spec, H.
Qed.

Lemma truthy_VStr (s : string) : s <> "" -> truthy (VStr s) = true.
Proof. intro H. cbn. apply String.eqb_neq in H. rewrite H. reflexivity. Qed.

Lemma event_url_value (event : TelemetryEvent.t) (url : string) :
  event_url event url ->
  or_else (or_else (get (TelemetryEvent.attributes event) "http.url")
                   (get (TelemetryEvent.attributes event) "url")) (VStr "")
  = VStr url.
Proof.
  intros [Hne [H | [Hfalsy H]]]; unfold or_else.
  - rewrite H, (truthy_VStr url Hne), (truthy_VStr url Hne). reflexivity.
  - rewrite Hfalsy, H, (truthy_VStr url Hne). reflexivity.
Qed.

(** In a browser the whitelist rule returns a truth value. *)
Lemma isDomainAllowed_in_browser (f : Filter.t) (e : Env.t) (event : TelemetryEvent.t) :
  Env.hasWindow e = true -> exists allowed, Filter.isDomainAllowed f e event = Ok allowed.
Proof.
  intro Hwin. unfold Filter.isDomainAllowed. rewrite Hwin.
  destruct (FilterConfig.domainWhitelist (Filter.config f)) as [[|h rest]|];
    eexists; reflexivity.
Qed.

(** X2. In a browser, an event that is not [error] or [critical] and
    whose URL ([http.url], or [url] when [http.url] is missing or falsy)
    matches one of the fifteen noise patterns (one of the nine
    static-asset suffixes at the end of the URL or before a question
    mark, or one of the six fragments anywhere) is rejected by
    [shouldProcess], whatever the configuration, and nothing is drawn
    from the random source. *)
Theorem shouldProcess_rejects_noise :
  forall X (f : Filter.t) (event : TelemetryEvent.t) (context : UserContext.t)
         (w : World X) (url : string) (pattern : RegExp),
    Env.hasWindow (env w) = true ->
    Filter.is_error_or_critical (TelemetryEvent.severity event) = false ->
    Filter.noisePatterns f = Filter.noise_table ->
    event_url event url ->
    In pattern Filter.noise_table ->
    matches pattern url ->
    Filter.shouldProcess f event context w = mkRun (Ok false) w [].
Proof.
  intros X f event context w url pattern Hwin Hsev Htable Hurl Hin Hmatch.
  assert (Hnoise : Filter.isNoiseEvent f event = true).
  { unfold Filter.isNoiseEvent. rewrite (event_url_value event url Hurl), Htable.
    apply existsb_exists. exists pattern. split; [exact Hin|].
    cbn [test_value]. apply test_matches, Hmatch. }
  destruct (isDomainAllowed_in_browser f (env w) event Hwin) as [allowed Hdom].
  unfold Filter.shouldProcess. rewrite Hsev. js_unfold. cbn.
  destruct (_ && _); [reflexivity|].
  rewrite Hdom. destruct allowed; [|reflexivity].
  cbn. rewrite Hnoise. reflexivity.
Qed.

Lemma shouldProcess_rejects_noise_witness :
  let f := Filter.constructor (FilterConfig.mk false None 0 1 false false None) in
  let event :=
    TelemetryEvent.mk (0%Z, 0%Q) 0 "unknown" EventType.span "test-event"
      [("url", VStr "http://localhost:3000/assets/app.js?v=3")]
      (BusinessContext.mk "unknown" None None BusinessImpact.performance None)
      (Some Severity.info) in
  let w := Fixtures.world_of (fun _ => 0%Q) tt in
  event_url event "http://localhost:3000/assets/app.js?v=3" /\
  Filter.shouldProcess f event Fixtures.mockContext w = mkRun (Ok false) w [].
Proof.
  intros f event w.
  assert (Hurl : event_url event "http://localhost:3000/assets/app.js?v=3").
  { split; [discriminate|]. right. split; reflexivity. }
  split; [exact Hurl|].
  apply (shouldProcess_rejects_noise unit f event Fixtures.mockContext w
           "http://localhost:3000/assets/app.js?v=3" (LitEnd ".js"));
    [reflexivity | reflexivity | reflexivity | exact Hurl | cbn; tauto |].
  right. exists "http://localhost:3000/assets/app", "v=3". reflexivity.
Defined.

(** X3. In a browser and with [excludeExtensions] set, an event that is
    not [error] or [critical] and whose URL or [error.stack] attribute
    matches one of the
    twelve extension patterns (case-insensitively, anywhere in the text)
    is rejected by [shouldProcess], and nothing is drawn from the random
    source. *)
Theorem shouldProcess_rejects_extension :
  forall X (f : Filter.t) (event : TelemetryEvent.t) (context : UserContext.t)
         (w : World X) (text : string) (pattern : RegExp),
    Env.hasWindow (env w) = true ->
    Filter.is_error_or_critical (TelemetryEvent.severity event) = false ->
    FilterConfig.excludeExtensions (Filter.config f) = true ->
    Filter.extensionPatterns f = Filter.extension_table ->
    event_url event text \/ event_stack event text ->
    In pattern Filter.extension_table ->
    matches pattern text ->
    Filter.shouldProcess f event context w = mkRun (Ok false) w [].
Proof.
  intros X f event context w text pattern Hwin Hsev Hex Htable Htext Hin Hmatch.
  assert (Hext : Filter.isExtensionEvent f event = true).
  { unfold Filter.isExtensionEvent. rewrite Htable.
    apply existsb_exists. exists pattern. split; [exact Hin|].
    destruct Htext as [Hurl | [Hne Hstack]].
    - rewrite (event_url_value event text Hurl). cbn [test_value].
      rewrite (test_matches _ _ Hmatch). reflexivity.
    - rewrite Hstack. unfold or_else at 3. rewrite (truthy_VStr text Hne).
      cbn [test_value]. rewrite (test_matches _ _ Hmatch). apply orb_true_r. }
  destruct (isDomainAllowed_in_browser f (env w) event Hwin) as [allowed Hdom].
  unfold Filter.shouldProcess. rewrite Hsev. js_unfold. cbn.
  destruct (_ && _); [reflexivity|].
  rewrite Hdom. destruct allowed; [|reflexivity]. cbn.
  destruct (Filter.isNoiseEvent f event); [reflexivity|].
  rewrite Hex, Hext. reflexivity.
Qed.

Lemma shouldProcess_rejects_extension_witness :
  let f := Filter.constructor (FilterConfig.mk false None 0 1 true false None) in
  let event :=
    TelemetryEvent.mk (0%Z, 0%Q) 0 "unknown" EventType.span "test-event"
      [("http.url", VStr "Chrome-Extension://abc123/popup.html")]
      (BusinessContext.mk "unknown" None None BusinessImpact.performance None)
      (Some Severity.warn) in
  let w := Fixtures.world_of (fun _ => 0%Q) tt in
  event_url event "Chrome-Extension://abc123/popup.html" /\
  Filter.shouldProcess f event Fixtures.mockContext w = mkRun (Ok false) w [].
Proof.
  intros f event w.
  assert (Hurl : event_url event "Chrome-Extension://abc123/popup.html").
  { split; [discriminate|]. left. reflexivity. }
  split; [exact Hurl|].
  apply (shouldProcess_rejects_extension unit f event Fixtures.mockContext w
           "Chrome-Extension://abc123/popup.html" (LitI "chrome-extension:"));
    [reflexivity | reflexivity | reflexivity | reflexivity | left; exact Hurl
    | cbn; tauto |].
  exists "", "//abc123/popup.html". reflexivity.
Defined.

Lemma passes_customFilters_app (l : list FilterFunction) (g : FilterFunction)
      (event : TelemetryEvent.t) (context : UserContext.t) :
  Filter.passes_customFilters (l ++ [g]) event context
  = match Filter.passes_customFilters l event context with
    | Ok true => g event context
    | decided => decided
    end.
Proof.
  induction l as [|h l IH]; cbn.
  - destruct (g event context) as [[|]|e]; reflexivity.
  - destruct (h event context) as [[|]|e]; cbn; [exact IH | reflexivity | reflexivity].
Qed.

(** Predicates that all return normally make the loop return normally. *)
Lemma passes_customFilters_returns (l : list FilterFunction)
      (event : TelemetryEvent.t) (context : UserContext.t) :
  (forall p, In p l -> exists b, p event context = Ok b) ->
  exists b, Filter.passes_customFilters l event context = Ok b.
Proof.
  induction l as [|h l IH]; intro Hall; cbn; [eexists; reflexivity|].
  destruct (Hall h (or_introl eq_refl)) as [[|] ->]; cbn.
  - apply IH. intros p Hp. apply Hall. right. exact Hp.
  - eexists. reflexivity.
Qed.

(** X4. A filter added with [addCustomFilter] can only reject more: an
    [error] or [critical] event is still admitted; an event on which the
    new predicate returns false and whose severity is not [error] or
    [critical] is never admitted ([shouldProcess] returns false, or
    throws what an earlier step throws), and in a browser, when the
    predicates added before return normally on it, [shouldProcess]
    returns false without a draw; and on an event on which the new
    predicate returns true, [shouldProcess] does exactly what it did
    before the predicate was added. *)
Theorem addCustomFilter_only_rejects_more :
  forall X (f : Filter.t) (g : FilterFunction) (event : TelemetryEvent.t)
         (context : UserContext.t) (w : World X),
    let f' := Filter.addCustomFilter f g in
    (Filter.is_error_or_critical (TelemetryEvent.severity event) = true ->
     Filter.shouldProcess f' event context w = mkRun (Ok true) w []) /\
    (Filter.is_error_or_critical (TelemetryEvent.severity event) = false ->
     g event context = Ok false ->
     result (Filter.shouldProcess f' event context w) <> Ok true /\
     (Env.hasWindow (env w) = true ->
      (forall p, In p (UserContext.or_default
                         (FilterConfig.customFilters (Filter.config f)) []) ->
                 exists b, p event context = Ok b) ->
      Filter.shouldProcess f' event context w = mkRun (Ok false) w [])) /\
    (g event context = Ok true ->
     Filter.shouldProcess f' event context w = Filter.shouldProcess f event context w).
Proof.
  intros X f g event context w f'. subst f'.
  unfold Filter.shouldProcess, Filter.addCustomFilter, Filter.isBotSession,
         Filter.isNoiseEvent, Filter.isExtensionEvent.
  cbn [Filter.config FilterConfig.enableBotDetection FilterConfig.domainWhitelist
       FilterConfig.excludeExtensions FilterConfig.customFilters
       FilterConfig.samplingRate Filter.botPatterns Filter.extensionPatterns
       Filter.noisePatterns].
  rewrite passes_customFilters_app.
  split; [|split].
  - intros ->. reflexivity.
  - intros -> Hg. rewrite Hg. js_unfold. cbn.
    change (Filter.isDomainAllowed _ (env w) event)
      with (Filter.isDomainAllowed f (env w) event).
    split.
    + destruct (Filter.isDomainAllowed f (env w) event) as [[|]|e];
        (destruct (FilterConfig.customFilters (Filter.config f)) as [filters|];
         [destruct (Filter.passes_customFilters filters event context) as [[|]|e']|]);
        cbn;
        repeat match goal with
               | |- context [if ?b then _ else _] => destruct b; cbn; try discriminate
               end.
    + intros Hwin Hall.
      destruct (isDomainAllowed_in_browser f (env w) event Hwin) as [allowed ->].
      destruct (passes_customFilters_returns _ event context Hall) as [b Hb].
      unfold UserContext.or_default in Hb. rewrite Hb.
      destruct allowed, b; cbn;
        repeat match goal with
               | |- context [if ?b then _ else _] => destruct b; cbn; try reflexivity
               end.
  - intros Hg. rewrite Hg.
    destruct (FilterConfig.customFilters (Filter.config f)) as [filters|]; cbn.
    + destruct (Filter.passes_customFilters filters event context) as [[|]|e];
        reflexivity.
    + reflexivity.
Qed.

Lemma addCustomFilter_only_rejects_more_witness :
  let f := Filter.constructor Fixtures.samplingConfig in
  let w := Fixtures.world_of (fun _ => 0) tt in
  Filter.shouldProcess (Filter.addCustomFilter f (fun _ _ => Ok false))
                       (Fixtures.mockEvent Severity.info) Fixtures.mockContext w
  = mkRun (Ok false) w [].
Proof.
  intros f w.
  apply (addCustomFilter_only_rejects_more unit f (fun _ _ => Ok false)
           (Fixtures.mockEvent Severity.info) Fixtures.mockContext w);
    try reflexivity.
  intros p [].
Defined.

(** What [shouldProcess] does in a browser. *)
Lemma shouldProcess_in_browser :
  forall X (f : Filter.t) (event : TelemetryEvent.t) (context : UserContext.t)
         (w : World X),
    Env.hasWindow (env w) = true ->
    (reaches_sampling f (env w) event context /\
     Filter.shouldProcess f event context w
     = mkRun (Ok (negb (gtb (rnd_src w (rnd_pos w))
                            (FilterConfig.samplingRate (Filter.config f)))))
             (draw_next w) []) \/
    (exists err,
        predicate_throws f (env w) event context err /\
        Filter.shouldProcess f event context w = mkRun (Throw err) w []) \/
    (~ reaches_sampling f (env w) event context /\
     exists decision, Filter.shouldProcess f event context w = mkRun (Ok decision) w []).
Proof.
  intros X f event context w Hwin.
  destruct (Filter.is_error_or_critical (TelemetryEvent.severity event)) eqn:H1;
    [right; right; split; [intros (H & _); congruence|];
     exists true; unfold Filter.shouldProcess; rewrite H1; reflexivity|].
  destruct (FilterConfig.enableBotDetection (Filter.config f)
            && Filter.isBotSession f (env w) context) eqn:H2;
    [right; right; split; [intros (_ & H & _); congruence|];
     exists false; unfold Filter.shouldProcess; rewrite H1; js_unfold; cbn;
     rewrite H2; reflexivity|].
  destruct (isDomainAllowed_in_browser f (env w) event Hwin) as [allowed H3].
  destruct allowed;
    [|right; right; split; [intros (_ & _ & H & _); congruence|];
      exists false; unfold Filter.shouldProcess; rewrite H1; js_unfold; cbn;
      rewrite H2, H3; reflexivity].
  destruct (Filter.isNoiseEvent f event) eqn:H4;
    [right; right; split; [intros (_ & _ & _ & H & _); congruence|];
     exists false; unfold Filter.shouldProcess; rewrite H1; js_unfold; cbn;
     rewrite H2, H3; cbn; rewrite H4; reflexivity|].
  destruct (FilterConfig.excludeExtensions (Filter.config f)
            && Filter.isExtensionEvent f event) eqn:H5;
    [right; right; split; [intros (_ & _ & _ & _ & H & _); congruence|];
     exists false; unfold Filter.shouldProcess; rewrite H1; js_unfold; cbn;
     rewrite H2, H3; cbn; rewrite H4, H5; reflexivity|].
  destruct (FilterConfig.customFilters (Filter.config f)) as [filters|] eqn:H6.
  - destruct (Filter.passes_customFilters filters event context) as [[|]|err] eqn:H7.
    + left. assert (Hr : reaches_sampling f (env w) event context).
      { unfold reaches_sampling. rewrite H6. repeat split; assumption. }
      split; [exact Hr | apply shouldProcess_at_sampling, Hr].
    + right. right. split.
      * intros (_ & _ & _ & _ & _ & H). rewrite H6 in H. congruence.
      * exists false. unfold Filter.shouldProcess. rewrite H1. js_unfold. cbn.
        rewrite H2, H3. cbn. rewrite H4, H5, H6, H7. reflexivity.
    + right. left. exists err. split.
      * unfold predicate_throws. repeat split; try assumption.
        exists filters. split; [exact H6 | exact H7].
      * unfold Filter.shouldProcess. rewrite H1. js_unfold. cbn.
        rewrite H2, H3. cbn. rewrite H4, H5, H6, H7. reflexivity.
  - left. assert (Hr : reaches_sampling f (env w) event context).
    { unfold reaches_sampling. rewrite H6. repeat split; assumption. }
    split; [exact Hr | apply shouldProcess_at_sampling, Hr].
Qed.

(** X5. In a browser, [shouldProcess] makes no call to the outside of
    its own and throws only what a custom predicate throws, which it
    passes on with the world as it was.  It draws from the random source
    exactly when every rule before sampling lets the event through, and
    then draws once and admits the event iff the draw is not greater than
    [samplingRate]; otherwise it returns its decision and leaves the
    world as it was. *)
Theorem shouldProcess_draws_only_at_sampling :
  forall X (f : Filter.t) (event : TelemetryEvent.t) (context : UserContext.t)
         (w : World X),
    Env.hasWindow (env w) = true ->
    (reaches_sampling f (env w) event context /\
     Filter.shouldProcess f event context w
     = mkRun (Ok (negb (gtb (rnd_src w (rnd_pos w))
                            (FilterConfig.samplingRate (Filter.config f)))))
             (draw_next w) []) \/
    (exists err,
        predicate_throws f (env w) event context err /\
        Filter.shouldProcess f event context w = mkRun (Throw err) w []) \/
    (~ reaches_sampling f (env w) event context /\
     exists decision, Filter.shouldProcess f event context w = mkRun (Ok decision) w []).
Proof. exact shouldProcess_in_browser. Qed.

Lemma shouldProcess_draws_only_at_sampling_witness :
  let boom := Object [("name", VStr "Error"); ("message", VStr "no such attribute")] in
  let f := Filter.addCustomFilter (Filter.constructor Fixtures.samplingConfig)
                                  (fun _ _ => Throw boom) in
  let w := Fixtures.world_of (fun _ => 0) tt in
  Filter.shouldProcess f (Fixtures.mockEvent Severity.info) Fixtures.mockContext w
  = mkRun (Throw boom) w [].
Proof.
  intros boom f w.
  destruct (shouldProcess_draws_only_at_sampling unit f
              (Fixtures.mockEvent Severity.info) Fixtures.mockContext w eq_refl)
    as [(Hr & _) | [(err & Hthrows & Hrun) | (_ & decision & Hrun)]].
  - destruct Hr as (_ & _ & _ & _ & _ & Hp). discriminate Hp.
  - destruct Hthrows as (_ & _ & _ & _ & _ & filters & Hf & Hp).
    injection Hf as <-. injection Hp as <-. exact Hrun.
  - rewrite Hrun. discriminate.
Defined.

Lemma isBotSession_ignores_context (f : Filter.t) (e : Env.t) (c c' : UserContext.t) :
  Filter.isBotSession f e c = Filter.isBotSession f e c'.
Proof. reflexivity. Qed.

Lemma isRealUserSession_run :
  forall X (f : Filter.t) (context : option UserContext.t) (w : World X)
         (any : UserContext.t),
    let run := Filter.isRealUserSession f context w in
    result run
    = Ok (Env.hasWindow (env w) && negb (Filter.isBotSession f (env w) any)) /\
    calls run = [] /\
    owner (world run) = owner w.
Proof.
  intros X f context w any run. subst run.
  unfold Filter.isRealUserSession, Filter.createDefaultContext. js_unfold. cbn.
  destruct (Env.hasWindow (env w)); cbn; [|repeat split].
  destruct context as [c|]; cbn.
  - rewrite (isBotSession_ignores_context f (env w) c any).
    destruct (Filter.isBotSession f (env w) any); cbn;
      [|rewrite hasRealUserIndicators_true]; repeat split.
  - match goal with
    | |- context [Filter.isBotSession f (env w) ?c] =>
        rewrite (isBotSession_ignores_context f (env w) c any)
    end.
    destruct (Filter.isBotSession f (env w) any); cbn;
      [|rewrite hasRealUserIndicators_true]; repeat split.
Qed.

(** X6. [isRealUserSession] answers true exactly when there is a window
    and [isBotSession] finds no bot signal: the context passed in, and the
    touch, viewport and time-zone indicators that [hasRealUserIndicators]
    looks at, never change the answer.  It never throws, makes no call to
    the outside and leaves the owner's state alone. *)
Theorem isRealUserSession_is_window_and_not_bot :
  forall X (f : Filter.t) (context : option UserContext.t) (w : World X)
         (any : UserContext.t),
    let run := Filter.isRealUserSession f context w in
    result run
    = Ok (Env.hasWindow (env w) && negb (Filter.isBotSession f (env w) any)) /\
    calls run = [] /\
    owner (world run) = owner w.
Proof. exact isRealUserSession_run. Qed.

(** X7. A user agent in which one of the seventeen bot patterns occurs,
    in any letter case, makes [isBotSession] true whatever the other
    browser signals are, and so [isRealUserSession] false. *)
Theorem bot_user_agent_is_not_a_real_user :
  forall X (f : Filter.t) (context : option UserContext.t) (w : World X)
         (pattern : RegExp),
    Filter.botPatterns f = Filter.bot_table ->
    In pattern Filter.bot_table ->
    matches pattern (Env.userAgent (env w)) ->
    (forall c, Filter.isBotSession f (env w) c = true) /\
    result (Filter.isRealUserSession f context w) = Ok false.
Proof.
  intros X f context w pattern Htable Hin Hmatch.
  assert (Hbot : forall c, Filter.isBotSession f (env w) c = true).
  { intros c. unfold Filter.isBotSession. rewrite Htable.
    replace (existsb (fun p => test p (Env.userAgent (env w))) Filter.bot_table)
      with true; [reflexivity|].
    symmetry. apply existsb_exists. exists pattern.
    split; [exact Hin | apply test_matches, Hmatch]. }
  split; [exact Hbot|].
  destruct (isRealUserSession_run X f context w Fixtures.mockContext) as [Hr _].
  rewrite Hr, Hbot. rewrite andb_false_r. reflexivity.
Qed.

Lemma bot_user_agent_is_not_a_real_user_witness :
  let f := Filter.constructor (FilterConfig.mk true None 0 1 true false None) in
  let e := Env.mk "Mozilla/5.0 (compatible; Googlebot/2.1; +http://www.google.com/bot.html)"
                  true false false false false 1040 1920 false false false None
                  1920 1080 "localhost" false 1920 969 0 None in
  let w := mkWorld e Fixtures.clock 0 (fun _ => 0%Q) 0 tt in
  matches (LitI "googlebot") (Env.userAgent (env w)) /\
  result (Filter.isRealUserSession f None w) = Ok false.
Proof.
  intros f e w.
  assert (Hm : matches (LitI "googlebot") (Env.userAgent (env w))).
  { exists "mozilla/5.0 (compatible; ", "/2.1; +http://www.google.com/bot.html)".
    reflexivity. }
  split; [exact Hm|].
  apply (bot_user_agent_is_not_a_real_user unit f None w (LitI "googlebot"));
    [reflexivity | cbn; tauto | exact Hm].
Defined.

Lemma merge_merge (c : FilterConfig.t) (p q : FilterConfig.partial) :
  FilterConfig.merge (FilterConfig.merge c p) q
  = FilterConfig.merge c (FilterConfig.merge_partial p q).
Proof.
  destruct c, p as [a1 a2 a3 a4 a5 a6 a7], q as [b1 b2 b3 b4 b5 b6 b7].
  unfold FilterConfig.merge, FilterConfig.merge_partial. cbn.
  destruct b1, b2, b3, b4, b5, b6, b7; reflexivity.
Qed.

Lemma updateConfig_static (f : Filter.t) (p : FilterConfig.partial) :
  has_static_patterns f ->
  Filter.updateConfig f p
  = Filter.mk (FilterConfig.merge (Filter.config f) p)
              Filter.bot_table Filter.extension_table Filter.noise_table.
Proof.
  intros (Hb & He & Hn). unfold Filter.updateConfig, Filter.initializePatterns.
  rewrite Hb, He, Hn. destruct (_ || _); reflexivity.
Qed.

(** X8. On a filter with the static pattern tables (any filter made by
    the constructor), [updateConfig] keeps the tables, so their counts in
    [getStats] never change; two updates in a row are one update with the
    two partial configurations merged, the later one winning: in
    particular an update that carries [customFilters] replaces all the
    predicates added before, and one that does not keeps them. *)
Theorem updateConfig_composes :
  forall (f : Filter.t) (p q : FilterConfig.partial),
    has_static_patterns f ->
    has_static_patterns (Filter.updateConfig f p) /\
    Filter.updateConfig (Filter.updateConfig f p) q
    = Filter.updateConfig f (FilterConfig.merge_partial p q) /\
    FilterConfig.customFilters (Filter.config (Filter.updateConfig f p))
    = match FilterConfig.p_customFilters p with
      | Some filters => Some filters
      | None => FilterConfig.customFilters (Filter.config f)
      end.
Proof.
  intros f p q Hf.
  assert (Hp : has_static_patterns (Filter.updateConfig f p)).
  { rewrite (updateConfig_static f p Hf). repeat split. }
  split; [exact Hp|]. split.
  - rewrite (updateConfig_static _ q Hp), (updateConfig_static f p Hf),
            (updateConfig_static f _ Hf).
    cbn [Filter.config]. rewrite merge_merge. reflexivity.
  - rewrite (updateConfig_static f p Hf). cbn.
    destruct (FilterConfig.p_customFilters p); reflexivity.
Qed.

Lemma updateConfig_composes_witness :
  let f := Filter.addCustomFilter (Filter.constructor Fixtures.samplingConfig)
                                  (fun _ _ => Ok false) in
  let p := FilterConfig.mkPartial None None None (Some (1 # 2)) None None None in
  let q := FilterConfig.mkPartial None None None (Some 1) None None (Some []) in
  has_static_patterns f /\
  Filter.getStats (Filter.updateConfig (Filter.updateConfig f p) q)
  = (17%nat, 12%nat, 15%nat, 1, (false, Some ["localhost"], false)) /\
  FilterConfig.customFilters
    (Filter.config (Filter.updateConfig (Filter.updateConfig f p) q)) = Some [].
Proof.
  intros f p q.
  assert (Hf : has_static_patterns f) by (repeat split).
  destruct (updateConfig_composes f p q Hf) as (_ & Heq & _).
  split; [exact Hf|]. rewrite Heq. split; reflexivity.
Defined.

(** ** Domain instrumentor: spans, journeys and sinks *)

Lemma span_bracket_timed :
  forall X A (name : string) (body : Z -> M X A) (w : World X),
    exists mid,
      calls (bind (effect (StartSpan name))
                  (fun _ => bind Date_now (fun startTime =>
                     finally (body startTime) (effect EndSpan))) w)
      = StartSpan name :: (mid ++ [EndSpan])%list.
Proof.
  intros X A name body w. js_unfold. cbn.
  match goal with
  | |- context [body ?t ?w1] => destruct (body t w1) as [r w' c]
  end.
  exists c. reflexivity.
Qed.

Lemma span_bracket :
  forall X A (name : string) (body : M X A) (w : World X),
    exists mid,
      calls (bind (effect (StartSpan name)) (fun _ => finally body (effect EndSpan)) w)
      = StartSpan name :: (mid ++ [EndSpan])%list.
Proof.
  intros X A name body w. js_unfold. cbn.
  destruct (body w) as [r w' c]. exists c. reflexivity.
Qed.

(** X9. Every call of [instrumentApiCall], [instrumentUserJourney] and
    [trackError] starts its span first and ends it last, whatever the
    executed call, the operation and the sink do, also when the call
    itself throws. *)
Theorem span_is_started_first_and_ended_last :
  forall X (i : DomainInstrumentor.t X) (w : World X),
    let domain := DomainConfig.name (DomainInstrumentor.domain i) in
    (forall name endpoint method context,
        exists mid,
          calls (DomainInstrumentor.instrumentApiCall i name endpoint method context w)
          = StartSpan (domain ++ "." ++ name) :: (mid ++ [EndSpan])%list) /\
    (forall journeyName stepName operation,
        exists mid,
          calls (DomainInstrumentor.instrumentUserJourney i journeyName stepName
                   operation w)
          = StartSpan (domain ++ ".journey." ++ journeyName ++ "." ++ stepName)
              :: (mid ++ [EndSpan])%list) /\
    (forall error context,
        exists mid,
          calls (DomainInstrumentor.trackError i error context w)
          = StartSpan (domain ++ ".error") :: (mid ++ [EndSpan])%list).
Proof.
  intros X i w domain. subst domain. split; [|split].
  - intros name endpoint method context.
    unfold DomainInstrumentor.instrumentApiCall. apply span_bracket_timed.
  - intros journeyName stepName operation.
    unfold DomainInstrumentor.instrumentUserJourney. apply span_bracket_timed.
  - intros error context.
    unfold DomainInstrumentor.trackError. apply span_bracket.
Qed.

Lemma getJourneyBusinessImpact_own (journeyName : string) :
  inherited journeyName = false ->
  @DomainInstrumentor.getJourneyBusinessImpact journeyName
  = if String.eqb journeyName "purchase_flow"
    then BusinessImpact.revenue else BusinessImpact.engagement.
Proof.
  intro Hname.
  unfold DomainInstrumentor.getJourneyBusinessImpact, literal_get. cbn [table_get].
  destruct (String.eqb journeyName "user_login_flow") eqn:E1;
    [apply String.eqb_eq in E1; subst; reflexivity|].
  destruct (String.eqb journeyName "purchase_flow"); [reflexivity|].
  destruct (String.eqb journeyName "product_discovery"); [reflexivity|].
  rewrite Hname. reflexivity.
Qed.

(** X10. For a journey name that the step table does not inherit from
    [Object.prototype]: when the operation of a journey step resolves and
    the sink, if there is one, returns normally, [instrumentUserJourney]
    returns [{success: true, duration, customMetrics:
    {journey_step_completed: 1, step_duration_ms: duration}}], the
    duration being the clock reading after the operation minus the
    reading at the start; with a sink it hands it one [span] event of
    severity [info] that carries the journey name, the business impact
    ([revenue] for [purchase_flow], [engagement] for every other name)
    and the step number that [getStepNumber] returns. *)
Theorem instrumentUserJourney_success :
  forall X (i : DomainInstrumentor.t X) journeyName stepName
         (operation : M X unit) (w w' : World X) (c : list Effect),
    inherited journeyName = false ->
    operation (advance 1 0 w) = mkRun (Ok tt) w' c ->
    (forall sink, DomainInstrumentor.onEvent i = Some sink -> never_throws sink) ->
    let run := DomainInstrumentor.instrumentUserJourney i journeyName stepName operation w in
    let duration := (now_src w' (now_pos w') - now_src w (now_pos w))%Z in
    result run
    = Ok (InstrumentationResult.mk true duration None
            [("journey_step_completed", 1%Z); ("step_duration_ms", duration)]) /\
    match DomainInstrumentor.onEvent i with
    | Some _ =>
        exists ev n,
          emitted (calls run) = (emitted c ++ [ev])%list /\
          TelemetryEvent.eventType ev = EventType.span /\
          TelemetryEvent.severity ev = Some Severity.info /\
          BusinessContext.userJourney (TelemetryEvent.businessContext ev)
          = Some journeyName /\
          BusinessContext.businessImpact (TelemetryEvent.businessContext ev)
          = (if String.eqb journeyName "purchase_flow"
             then BusinessImpact.revenue else BusinessImpact.engagement) /\
          @DomainInstrumentor.getStepNumber journeyName stepName = Ok n /\
          get (TelemetryEvent.attributes ev) "journey.step_number" = VNum (inject_Z n)
    | None => emitted (calls run) = emitted c
    end.
Proof.
  intros X [d u o] journeyName stepName operation w w' c Hname Hop Hsink run duration.
  subst run duration.
  destruct (proj1 (getStepNumber_cases journeyName stepName) Hname) as [n Hstep].
  pose proof (getJourneyBusinessImpact_own journeyName Hname) as Himpact.
  unfold DomainInstrumentor.instrumentUserJourney, DomainInstrumentor.emitTelemetryEvent.
  js_unfold. cbn -[ltb gtb String.append stack_text dec Qdiv inject_Z Z.sub
                   DomainInstrumentor.getStepNumber
                   DomainInstrumentor.getJourneyBusinessImpact].
  rewrite Hstep, Himpact.
  cbn -[ltb gtb String.append stack_text dec Qdiv inject_Z Z.sub String.eqb].
  unfold advance in Hop. cbn in Hop. rewrite Hop.
  cbn -[ltb gtb String.append stack_text dec Qdiv inject_Z Z.sub String.eqb].
  destruct o as [sink|];
    cbn -[ltb gtb String.append stack_text dec Qdiv inject_Z Z.sub String.eqb].
  - match goal with
    | |- context [sink ?ev ?w1] =>
        pose proof (Hsink sink eq_refl ev w1) as Hs; destruct (sink ev w1) as [r w2 c2]
    end.
    cbn in Hs. subst r.
    cbn -[ltb gtb String.append stack_text dec Qdiv inject_Z Z.sub String.eqb].
    split; [reflexivity|]. eexists. exists n. split.
    + rewrite !emitted_app. cbn. rewrite !app_nil_r. reflexivity.
    + cbn -[inject_Z String.eqb]. repeat split.
  - split; [reflexivity|].
    rewrite !emitted_app. cbn. rewrite !app_nil_r. reflexivity.
Qed.

Lemma instrumentUserJourney_success_witness :
  let i := DomainInstrumentor.mk Fixtures.mockDomain Fixtures.mockUserContext
                                 (Some Fixtures.mockOnEvent) in
  let w := Fixtures.world_of (fun _ => 1 # 2) tt in
  let run := DomainInstrumentor.instrumentUserJourney i "purchase_flow" "view_cart"
               (ret tt) w in
  result run
  = Ok (InstrumentationResult.mk true 250 None
          [("journey_step_completed", 1%Z); ("step_duration_ms", 250%Z)]) /\
  map (fun ev => get (TelemetryEvent.attributes ev) "journey.step_number")
      (emitted (calls run)) = [VNum 2].
Proof.
  intros i w run.
  destruct (instrumentUserJourney_success unit i "purchase_flow" "view_cart" (ret tt)
              w (advance 1 0 w) [] eq_refl eq_refl) as [Hr Hev].
  - intros sink Hs ev w0. injection Hs as <-. reflexivity.
  - split; [exact Hr|]. destruct Hev as (ev & n & Hev & _ & _ & _ & _ & Hstep & Hn).
    fold run in Hev. rewrite Hev. cbn [emitted app map]. rewrite Hn.
    injection Hstep as <-. reflexivity.
Defined.

Lemma indexOf_range (l : list string) (x : string) :
  (-1 <= indexOf l x < Z.of_nat (List.length l))%Z.
Proof.
  induction l as [|y l IH]; cbn [indexOf List.length]; [lia|].
  destruct (String.eqb x y); [lia|].
  destruct (Z.ltb (indexOf l x) 0) eqn:E;
    [lia | apply Z.ltb_ge in E; lia].
Qed.

Lemma indexOf_injective (l : list string) (x y : string) :
  indexOf l x = indexOf l y -> (0 <= indexOf l x)%Z -> x = y.
Proof.
  induction l as [|z l IH]; cbn [indexOf]; [lia|].
  pose proof (indexOf_range l x) as Hx. pose proof (indexOf_range l y) as Hy.
  destruct (String.eqb x z) eqn:Ex, (String.eqb y z) eqn:Ey.
  - apply String.eqb_eq in Ex, Ey. congruence.
  - destruct (Z.ltb (indexOf l y) 0) eqn:E; [lia | apply Z.ltb_ge in E; lia].
  - destruct (Z.ltb (indexOf l x) 0) eqn:E; [lia | apply Z.ltb_ge in E; lia].
  - destruct (Z.ltb (indexOf l x) 0) eqn:E1, (Z.ltb (indexOf l y) 0) eqn:E2;
      try apply Z.ltb_ge in E1; try apply Z.ltb_ge in E2;
      try apply Z.ltb_lt in E1; try apply Z.ltb_lt in E2; try lia.
    intros H _. apply IH; lia.
Qed.

Lemma step_number_spec (l : list string) (s s' : string) :
  (List.length l <= 5)%nat ->
  (0 <= indexOf l s + 1 <= 5)%Z /\
  (indexOf l s' + 1 = indexOf l s + 1 -> indexOf l s + 1 <> 0 -> s' = s)%Z.
Proof.
  intros Hlen. pose proof (indexOf_range l s) as Hr.
  split; [lia|]. intros He Hn. apply (indexOf_injective l); lia.
Qed.

(** X11. For a journey name that the step table does not inherit from
    [Object.prototype], [getStepNumber] returns a number between 0 and 5;
    the number is 0 for every step of a journey other than the three
    known ones; and two steps of one journey that get the same non-zero
    number are the same step.  For an inherited name ([constructor],
    [toString], [__proto__], ...) it throws a [TypeError]. *)
Theorem getStepNumber_numbers_the_steps :
  forall (journeyName stepName stepName' : string),
    (inherited journeyName = false ->
     exists n,
       @DomainInstrumentor.getStepNumber journeyName stepName = Ok n /\
       (0 <= n <= 5)%Z /\
       (journeyName <> "user_login_flow" -> journeyName <> "purchase_flow" ->
        journeyName <> "product_discovery" -> n = 0%Z) /\
       (@DomainInstrumentor.getStepNumber journeyName stepName' = Ok n -> n <> 0%Z ->
        stepName' = stepName)) /\
    (inherited journeyName = true ->
     exists e,
       @DomainInstrumentor.getStepNumber journeyName stepName = Throw e /\
       prop e "name" = Ok (VStr "TypeError")).
Proof.
  intros journeyName stepName stepName'. split.
  - intro Hname.
    unfold DomainInstrumentor.getStepNumber, literal_get. cbn [table_get].
    destruct (String.eqb journeyName "user_login_flow") eqn:E1;
      [|destruct (String.eqb journeyName "purchase_flow") eqn:E2;
        [|destruct (String.eqb journeyName "product_discovery") eqn:E3]].
    all: try apply String.eqb_eq in E1; try apply String.eqb_eq in E2;
      try apply String.eqb_eq in E3.
    all: try rewrite Hname.
    all: match goal with
         | |- exists n, Ok (indexOf ?l ?s + 1)%Z = Ok n /\ _ =>
             destruct (step_number_spec l s stepName') as [Ha Hc];
             [cbn [List.length]; lia|];
             exists (indexOf l s + 1)%Z
         end.
    all: split; [reflexivity|]; split; [exact Ha|];
      split; [try congruence | intro H; apply Hc; congruence].
    cbn. reflexivity.
  - intro Hname.
    rewrite (proj2 (getStepNumber_cases journeyName stepName) Hname).
    eexists. split; reflexivity.
Qed.

Lemma getStepNumber_numbers_the_steps_witness :
  @DomainInstrumentor.getStepNumber "signup_flow" "enter_email" = Ok 0%Z.
Proof.
  destruct (getStepNumber_numbers_the_steps "signup_flow" "enter_email" "enter_email")
    as [Hown _].
  destruct (Hown eq_refl) as (n & Hn & _ & Hzero & _).
  rewrite Hn. f_equal. apply Hzero; discriminate.
Defined.



(** X13. [recordBusinessMetric] and [trackError] do not contain what the
    sink throws: with a sink that throws [e] they throw [e], and with a
    sink that returns normally they return normally. *)
Theorem sink_exception_passes_through_metric_and_error :
  forall X (i : DomainInstrumentor.t X) sink metricName value context error context'
         (w : World X),
    DomainInstrumentor.onEvent i = Some sink ->
    (forall e, (forall ev w0, result (sink ev w0) = Throw e) ->
               result (DomainInstrumentor.recordBusinessMetric i metricName value context w)
               = Throw e /\
               result (DomainInstrumentor.trackError i error context' w) = Throw e) /\
    (never_throws sink ->
     result (DomainInstrumentor.recordBusinessMetric i metricName value context w) = Ok tt /\
     result (DomainInstrumentor.trackError i error context' w) = Ok tt).
Proof.
  intros X [d u o] sink metricName value context error context' w Ho.
  cbn in Ho. subst o.
  unfold DomainInstrumentor.recordBusinessMetric, DomainInstrumentor.trackError,
         DomainInstrumentor.emitTelemetryEvent, never_throws.
  js_unfold. js_simpl.
  split; [intros e Hs | intros Hs]; split;
    repeat match goal with
           | |- context [sink ?ev ?w1] =>
               let Hs1 := fresh "Hs" in
               pose proof (Hs ev w1) as Hs1; destruct (sink ev w1) as [r w2 c2];
               cbn in Hs1; subst r; js_simpl
           end;
    reflexivity.
Qed.

Lemma sink_exception_passes_through_metric_and_error_witness :
  let i := DomainInstrumentor.mk Fixtures.mockDomain Fixtures.mockUserContext
                                 (Some Fixtures.mockOnEvent) in
  let w := Fixtures.world_of (fun _ => 1 # 2) tt in
  result (DomainInstrumentor.recordBusinessMetric i "cart_value" (12999 # 100) None w)
  = Ok tt /\
  result (DomainInstrumentor.trackError i
            [("name", VStr "Error"); ("message", VStr "Payment processing failed")]
            None w) = Ok tt.
Proof.
  intros i w.
  apply (sink_exception_passes_through_metric_and_error unit i Fixtures.mockOnEvent
           "cart_value" (12999 # 100) None
           [("name", VStr "Error"); ("message", VStr "Payment processing failed")]
           None w eq_refl).
  intros ev w0. reflexivity.
Defined.

(** X14. [executeApiCall] takes two draws and no clock reading, asks for
    one timer whose delay lies in [base, base + 300) where [base] is 100
    for a critical domain and 200 otherwise, and throws
    [Error("API call failed: <endpoint>")] exactly when the second draw is
    below the domain's error threshold; otherwise it returns
    [{status: 200, success: true}].  So a threshold of 1 or more always
    fails and a threshold of 0 or less never does. *)
Theorem executeApiCall_simulation :
  forall X (i : DomainInstrumentor.t X) (endpoint method : string) (w : World X),
    (0 <= rnd_src w (rnd_pos w))%Q -> (rnd_src w (rnd_pos w) < 1)%Q ->
    let run := DomainInstrumentor.executeApiCall i endpoint method w in
    let base : Q :=
      if Priority.is_critical (DomainConfig.priority (DomainInstrumentor.domain i))
      then 100 else 200 in
    let threshold := DomainConfig.errorThreshold (DomainInstrumentor.domain i) in
    (exists d, calls run = [SetTimeout d] /\ (base <= d)%Q /\ (d < base + 300)%Q) /\
    world run = advance 0 2 w /\
    (result run = Throw (new_Error ("API call failed: " ++ endpoint))
     <-> (rnd_src w (S (rnd_pos w)) < threshold)%Q) /\
    (result run = Ok (ApiResponse.mk 200 true)
     <-> (threshold <= rnd_src w (S (rnd_pos w)))%Q).
Proof.
  intros X i endpoint method w H0 H1 run base threshold. subst run base threshold.
  unfold DomainInstrumentor.executeApiCall. js_unfold. js_simpl.
  destruct (ltb (rnd_src w (S (rnd_pos w)))
                (DomainConfig.errorThreshold (DomainInstrumentor.domain i))) eqn:E;
    js_simpl.
  - apply ltb_spec in E.
    split; [eexists; split; [reflexivity|]|].
    + destruct (Priority.is_critical _); split; lra.
    + split; [reflexivity|]. split; split; intro H; try assumption; try reflexivity.
      * discriminate H.
      * exfalso. lra.
  - assert (E' : ~ (rnd_src w (S (rnd_pos w))
                    < DomainConfig.errorThreshold (DomainInstrumentor.domain i))%Q).
    { intro H. apply ltb_spec in H. congruence. }
    split; [eexists; split; [reflexivity|]|].
    + destruct (Priority.is_critical _); split; lra.
    + split; [reflexivity|]. split; split; intro H; try reflexivity.
      * discriminate H.
      * contradiction.
      * apply Qnot_lt_le. exact E'.
Qed.

Lemma executeApiCall_simulation_witness :
  let i := DomainInstrumentor.mk Fixtures.mockDomain Fixtures.mockUserContext
                                 (Some Fixtures.mockOnEvent) in
  let w := Fixtures.world_of (fun _ => 1 # 2) tt in
  world (DomainInstrumentor.executeApiCall i "/api/cart" "GET" w) = advance 0 2 w /\
  result (DomainInstrumentor.executeApiCall i "/api/cart" "GET" w)
  = Ok (ApiResponse.mk 200 true).
Proof.
  intros i w.
  assert (Ha : (0 <= rnd_src w (rnd_pos w))%Q) by (vm_compute; discriminate).
  assert (Hb : (rnd_src w (rnd_pos w) < 1)%Q) by (vm_compute; reflexivity).
  destruct (executeApiCall_simulation unit i "/api/cart" "GET" w Ha Hb)
    as (_ & Hw & _ & Hok).
  split; [exact Hw|].
  apply Hok. vm_compute. discriminate.
Defined.

Lemma getCurrentUserContext_run :
  forall (w : World ObservMetrics.t),
    exists context,
      ObservMetrics.getCurrentUserContext w = mkRun (Ok context) (advance 1 0 w) [].
Proof.
  intros w. unfold ObservMetrics.getCurrentUserContext. js_unfold.
  eexists. reflexivity.
Qed.

Lemma shouldProcess_run :
  forall X (f : Filter.t) event context (w : World X),
    exists r w',
      Filter.shouldProcess f event context w = mkRun r w' [] /\
      owner w' = owner w /\ env w' = env w.
Proof.
  intros X f event context w. unfold Filter.shouldProcess. js_unfold.
  destruct (Filter.is_error_or_critical _);
    [eexists; eexists; (split; [reflexivity|split; reflexivity])|].
  cbn. destruct (_ && _);
    [eexists; eexists; (split; [reflexivity|split; reflexivity])|].
  destruct (Filter.isDomainAllowed f (env w) event) as [[|]|e]; cbn;
    try (eexists; eexists; (split; [reflexivity|split; reflexivity])).
  destruct (Filter.isNoiseEvent f event);
    [eexists; eexists; (split; [reflexivity|split; reflexivity])|].
  destruct (_ && _);
    [eexists; eexists; (split; [reflexivity|split; reflexivity])|].
  destruct (match FilterConfig.customFilters (Filter.config f) with
            | Some filters => Filter.passes_customFilters filters event context
            | None => Ok true
            end) as [[|]|e]; cbn;
    try (eexists; eexists; (split; [reflexivity|split; reflexivity])).
  destruct (gtb _ _); cbn;
    eexists; eexists; (split; [reflexivity|split; reflexivity]).
Qed.

(** The export loop of [handleTelemetryEvent]. *)
Lemma export_loop_run :
  forall (event : TelemetryEvent.t) (l : list ExporterPlugin.t) (w : World ObservMetrics.t),
    let body := fun exporter : ExporterPlugin.t =>
      effect (Export (ExporterPlugin.name exporter) [event]) ;;
      match ExporterPlugin.export_rejects exporter [event] with
      | Some _ =>
          effect (Console "error"
                    ("[ObservMetrics] Export failed for "
                       ++ ExporterPlugin.name exporter ++ ":"))
      | None => ret tt
      end in
    result (forEach l body w) = Ok tt /\
    world (forEach l body w) = w /\
    exported (calls (forEach l body w))
    = map (fun x => (ExporterPlugin.name x, [event])) l.
Proof.
  intros event l w body. induction l as [|a l IH].
  - cbn. repeat split.
  - cbn [forEach map]. unfold bind.
    assert (Ha : exists c, body a w = mkRun (Ok tt) w c /\
                           exported c = [(ExporterPlugin.name a, [event])]).
    { subst body. js_unfold. cbn.
      destruct (ExporterPlugin.export_rejects a [event]); cbn;
        eexists; split; reflexivity. }
    destruct Ha as (c & -> & Hc).
    destruct (forEach l body w) as [r w' c'].
    cbn in IH |- *. destruct IH as (-> & -> & Hc').
    rewrite exported_app, Hc, Hc'. repeat split.
Qed.

(** What [handleTelemetryEvent] does with an event. *)
Lemma handleTelemetryEvent_run :
  forall (w : World ObservMetrics.t) (event : TelemetryEvent.t),
    let run := ObservMetrics.handleTelemetryEvent event w in
    (admits w event ->
     result run = Ok tt /\
     owner (world run)
     = ObservMetrics.set_events (owner w) (ObservMetrics.events (owner w) ++ [event])%list /\
     exported (calls run)
     = map (fun x => (ExporterPlugin.name x, [event])) (ObservMetrics.exporters (owner w))) /\
    (filter_decides w event (Ok false) ->
     result run = Ok tt /\ owner (world run) = owner w /\ exported (calls run) = []) /\
    (forall e, filter_decides w event (Throw e) ->
               result run = Throw e /\ owner (world run) = owner w /\
               exported (calls run) = []).
Proof.
  intros w event run. subst run.
  remember (ObservMetrics.handleTelemetryEvent event w) as run eqn:Hrun.
  unfold admits, filter_decides.
  unfold ObservMetrics.handleTelemetryEvent in Hrun.
  destruct (getCurrentUserContext_run w) as [context Hg].
  unfold bind at 1 in Hrun. rewrite Hg in *. cbn [result world] in *.
  unfold bind at 1 in Hrun. cbn [get_owner] in Hrun. unfold bind at 1 in Hrun.
  change (owner (advance 1 0 w)) with (owner w) in Hrun.
  destruct (shouldProcess_run _ (ObservMetrics.Filter (owner w)) event context
              (advance 1 0 w)) as (r & w2 & Hs & Ho & He).
  assert (Hcases : forall r', (exists context0 : UserContext.t,
                       Ok context = Ok context0 /\
                       result (Filter.shouldProcess (ObservMetrics.Filter (owner w))
                                 event context0 (advance 1 0 w)) = r') -> r = r').
  { intros r' (c' & Hc' & Hp). injection Hc' as <-. rewrite Hs in Hp. exact Hp. }
  rewrite Hs in Hrun. destruct r as [[|]|e]; cbn [negb] in Hrun.
  - unfold bind at 1 in Hrun. cbn [put_owner] in Hrun.
    match type of Hrun with
    | context [forEach ?l ?f ?w3] =>
        pose proof (export_loop_run event l w3) as Hw3; cbn zeta in Hw3;
        destruct (forEach l f w3) as [r4 w4 c4]
    end.
    cbn in Hw3, Hrun. destruct Hw3 as (-> & -> & Hc). subst run. cbn.
    split; [|split].
    + intros _. split; [reflexivity|]. split; [reflexivity | exact Hc].
    + intros H. apply Hcases in H. discriminate H.
    + intros e H. apply Hcases in H. discriminate H.
  - unfold when, effect, ret in Hrun.
    destruct (ObservMetricsConfig.debug (ObservMetrics.config (owner w)));
      cbn in Hrun; subst run; cbn;
      (split; [|split];
       [intros H; apply Hcases in H; discriminate H
       |intros _; split; [reflexivity|]; split; [exact Ho | reflexivity]
       |intros e H; apply Hcases in H; discriminate H]).
  - cbn in Hrun. subst run. cbn.
    split; [|split].
    + intros H. apply Hcases in H. discriminate H.
    + intros H. apply Hcases in H. discriminate H.
    + intros e' H. apply Hcases in H. injection H as <-.
      split; [reflexivity|]. split; [exact Ho | reflexivity].
Qed.

Lemma admits_error_events :
  forall (w : World ObservMetrics.t) (event : TelemetryEvent.t),
    Filter.is_error_or_critical (TelemetryEvent.severity event) = true ->
    admits w event.
Proof.
  intros w event H. destruct (getCurrentUserContext_run w) as [context Hg].
  exists context. rewrite Hg. split; [reflexivity|].
  unfold Filter.shouldProcess. rewrite H. reflexivity.
Qed.

(** X15. In a browser, [handleTelemetryEvent] goes by what the filter
    comes to.  An event that the filter admits is appended to the event
    log and handed, as a batch of one, to every exporter in configuration
    order, also after an earlier export was rejected, and the call
    returns normally; an event that the filter rejects leaves the
    coordinator unchanged and reaches no exporter; and what the filter
    throws (a custom predicate's exception) is thrown by
    [handleTelemetryEvent], with the coordinator unchanged and nothing
    exported. *)
Theorem handleTelemetryEvent_routes_by_filter :
  forall (w : World ObservMetrics.t) (event : TelemetryEvent.t),
    Env.hasWindow (env w) = true ->
    let run := ObservMetrics.handleTelemetryEvent event w in
    (admits w event ->
     result run = Ok tt /\
     owner (world run)
     = ObservMetrics.set_events (owner w) (ObservMetrics.events (owner w) ++ [event])%list /\
     exported (calls run)
     = map (fun x => (ExporterPlugin.name x, [event])) (ObservMetrics.exporters (owner w))) /\
    (filter_decides w event (Ok false) ->
     result run = Ok tt /\ owner (world run) = owner w /\ exported (calls run) = []) /\
    (forall e, filter_decides w event (Throw e) ->
               result run = Throw e /\ owner (world run) = owner w /\
               exported (calls run) = []).
Proof. intros w event _. exact (handleTelemetryEvent_run w event). Qed.

Lemma handleTelemetryEvent_routes_by_filter_witness :
  let boom := Object [("name", VStr "Error"); ("message", VStr "bad predicate")] in
  let w0 := Fixtures.world_of (fun _ => 1 # 2)
              (ObservMetrics.constructor (Fixtures.mockConfig None)) in
  let w := world (ObservMetrics.addFilter (fun _ _ => Throw boom) w0) in
  let event := Fixtures.mockEvent Severity.info in
  result (ObservMetrics.handleTelemetryEvent event w) = Throw boom /\
  ObservMetrics.events (owner (world (ObservMetrics.handleTelemetryEvent event w))) = [].
Proof.
  intros boom w0 w event.
  destruct (handleTelemetryEvent_routes_by_filter w event eq_refl) as (_ & _ & Ht).
  destruct (Ht boom) as (Hr & Ho & _).
  - destruct (getCurrentUserContext_run w) as [context Hg].
    exists context. rewrite Hg. split; [reflexivity|]. vm_compute. reflexivity.
  - split; [exact Hr | rewrite Ho; reflexivity].
Defined.

(** X16. An error tracked through an instrumentor of the coordinator is
    always logged: whatever the filter configuration and the browser,
    [trackError] returns normally, appends exactly one event to the
    coordinator's event log, of type and severity [error] and of the
    instrumentor's domain, and hands it to every exporter. *)
Theorem trackError_through_coordinator_is_logged :
  forall (i : ObservMetrics.Instrumentor) (error : Obj) (context : option Obj)
         (w : World ObservMetrics.t),
    let run := DomainInstrumentor.trackError (ObservMetrics.instrumentor_object i)
                 error context w in
    result run = Ok tt /\
    exists ev,
      ObservMetrics.events (owner (world run))
      = (ObservMetrics.events (owner w) ++ [ev])%list /\
      emitted (calls run) = [ev] /\
      TelemetryEvent.eventType ev = EventType.error /\
      TelemetryEvent.severity ev = Some Severity.error /\
      TelemetryEvent.domain ev = DomainConfig.name (ObservMetrics.i_domain i) /\
      exported (calls run)
      = map (fun x => (ExporterPlugin.name x, [ev])) (ObservMetrics.exporters (owner w)).
Proof.
  intros i error context w run. subst run.
  unfold DomainInstrumentor.trackError, DomainInstrumentor.emitTelemetryEvent,
         ObservMetrics.instrumentor_object.
  cbn [DomainInstrumentor.onEvent DomainInstrumentor.domain DomainInstrumentor.userContext].
  js_unfold.
  cbn -[String.append stack_text dec ObservMetrics.handleTelemetryEvent].
  match goal with
  | |- context [ObservMetrics.handleTelemetryEvent ?ev ?w1] =>
      destruct (handleTelemetryEvent_run w1 ev) as (Ha & _);
      specialize (Ha (admits_error_events w1 ev eq_refl));
      destruct Ha as (Hr & Ho & Hx);
      destruct (ObservMetrics.handleTelemetryEvent ev w1) as [r w2 c2]
  end.
  cbn -[String.append stack_text dec] in Hr, Ho, Hx. subst r.
  cbn -[String.append stack_text dec].
  split; [reflexivity|]. eexists.
  split; [rewrite Ho; reflexivity|].
  split; [reflexivity|].
  split; [reflexivity|]. split; [reflexivity|]. split; [reflexivity|].
  rewrite <- Hx.
  match goal with
  | |- exported (?a :: ?b :: ?c :: ?d :: OnEvent ?ev ?inner :: ?rest) = _ =>
      change (exported ([a; b; c; d] ++ [OnEvent ev inner] ++ rest) = exported inner)
  end.
  rewrite !exported_app, exported_OnEvent. cbn. apply app_nil_r.
Qed.

(** Names the run of the goal's [let] and keeps its defining equation. *)
Ltac name_run H :=
  match goal with
  | |- let run := ?m in _ =>
      intro run; assert (H : run = m) by reflexivity; clearbody run
  end.

(** X17. On a coordinator that is not initialised, [initialize] does
    nothing when there is no window or the session looks automated: it
    returns normally, leaves the coordinator as it was (not initialised,
    no instrumentor created, no SDK set up) and logs one line only in
    debug mode. *)
Theorem initialize_skips_automated_sessions :
  forall (w : World ObservMetrics.t) (any : UserContext.t),
    ObservMetrics.isInitialized (owner w) = false ->
    Env.hasWindow (env w) = false \/
    Filter.isBotSession (ObservMetrics.Filter (owner w)) (env w) any = true ->
    let run := ObservMetrics.initialize w in
    result run = Ok tt /\
    owner (world run) = owner w /\
    calls run
    = if ObservMetricsConfig.debug (ObservMetrics.config (owner w))
      then [Console "log"
              "[ObservMetrics] Bot/automated session detected, skipping initialization"]
      else [].
Proof.
  intros w any Hinit Hskip. name_run Hrun.
  unfold ObservMetrics.initialize in Hrun.
  unfold bind at 1 in Hrun. cbn [get_owner] in Hrun. rewrite Hinit in Hrun.
  unfold bind at 1 in Hrun.
  destruct (isRealUserSession_run _ (ObservMetrics.Filter (owner w)) None w any)
    as (Hr & Hc & Ho).
  destruct (Filter.isRealUserSession (ObservMetrics.Filter (owner w)) None w)
    as [r w1 c1].
  cbn in Hr, Hc, Ho. subst r c1.
  assert (Hf : Env.hasWindow (env w)
               && negb (Filter.isBotSession (ObservMetrics.Filter (owner w)) (env w) any)
               = false).
  { destruct Hskip as [-> | ->]; [reflexivity | apply andb_false_r]. }
  rewrite Hf in Hrun. cbn [negb] in Hrun. unfold when, effect, ret in Hrun.
  destruct (ObservMetricsConfig.debug (ObservMetrics.config (owner w)));
    cbn in Hrun; subst run; cbn; repeat split; assumption.
Qed.

Lemma initialize_skips_automated_sessions_witness :
  let o := ObservMetrics.constructor (Fixtures.mockConfig None) in
  let e := Env.mk "Mozilla/5.0 (compatible; Googlebot/2.1)"
                  true false false false false 1040 1920 false false false None
                  1920 1080 "localhost" false 1920 969 0 None in
  let w := mkWorld e Fixtures.clock 0 (fun _ => 1 # 2) 0 o in
  owner (world (ObservMetrics.initialize w)) = o /\
  calls (ObservMetrics.initialize w) = [].
Proof.
  intros o e w.
  destruct (initialize_skips_automated_sessions w Fixtures.mockContext eq_refl
              (or_intror eq_refl)) as (_ & Ho & Hc).
  split; [exact Ho | exact Hc].
Defined.

(** X18. When the set-up of the tracing SDK throws, [initialize] logs
    [Failed to initialize:] with [console.error] and rethrows the same
    value; the coordinator is left as it was, so it stays uninitialised
    and without instrumentors. *)
Theorem initialize_rethrows_sdk_failure :
  forall (w : World ObservMetrics.t) (err : Thrown),
    ObservMetrics.isInitialized (owner w) = false ->
    real_user_env (ObservMetrics.Filter (owner w)) (env w) ->
    Env.otel_setup_error (env w) = Some err ->
    let run := ObservMetrics.initialize w in
    result run = Throw err /\
    owner (world run) = owner w /\
    calls run = [Console "error" "[ObservMetrics] Failed to initialize:"].
Proof.
  intros w err Hinit [Hwin Hbot] Hotel run. subst run.
  unfold ObservMetrics.initialize, Filter.isRealUserSession, Filter.createDefaultContext,
         ObservMetrics.initializeOpenTelemetry, ObservMetrics.initializeDomainInstrumentors,
         ObservMetrics.logConfiguration, ObservMetrics.getCurrentUserContext.
  js_unfold.
  cbn -[forEach ObservMetrics.create_instrumentor String.append dec Js.test].
  rewrite Hinit, Hwin. cbn -[forEach ObservMetrics.create_instrumentor String.append dec Js.test].
  rewrite Hbot, hasRealUserIndicators_true.
  cbn -[forEach ObservMetrics.create_instrumentor String.append dec Js.test].
  rewrite Hotel.
  cbn -[forEach ObservMetrics.create_instrumentor String.append dec Js.test].
  repeat split.
Qed.

Lemma initialize_rethrows_sdk_failure_witness :
  let o := ObservMetrics.constructor (Fixtures.mockConfig None) in
  let boom := Object [("name", VStr "Error"); ("message", VStr "no tracer")] in
  let e := Env.mk "Mozilla/5.0 (Windows NT 10.0; Win64; x64) AppleWebKit/537.36"
                  true false false false false 1040 1920 false false false None
                  1920 1080 "localhost" false 1920 969 0 (Some boom) in
  let w := mkWorld e Fixtures.clock 0 (fun _ => 1 # 2) 0 o in
  result (ObservMetrics.initialize w) = Throw boom /\
  ObservMetrics.isInitialized (owner (world (ObservMetrics.initialize w))) = false.
Proof.
  intros o boom e w.
  assert (Hreal : real_user_env (ObservMetrics.Filter (owner w)) (env w)).
  { split; [reflexivity | intro c; vm_compute; reflexivity]. }
  destruct (initialize_rethrows_sdk_failure w boom eq_refl Hreal eq_refl)
    as (Hr & Ho & _).
  split; [exact Hr | rewrite Ho; reflexivity].
Defined.

Lemma destroy_loop_run :
  forall (l : list ExporterPlugin.t) (w : World ObservMetrics.t),
    let body := fun exporter : ExporterPlugin.t =>
      when (ExporterPlugin.has_destroy exporter)
           (effect (ExporterDestroy (ExporterPlugin.name exporter))) in
    forEach l body w
    = mkRun (Ok tt) w
            (map (fun x => ExporterDestroy (ExporterPlugin.name x))
                 (filter ExporterPlugin.has_destroy l)).
Proof.
  intros l w body. induction l as [|a l IH]; [reflexivity|].
  cbn [forEach filter]. unfold bind.
  assert (Ha : body a w
               = mkRun (Ok tt) w
                       (if ExporterPlugin.has_destroy a
                        then [ExporterDestroy (ExporterPlugin.name a)] else [])).
  { subst body. cbn beta. destruct (ExporterPlugin.has_destroy a); reflexivity. }
  rewrite Ha, IH. destruct (ExporterPlugin.has_destroy a); reflexivity.
Qed.

(** X19. [destroy] returns normally, calls the [destroy] method of the
    exporters that have one, in order, and leaves a coordinator with the
    same configuration and filter but no instrumentors, exporters or
    events and not initialised.  After it every [getDomainInstrumentor]
    throws, listing no available domain, and a second [destroy] does
    nothing. *)
Theorem destroy_clears_and_is_idempotent :
  forall (w : World ObservMetrics.t),
    let run := ObservMetrics.destroy w in
    result run = Ok tt /\
    calls run
    = map (fun x => ExporterDestroy (ExporterPlugin.name x))
          (filter ExporterPlugin.has_destroy (ObservMetrics.exporters (owner w))) /\
    owner (world run)
    = ObservMetrics.mk (ObservMetrics.config (owner w)) (ObservMetrics.Filter (owner w))
                       [] [] [] false /\
    (forall domainName,
        result (ObservMetrics.getDomainInstrumentor domainName (world run))
        = Throw (new_Error ("Domain instrumentor not found: " ++ domainName
                              ++ ". Available domains: "))) /\
    ObservMetrics.destroy (world run) = mkRun (Ok tt) (world run) [].
Proof.
  intros w. name_run Hrun.
  unfold ObservMetrics.destroy in Hrun. unfold bind at 1 in Hrun.
  cbn [get_owner] in Hrun. unfold bind at 1 in Hrun.
  rewrite (destroy_loop_run (ObservMetrics.exporters (owner w)) w) in Hrun.
  cbn in Hrun. subst run. cbn [result world calls owner].
  split; [reflexivity|]. split; [apply app_nil_r|]. split; [reflexivity|].
  split; [intro domainName; reflexivity | reflexivity].
Qed.

(** X20. The fallback names of the convenience getters are never
    consulted: [auth()] behaves exactly as
    [getDomainInstrumentor("authentication")] and [ecommerce()] exactly as
    [getDomainInstrumentor("ecommerce")], which throws when that name is
    not registered, whether or not [auth] or [commerce] is. *)
Theorem convenience_getters_ignore_fallback_names :
  forall (w : World ObservMetrics.t),
    ObservMetrics.auth w = ObservMetrics.getDomainInstrumentor "authentication" w /\
    ObservMetrics.ecommerce w = ObservMetrics.getDomainInstrumentor "ecommerce" w.
Proof.
  intros w. unfold ObservMetrics.auth, ObservMetrics.ecommerce,
                   ObservMetrics.or_instrumentor, bind, ret.
  split.
  - destruct (ObservMetrics.getDomainInstrumentor "authentication" w) as [[i|e] w' c];
      cbn; rewrite ?app_nil_r; reflexivity.
  - destruct (ObservMetrics.getDomainInstrumentor "ecommerce" w) as [[i|e] w' c];
      cbn; rewrite ?app_nil_r; reflexivity.
Qed.

Lemma createEventFromSpan_run :
  forall (span : ObservMetrics.SpanInfo) (type : string) (w : World ObservMetrics.t),
    exists ev,
      ObservMetrics.createEventFromSpan span type w = mkRun (Ok ev) (advance 2 1 w) [] /\
      TelemetryEvent.severity ev = None /\
      TelemetryEvent.domain ev = "unknown".
Proof.
  intros span type w. unfold ObservMetrics.createEventFromSpan. js_unfold.
  eexists. split; [reflexivity|]. split; reflexivity.
Qed.

Lemma find_domain_some :
  forall (this : ObservMetrics.t) (name : string) (d : DomainConfig.t),
    ObservMetrics.find_domain this name = Some d ->
    In d (ObservMetricsConfig.domains (ObservMetrics.config this)) /\
    DomainConfig.name d = name.
Proof.
  intros this name d H. unfold ObservMetrics.find_domain in H.
  apply find_some in H. destruct H as [Hin He].
  split; [exact Hin | apply String.eqb_eq; exact He].
Qed.

Lemma inferDomainFromUrl_some :
  forall (this : ObservMetrics.t) (url : string) (d : DomainConfig.t),
    ObservMetrics.inferDomainFromUrl this url = Some d ->
    In d (ObservMetricsConfig.domains (ObservMetrics.config this)) /\
    (DomainConfig.name d = "authentication" \/ DomainConfig.name d = "ecommerce" \/
     DomainConfig.name d = "content").
Proof.
  intros this url d. unfold ObservMetrics.inferDomainFromUrl.
  repeat match goal with
         | |- context [if ?c then _ else _] => destruct c
         end;
    intro H; try discriminate H;
    apply find_domain_some in H; destruct H as [Hin Hn]; split; auto.
Qed.

Lemma shouldProcess_browser_run :
  forall X (f : Filter.t) event context (w : World X),
    Env.hasWindow (env w) = true ->
    exists r w',
      Filter.shouldProcess f event context w = mkRun r w' [] /\
      owner w' = owner w /\
      (forall e, r = Throw e -> predicate_throws f (env w) event context e).
Proof.
  intros X f event context w Hwin.
  destruct (shouldProcess_in_browser X f event context w Hwin)
    as [(_ & Hrun) | [(err & Hthrows & Hrun) | (_ & decision & Hrun)]];
    rewrite Hrun; eexists; eexists; (split; [reflexivity|]);
    (split; [reflexivity|]); intros e He; try discriminate He.
  injection He as <-. exact Hthrows.
Qed.

(** X21. In a browser, a request hook of the fetch or XMLHttpRequest
    instrumentation never changes the coordinator (the span's event is
    not added to the event log), logs nothing and hands nothing to an
    exporter.  It returns normally, and then all it did is end the span
    (when the filter rejects its event), or nothing, or set the three
    [business.*] attributes from a configured domain that is named
    [authentication], [ecommerce] or [content]; or it throws what a
    custom predicate of the filter threw, having touched nothing. *)
Theorem requestHook_only_touches_the_span :
  forall (type : string) (span : ObservMetrics.SpanInfo)
         (request : ObservMetrics.RequestInfo) (w : World ObservMetrics.t),
    Env.hasWindow (env w) = true ->
    let run := ObservMetrics.requestHook type span request w in
    owner (world run) = owner w /\
    ((result run = Ok tt /\
      (calls run = [EndSpan] \/ calls run = [] \/
       exists d,
         In d (ObservMetricsConfig.domains (ObservMetrics.config (owner w))) /\
         (DomainConfig.name d = "authentication" \/ DomainConfig.name d = "ecommerce" \/
          DomainConfig.name d = "content") /\
         calls run
         = [SetAttributes
              [("business.domain", VStr (DomainConfig.name d));
               ("business.priority", VStr (Priority.to_string (DomainConfig.priority d)));
               ("business.sla_target", VNum (DomainConfig.slaTarget d))]])) \/
     (exists e event context,
         predicate_throws (ObservMetrics.Filter (owner w)) (env w) event context e /\
         result run = Throw e /\ calls run = [])).
Proof.
  intros type span request w Hwin. name_run Hrun.
  unfold ObservMetrics.requestHook in Hrun.
  destruct (createEventFromSpan_run span type w) as (ev & Hev & _ & _).
  unfold bind at 1 in Hrun. rewrite Hev in Hrun.
  unfold bind at 1 in Hrun.
  destruct (getCurrentUserContext_run (advance 2 1 w)) as [context Hg].
  rewrite Hg in Hrun.
  unfold bind at 1 in Hrun. cbn [get_owner] in Hrun. unfold bind at 1 in Hrun.
  destruct (shouldProcess_browser_run _
              (ObservMetrics.Filter (owner (advance 1 0 (advance 2 1 w)))) ev context
              (advance 1 0 (advance 2 1 w)) Hwin) as (r & w2 & Hs & Ho & Hthrows).
  rewrite Hs in Hrun. destruct r as [[|]|e]; cbn [negb] in Hrun.
  - unfold ObservMetrics.enrichSpanWithBusinessContext in Hrun.
    unfold bind at 1 in Hrun. cbn [get_owner] in Hrun.
    match type of Hrun with
    | context [ObservMetrics.inferDomainFromUrl ?o ?url] =>
        destruct (ObservMetrics.inferDomainFromUrl o url) as [d|] eqn:Hd
    end.
    + apply inferDomainFromUrl_some in Hd. destruct Hd as [Hin Hn].
      rewrite Ho in Hin. cbn in Hin.
      unfold effect in Hrun. cbn in Hrun. subst run. cbn.
      split; [exact Ho|]. left. split; [reflexivity|].
      right. right. exists d. repeat split; assumption.
    + unfold ret in Hrun. cbn in Hrun. subst run. cbn.
      split; [exact Ho|]. left. split; [reflexivity|]. right. left. reflexivity.
  - unfold effect in Hrun. cbn in Hrun. subst run. cbn.
    split; [exact Ho|]. left. split; [reflexivity|]. left. reflexivity.
  - cbn in Hrun. subst run. cbn.
    split; [exact Ho|]. right. exists e, ev, context.
    split; [exact (Hthrows e eq_refl)|]. split; reflexivity.
Qed.

Lemma requestHook_only_touches_the_span_witness :
  let w := Fixtures.world_of (fun _ => 1 # 2)
             (ObservMetrics.constructor (Fixtures.mockConfig None)) in
  let run := ObservMetrics.requestHook "fetch"
               (ObservMetrics.mkSpanInfo (Some "HTTP GET") None)
               (ObservMetrics.mkRequestInfo (Some "http://localhost:3000/api/cart") None)
               w in
  owner (world run) = owner w /\ result run = Ok tt.
Proof.
  intros w run.
  destruct (requestHook_only_touches_the_span "fetch"
              (ObservMetrics.mkSpanInfo (Some "HTTP GET") None)
              (ObservMetrics.mkRequestInfo (Some "http://localhost:3000/api/cart") None)
              w eq_refl) as [Ho _].
  split; [exact Ho | vm_compute; reflexivity].
Defined.

Lemma table_get_map_set {A} (m : list (string * A)) (k k' : string) (v : A) :
  table_get (map_set m k v) k' = if String.eqb k' k then Some v else table_get m k'.
Proof.
  induction m as [|[k0 v0] m IH]; cbn [map_set table_get]; [reflexivity|].
  destruct (String.eqb k k0) eqn:E; cbn [table_get].
  - apply String.eqb_eq in E. subst k0.
    destruct (String.eqb k' k); reflexivity.
  - rewrite IH. destruct (String.eqb k' k0) eqn:E'; [|reflexivity].
    apply String.eqb_eq in E'. subst k0.
    rewrite String.eqb_sym, E. reflexivity.
Qed.

Lemma map_keys_map_set {A} (m : list (string * A)) (k k' : string) (v : A) :
  In k' (map_keys (map_set m k v)) <-> k' = k \/ In k' (map_keys m).
Proof.
  induction m as [|[k0 v0] m IH]; cbn [map_set map_keys map fst In].
  - split; [intros [H|[]]; left; congruence | intros [H|[]]; left; congruence].
  - destruct (String.eqb k k0) eqn:E; cbn [map_keys map fst In].
    + apply String.eqb_eq in E. subst k0.
      split; [intros [H|H]; [left; congruence | right; right; exact H]
             | intros [H|[H|H]]; [left; congruence | left; exact H | right; exact H]].
    + unfold map_keys in IH. rewrite IH.
      split; [intros [H|[H|H]]; auto | intros [H|[H|H]]; auto].
Qed.

Lemma NoDup_map_set {A} (m : list (string * A)) (k : string) (v : A) :
  NoDup (map_keys m) -> NoDup (map_keys (map_set m k v)).
Proof.
  induction m as [|[k0 v0] m IH]; cbn [map_set map_keys map fst]; intro H.
  - constructor; [intros [] | constructor].
  - inversion H as [|x l Hnot Hnd]; subst.
    destruct (String.eqb k k0) eqn:E; cbn [map_keys map fst].
    + constructor; assumption.
    + constructor; [|apply IH; exact Hnd].
      intro Hin. apply (map_keys_map_set m k k0 v) in Hin.
      destruct Hin as [Hin|Hin]; [|exact (Hnot Hin)].
      subst k0. rewrite String.eqb_refl in E. discriminate E.
Qed.

Lemma create_instrumentor_run :
  forall (domain : DomainConfig.t) (w : World ObservMetrics.t),
    exists context w1 c,
      ObservMetrics.create_instrumentor domain w = mkRun (Ok tt) w1 c /\
      ObservMetrics.instrumentors (owner w1)
      = map_set (ObservMetrics.instrumentors (owner w)) (DomainConfig.name domain)
                (ObservMetrics.mkInstrumentor domain context).
Proof.
  intros domain w.
  unfold ObservMetrics.create_instrumentor, ObservMetrics.getCurrentUserContext.
  js_unfold. js_simpl. eexists. eexists. eexists. split; reflexivity.
Qed.

Lemma create_loop_registers :
  forall (domains : list DomainConfig.t) (w : World ObservMetrics.t),
    registers domains
      (ObservMetrics.instrumentors (owner w))
      (ObservMetrics.instrumentors
         (owner (world (forEach domains ObservMetrics.create_instrumentor w)))).
Proof.
  induction domains as [|a rest IH]; intro w.
  - cbn. repeat split; [intros k [] | intro H; exact H].
  - cbn [forEach]. unfold bind.
    destruct (create_instrumentor_run a w) as (context & w1 & c & -> & Hm).
    specialize (IH w1).
    destruct (forEach rest ObservMetrics.create_instrumentor w1) as [r w2 c2].
    cbn [world] in IH |- *. rewrite Hm in IH.
    destruct IH as (IHin & IHout & IHnd).
    split; [|split].
    + intros k Hk.
      destruct (in_dec string_dec k (map DomainConfig.name rest)) as [Hr|Hr].
      * destruct (IHin k Hr) as (i & Hi & Hd & Hn).
        exists i. split; [exact Hi|]. split; [right; exact Hd | exact Hn].
      * cbn [map In] in Hk. destruct Hk as [Hk|Hk]; [|contradiction].
        rewrite (IHout k Hr), table_get_map_set. subst k.
        rewrite String.eqb_refl. eexists. split; [reflexivity|].
        split; [left; reflexivity | reflexivity].
    + intros k Hk. cbn [map In] in Hk.
      rewrite IHout by tauto. rewrite table_get_map_set.
      destruct (String.eqb k (DomainConfig.name a)) eqn:E; [|reflexivity].
      apply String.eqb_eq in E. exfalso. apply Hk. left. congruence.
    + intros Hnd. apply IHnd, NoDup_map_set, Hnd.
Qed.

Lemma initialize_fresh_registers :
  forall (w : World ObservMetrics.t),
    ObservMetrics.isInitialized (owner w) = false ->
    real_user_env (ObservMetrics.Filter (owner w)) (env w) ->
    Env.otel_setup_error (env w) = None ->
    registers (ObservMetricsConfig.domains (ObservMetrics.config (owner w)))
      (ObservMetrics.instrumentors (owner w))
      (ObservMetrics.instrumentors (owner (world (ObservMetrics.initialize w)))) /\
    ObservMetrics.config (owner (world (ObservMetrics.initialize w)))
    = ObservMetrics.config (owner w).
Proof.
  intros w Hinit [Hwin Hbot] Hotel.
  unfold ObservMetrics.initialize, Filter.isRealUserSession, Filter.createDefaultContext,
         ObservMetrics.initializeOpenTelemetry, ObservMetrics.initializeDomainInstrumentors,
         ObservMetrics.logConfiguration, ObservMetrics.getCurrentUserContext.
  js_unfold.
  cbn -[forEach ObservMetrics.create_instrumentor String.append dec Js.test].
  rewrite Hinit, Hwin. cbn -[forEach ObservMetrics.create_instrumentor String.append dec Js.test].
  rewrite Hbot, hasRealUserIndicators_true.
  cbn -[forEach ObservMetrics.create_instrumentor String.append dec Js.test].
  rewrite Hotel.
  cbn -[forEach ObservMetrics.create_instrumentor String.append dec Js.test].
  match goal with
  | |- context [forEach ?l ?f ?w1] =>
      pose proof (create_loop_registers l w1) as Hreg;
      destruct (initializeDomainInstrumentors_loop (owner w) l w1
                  (same_but_instrumentors_refl _)) as [Hr (Hc & _)];
      destruct (forEach l f w1) as [r w2 c2]
  end.
  cbn in Hr, Hc, Hreg. subst r.
  cbn -[String.append dec Js.test]. rewrite Hc.
  destruct (ObservMetricsConfig.debug (ObservMetrics.config (owner w)));
    cbn -[String.append dec Js.test]; (split; [exact Hreg | exact Hc]).
Qed.

(** X22. A successful [initialize] registers every configured domain:
    afterwards each configured domain name is mapped to an instrumentor
    of a configured domain of that name, names that are not configured
    keep what they had, and the map repeats no name. *)
Theorem initialize_registers_every_domain :
  forall (w : World ObservMetrics.t),
    ObservMetrics.isInitialized (owner w) = false ->
    real_user_env (ObservMetrics.Filter (owner w)) (env w) ->
    Env.otel_setup_error (env w) = None ->
    registers (ObservMetricsConfig.domains (ObservMetrics.config (owner w)))
      (ObservMetrics.instrumentors (owner w))
      (ObservMetrics.instrumentors (owner (world (ObservMetrics.initialize w)))).
Proof.
  intros w Hinit Hreal Hotel.
  exact (proj1 (initialize_fresh_registers w Hinit Hreal Hotel)).
Qed.

Lemma initialize_registers_every_domain_witness :
  let w := Fixtures.world_of (fun _ => 1 # 2)
             (ObservMetrics.constructor (Fixtures.mockConfig None)) in
  map_keys (ObservMetrics.instrumentors (owner (world (ObservMetrics.initialize w))))
  = ["authentication"; "ecommerce"] /\
  exists i,
    table_get (ObservMetrics.instrumentors (owner (world (ObservMetrics.initialize w))))
              "ecommerce" = Some i /\
    DomainConfig.name (ObservMetrics.i_domain i) = "ecommerce".
Proof.
  intros w.
  assert (Hreal : real_user_env (ObservMetrics.Filter (owner w)) (env w)).
  { split; [reflexivity | intro c; vm_compute; reflexivity]. }
  destruct (initialize_registers_every_domain w eq_refl Hreal eq_refl) as (Hin & _ & _).
  split; [vm_compute; reflexivity|].
  destruct (Hin "ecommerce") as (i & Hi & _ & Hn).
  - cbn. right. left. reflexivity.
  - exists i. split; assumption.
Defined.

Lemma NoDup_table_get {A} (m : list (string * A)) (k : string) (v : A) :
  NoDup (map_keys m) -> In (k, v) m -> table_get m k = Some v.
Proof.
  induction m as [|[k0 v0] m IH]; intros Hnd Hin; [destruct Hin|].
  cbn [map_keys map fst] in Hnd. inversion Hnd as [|x l Hnot Hnd']; subst.
  cbn [table_get]. destruct Hin as [Hin|Hin].
  - injection Hin as -> ->. rewrite String.eqb_refl. reflexivity.
  - destruct (String.eqb k k0) eqn:E; [|apply IH; assumption].
    apply String.eqb_eq in E. subst k0. exfalso. apply Hnot.
    apply in_map_iff. exists (k, v). split; [reflexivity | exact Hin].
Qed.

(** X23. After a successful [initialize] of a coordinator that had no
    instrumentors, the registered names are exactly the configured domain
    names, each once (so [getStats().domains] lists them without
    repetition), and every instrumentor is stored under the name of its
    own domain: the state in which [updateUserContext] rebuilds every
    instrumentor. *)
Theorem initialize_stores_by_domain_name :
  forall (w : World ObservMetrics.t),
    ObservMetrics.isInitialized (owner w) = false ->
    real_user_env (ObservMetrics.Filter (owner w)) (env w) ->
    Env.otel_setup_error (env w) = None ->
    ObservMetrics.instrumentors (owner w) = [] ->
    let o' := owner (world (ObservMetrics.initialize w)) in
    stored_by_domain_name o' /\
    NoDup (map_keys (ObservMetrics.instrumentors o')) /\
    forall k, In k (map_keys (ObservMetrics.instrumentors o'))
              <-> In k (map DomainConfig.name
                            (ObservMetricsConfig.domains (ObservMetrics.config (owner w)))).
Proof.
  intros w Hinit Hreal Hotel Hempty o'. subst o'.
  destruct (initialize_fresh_registers w Hinit Hreal Hotel) as [(Rin & Rout & Rnd) Hcfg].
  rewrite Hempty in Rout, Rnd. specialize (Rnd (NoDup_nil _)).
  set (m' := ObservMetrics.instrumentors (owner (world (ObservMetrics.initialize w)))) in *.
  set (names := map DomainConfig.name
                    (ObservMetricsConfig.domains (ObservMetrics.config (owner w)))) in *.
  assert (Hkeys : forall k, In k (map_keys m') <-> In k names).
  { intros k. split; intro Hk.
    - destruct (in_dec string_dec k names) as [Hin|Hout]; [exact Hin|].
      exfalso. apply (proj1 (table_get_none m' k)); [|exact Hk].
      rewrite (Rout k Hout). reflexivity.
    - destruct (in_dec string_dec k (map_keys m')) as [Hin|Hout]; [exact Hin|].
      exfalso. apply table_get_none in Hout.
      destruct (Rin k Hk) as (i & Hi & _). congruence. }
  split; [|split; [exact Rnd | exact Hkeys]].
  intros k i Hin. unfold stored_by_domain_name. rewrite Hcfg. fold names.
  assert (Hk : In k names).
  { apply Hkeys. apply in_map_iff. exists (k, i). split; [reflexivity | exact Hin]. }
  split; [|exact Hk].
  destruct (Rin k Hk) as (i' & Hi' & _ & Hn).
  rewrite (NoDup_table_get m' k i Rnd Hin) in Hi'. injection Hi' as <-.
  symmetry. exact Hn.
Qed.

Lemma initialize_stores_by_domain_name_witness :
  let w := Fixtures.world_of (fun _ => 1 # 2)
             (ObservMetrics.constructor (Fixtures.mockConfig None)) in
  stored_by_domain_name (owner (world (ObservMetrics.initialize w))) /\
  forall k, In k (map_keys (ObservMetrics.instrumentors
                              (owner (world (ObservMetrics.initialize w)))))
            <-> In k ["authentication"; "ecommerce"].
Proof.
  intros w.
  assert (Hreal : real_user_env (ObservMetrics.Filter (owner w)) (env w)).
  { split; [reflexivity | intro c; vm_compute; reflexivity]. }
  destruct (initialize_stores_by_domain_name w eq_refl Hreal eq_refl eq_refl)
    as (Hs & _ & Hk).
  split; [exact Hs | exact Hk].
Defined.

Lemma rebuild_instrumentor_run :
  forall (k : string) (i : ObservMetrics.Instrumentor) (w : World ObservMetrics.t)
         (domain : DomainConfig.t),
    find (fun d => String.eqb (DomainConfig.name d)
                              (DomainConfig.name (ObservMetrics.i_domain i)))
         (ObservMetricsConfig.domains (ObservMetrics.config (owner w))) = Some domain ->
    exists context w1 c,
      ObservMetrics.rebuild_instrumentor (k, i) w = mkRun (Ok tt) w1 c /\
      ObservMetrics.instrumentors (owner w1)
      = map_set (ObservMetrics.instrumentors (owner w)) (DomainConfig.name domain)
                (ObservMetrics.mkInstrumentor domain context) /\
      ObservMetrics.config (owner w1) = ObservMetrics.config (owner w) /\
      env w1 = env w /\
      result (ObservMetrics.getCurrentUserContext w) = Ok context.
Proof.
  intros k i w domain Hfind.
  unfold ObservMetrics.rebuild_instrumentor, ObservMetrics.getCurrentUserContext.
  js_unfold. cbn -[find String.append dec Js.test]. rewrite Hfind.
  cbn -[find String.append dec Js.test].
  eexists. eexists. eexists. repeat split.
Qed.

Lemma find_by_name :
  forall (name : string) (domains : list DomainConfig.t),
    In name (map DomainConfig.name domains) ->
    exists d, find (fun d => String.eqb (DomainConfig.name d) name) domains = Some d /\
              DomainConfig.name d = name.
Proof.
  intros name domains Hin.
  destruct (find (fun d => String.eqb (DomainConfig.name d) name) domains) as [d|] eqn:E.
  - exists d. split; [reflexivity|]. apply find_some in E. apply String.eqb_eq, E.
  - exfalso. apply in_map_iff in Hin. destruct Hin as (d & Hn & Hd).
    pose proof (find_none _ _ E d Hd) as Hf. cbn in Hf.
    rewrite Hn, String.eqb_refl in Hf. discriminate Hf.
Qed.

Lemma rebuild_loop :
  forall (entries : list (string * ObservMetrics.Instrumentor))
         (w : World ObservMetrics.t),
    (forall k i, In (k, i) entries ->
                 k = DomainConfig.name (ObservMetrics.i_domain i) /\
                 In k (map DomainConfig.name
                           (ObservMetricsConfig.domains (ObservMetrics.config (owner w))))) ->
    let w' := world (forEach entries ObservMetrics.rebuild_instrumentor w) in
    (forall k, In k (map_keys entries) ->
               exists i', table_get (ObservMetrics.instrumentors (owner w')) k = Some i' /\
                          DomainConfig.name (ObservMetrics.i_domain i') = k /\
                          refreshed (ObservMetricsConfig.userContext
                                       (ObservMetrics.config (owner w))) (env w) i') /\
    (forall k, ~ In k (map_keys entries) ->
               table_get (ObservMetrics.instrumentors (owner w')) k
               = table_get (ObservMetrics.instrumentors (owner w)) k).
Proof.
  induction entries as [|[k0 i0] rest IH]; intros w Hentries w'; subst w'.
  - cbn. split; [intros k [] | reflexivity].
  - destruct (Hentries k0 i0 (or_introl eq_refl)) as [Hk0 Hin0].
    destruct (find_by_name _ _ Hin0) as (domain & Hfind & Hname).
    rewrite Hk0 in Hfind.
    destruct (rebuild_instrumentor_run k0 i0 w domain Hfind)
      as (context & w1 & c & Hrun & Hm & Hcfg & Henv & Hctx).
    cbn [forEach]. unfold bind. rewrite Hrun.
    assert (Hrest : forall k i, In (k, i) rest ->
                k = DomainConfig.name (ObservMetrics.i_domain i) /\
                In k (map DomainConfig.name
                          (ObservMetricsConfig.domains (ObservMetrics.config (owner w1))))).
    { intros k i Hin. rewrite Hcfg. apply Hentries. right. exact Hin. }
    specialize (IH w1 Hrest). cbn zeta in IH.
    destruct (forEach rest ObservMetrics.rebuild_instrumentor w1) as [r w2 c2].
    cbn [world] in IH |- *. rewrite Hm, Hcfg, Henv in IH.
    destruct IH as (IHin & IHout).
    split.
    + intros k Hk.
      destruct (in_dec string_dec k (map_keys rest)) as [Hr|Hr]; [exact (IHin k Hr)|].
      cbn [map_keys map fst In] in Hk. destruct Hk as [Hk|Hk]; [|contradiction].
      subst k. rewrite (IHout k0 Hr), table_get_map_set, Hname, String.eqb_refl.
      eexists. split; [reflexivity|]. split; [exact Hname|].
      exists w. repeat split. exact Hctx.
    + intros k Hk. cbn [map_keys map fst In] in Hk.
      rewrite IHout by (unfold map_keys; tauto). rewrite table_get_map_set, Hname.
      destruct (String.eqb k k0) eqn:E; [|reflexivity].
      apply String.eqb_eq in E. exfalso. apply Hk. left. congruence.
Qed.

Lemma refreshed_fields :
  forall (held : UserContext.partial) (e : Env.t) (i : ObservMetrics.Instrumentor),
    refreshed held e i ->
    UserContext.userSegment (ObservMetrics.i_userContext i)
    = UserContext.or_default (UserContext.p_userSegment held) "anonymous" /\
    UserContext.isAuthenticated (ObservMetrics.i_userContext i)
    = UserContext.or_default (UserContext.p_isAuthenticated held) false /\
    UserContext.userId (ObservMetrics.i_userContext i) = UserContext.p_userId held.
Proof.
  intros held e i (w & _ & Hheld & Hctx). subst held.
  unfold ObservMetrics.getCurrentUserContext in Hctx. revert Hctx. js_unfold.
  cbn -[String.append dec Js.test]. intro Hctx. injection Hctx as <-.
  cbn. repeat split.
  destruct (UserContext.p_userId _); reflexivity.
Qed.

(** X24. [updateUserContext] rebuilds the instrumentor of every
    registered domain with the merged context, on a coordinator whose
    instrumentors are stored under the names of configured domains (as
    [initialize] stores them): afterwards every registered name is mapped
    to an instrumentor of a domain of that name whose captured context is
    what [getCurrentUserContext] returns for the merged context, so its
    user segment, authentication flag and user id are the merged ones. *)
Theorem updateUserContext_rebuilds_every_instrumentor :
  forall (w : World ObservMetrics.t) (newContext : UserContext.partial),
    stored_by_domain_name (owner w) ->
    let merged := UserContext.merge
                    (ObservMetricsConfig.userContext (ObservMetrics.config (owner w)))
                    newContext in
    let o' := owner (world (ObservMetrics.updateUserContext newContext w)) in
    forall k, In k (map_keys (ObservMetrics.instrumentors (owner w))) ->
      exists i',
        table_get (ObservMetrics.instrumentors o') k = Some i' /\
        DomainConfig.name (ObservMetrics.i_domain i') = k /\
        refreshed merged (env w) i' /\
        UserContext.userSegment (ObservMetrics.i_userContext i')
        = UserContext.or_default (UserContext.p_userSegment merged) "anonymous" /\
        UserContext.isAuthenticated (ObservMetrics.i_userContext i')
        = UserContext.or_default (UserContext.p_isAuthenticated merged) false /\
        UserContext.userId (ObservMetrics.i_userContext i') = UserContext.p_userId merged.
Proof.
  intros w newContext Hstored merged o' k Hk. subst o'.
  unfold ObservMetrics.updateUserContext. js_unfold.
  cbn -[forEach ObservMetrics.rebuild_instrumentor].
  match goal with
  | |- context [forEach ?l ?f ?w1] =>
      destruct (rebuild_loop l w1 Hstored) as [Hin _];
      destruct (forEach l f w1) as [r w2 c2]
  end.
  cbn [world owner env ObservMetrics.config ObservMetrics.set_userContext
       ObservMetricsConfig.userContext] in Hin.
  destruct (Hin k Hk) as (i' & Hi & Hn & Hr).
  exists i'. cbn [world].
  split; [destruct r; exact Hi|]. split; [exact Hn|]. split; [exact Hr|].
  exact (refreshed_fields _ _ _ Hr).
Qed.

Lemma updateUserContext_rebuilds_every_instrumentor_witness :
  let w0 := Fixtures.world_of (fun _ => 1 # 2)
              (ObservMetrics.constructor (Fixtures.mockConfig None)) in
  let w := world (ObservMetrics.initialize w0) in
  let p := UserContext.mkPartial (Some "user-123") None (Some "enterprise") (Some true)
                                 None None in
  exists i',
    table_get (ObservMetrics.instrumentors
                 (owner (world (ObservMetrics.updateUserContext p w))))
              "ecommerce" = Some i' /\
    UserContext.userSegment (ObservMetrics.i_userContext i') = "enterprise".
Proof.
  intros w0 w p.
  assert (Hstored : stored_by_domain_name (owner w)).
  { intros k i Hin. vm_compute in Hin.
    destruct Hin as [H|[H|[]]]; injection H as <- <-;
      (split; [reflexivity | vm_compute; auto]). }
  assert (Hk : In "ecommerce" (map_keys (ObservMetrics.instrumentors (owner w)))).
  { vm_compute. auto. }
  destruct (updateUserContext_rebuilds_every_instrumentor w p Hstored "ecommerce" Hk)
    as (i' & Hi & _ & _ & Hseg & _).
  exists i'. split; [exact Hi | exact Hseg].
Defined.

Lemma Datadog_flush_ok (x : Datadog.t) :
  Datadog.batchedEvents (fst (Datadog.flush true x)) = [] /\
  Datadog.delivered (snd (Datadog.flush true x)) = Datadog.batchedEvents x.
Proof.
  unfold Datadog.flush.
  destruct (Datadog.batchedEvents x) as [|e l] eqn:E; [split; [exact E | reflexivity]|].
  destruct (ObservMetrics.truthy_string (Datadog.apiKey x)
            && ObservMetrics.truthy_string (Datadog.endpoint x));
    cbn; rewrite app_nil_r; split; reflexivity.
Qed.

Lemma Datadog_export_ok (x : Datadog.t) (events : list TelemetryEvent.t) :
  (Datadog.delivered (snd (Datadog.export true x events))
     ++ Datadog.batchedEvents (fst (Datadog.export true x events))
   = Datadog.batchedEvents x ++ events)%list.
Proof.
  unfold Datadog.export.
  destruct (Z.leb _ _).
  - destruct (Datadog_flush_ok
                (Datadog.set_batch x (Datadog.batchedEvents x ++ events)%list))
      as [-> ->].
    cbn. apply app_nil_r.
  - reflexivity.
Qed.

Lemma Datadog_delivered_app (a b : list Datadog.Delivery) :
  Datadog.delivered (a ++ b) = (Datadog.delivered a ++ Datadog.delivered b)%list.
Proof.
  induction a as [|[ev|ev|ev] a IH]; cbn; rewrite ?IH, ?app_assoc; reflexivity.
Qed.

Lemma Datadog_exports_ok (l : list (list TelemetryEvent.t)) :
  forall x,
    (Datadog.delivered (snd (Datadog.exports x (map (pair true) l)))
       ++ Datadog.batchedEvents (fst (Datadog.exports x (map (pair true) l)))
     = Datadog.batchedEvents x ++ concat l)%list.
Proof.
  induction l as [|events rest IH]; intro x.
  - cbn. symmetry. apply app_nil_r.
  - cbn [map Datadog.exports concat].
    pose proof (Datadog_export_ok x events) as He.
    destruct (Datadog.export true x events) as [x1 out].
    specialize (IH x1). destruct (Datadog.exports x1 (map (pair true) rest)) as [x2 out'].
    cbn [fst snd] in *.
    rewrite Datadog_delivered_app, <- app_assoc, IH, app_assoc, He, app_assoc.
    reflexivity.
Qed.

(** X25. The Datadog exporter loses and repeats nothing while its sends
    go through (or while it logs to the console for want of an API key
    or endpoint): after any sequence of [export] calls, what has been
    handed on followed by what is still queued is exactly the earlier
    queue followed by the exported events, in order; and a [forceFlush]
    then hands on the queue and empties it.  Each send is taken to
    finish before the next call. *)
Theorem Datadog_hands_on_every_event_in_order :
  forall (x : Datadog.t) (batches : list (list TelemetryEvent.t)),
    let run := Datadog.exports x (map (pair true) batches) in
    (Datadog.delivered (snd run) ++ Datadog.batchedEvents (fst run)
     = Datadog.batchedEvents x ++ concat batches)%list /\
    Datadog.delivered (snd (Datadog.forceFlush true (fst run)))
    = Datadog.batchedEvents (fst run) /\
    Datadog.batchedEvents (fst (Datadog.forceFlush true (fst run))) = [].
Proof.
  intros x batches run. split; [apply Datadog_exports_ok|].
  unfold Datadog.forceFlush.
  destruct (Datadog_flush_ok (fst run)) as [H1 H2]. split; assumption.
Qed.

(** X26. When the Datadog exporter has an API key and an endpoint and a
    send fails, [flush] keeps only the first 50 of the flushed events for
    a retry and hands on none: the events after the 50th are neither
    delivered nor queued any more, and a retry that goes through
    delivers just those first 50. *)
Theorem Datadog_failed_send_keeps_first_50 :
  forall (x : Datadog.t),
    ObservMetrics.truthy_string (Datadog.apiKey x) = true ->
    ObservMetrics.truthy_string (Datadog.endpoint x) = true ->
    let failed := Datadog.flush false x in
    Datadog.delivered (snd failed) = [] /\
    Datadog.batchedEvents (fst failed) = firstn 50 (Datadog.batchedEvents x) /\
    Datadog.delivered (snd (Datadog.flush true (fst failed)))
    = firstn 50 (Datadog.batchedEvents x).
Proof.
  intros x Hk He failed.
  assert (Hf : Datadog.delivered (snd failed) = [] /\
               Datadog.batchedEvents (fst failed) = firstn 50 (Datadog.batchedEvents x)).
  { subst failed. unfold Datadog.flush.
    destruct (Datadog.batchedEvents x) as [|e l] eqn:E; [split; [reflexivity | exact E]|].
    rewrite Hk, He. cbn [andb fst snd Datadog.delivered Datadog.batchedEvents
                              Datadog.set_batch].
    split; [reflexivity | apply app_nil_r]. }
  destruct Hf as [Hd Hb]. split; [exact Hd|]. split; [exact Hb|].
  destruct (Datadog_flush_ok (fst failed)) as [_ ->]. exact Hb.
Qed.

Lemma Datadog_failed_send_keeps_first_50_witness :
  let event := Fixtures.mockEvent Severity.info in
  let x := Datadog.mk (Some "key") (Some "https://example.test/v1/input") (Some 100%Z)
                      (repeat event 100) in
  List.length (Datadog.batchedEvents (fst (Datadog.flush false x))) = 50%nat /\
  Datadog.delivered (snd (Datadog.flush false x)) = [].
Proof.
  intros event x.
  destruct (Datadog_failed_send_keeps_first_50 x eq_refl eq_refl) as (Hd & Hb & _).
  split; [rewrite Hb; reflexivity | exact Hd].
Defined.

Lemma NewRelic_classes (e : TelemetryEvent.t) :
  (NewRelic.is_span e = true /\ NewRelic.is_custom e = false
   /\ NewRelic.is_error e = false) \/
  (NewRelic.is_span e = false /\ NewRelic.is_custom e = true
   /\ NewRelic.is_error e = false) \/
  (NewRelic.is_span e = false /\ NewRelic.is_custom e = false
   /\ NewRelic.is_error e = true).
Proof.
  unfold NewRelic.is_span, NewRelic.is_custom, NewRelic.is_error.
  destruct (TelemetryEvent.eventType e); auto.
Qed.

Lemma NewRelic_three_way (l : list TelemetryEvent.t) :
  Permutation l (filter NewRelic.is_span l ++ filter NewRelic.is_custom l
                   ++ filter NewRelic.is_error l).
Proof.
  induction l as [|e l IH]; [constructor|].
  cbn [filter].
  destruct (NewRelic_classes e) as [(-> & -> & ->)|[(-> & -> & ->)|(-> & -> & ->)]].
  - cbn. constructor. exact IH.
  - apply Permutation_cons_app. exact IH.
  - rewrite app_assoc. apply Permutation_cons_app. rewrite <- app_assoc. exact IH.
Qed.

Lemma is_empty_nil {A} (l : list A) : NewRelic.is_empty l = true -> l = [].
Proof. destruct l; [reflexivity | discriminate]. Qed.

Lemma NewRelic_sendToNewRelic_ok (events : list TelemetryEvent.t) :
  fst (NewRelic.sendToNewRelic (NewRelic.mkNetwork true true true) events) = true /\
  NewRelic.delivered
    (snd (NewRelic.sendToNewRelic (NewRelic.mkNetwork true true true) events))
  = (filter NewRelic.is_span events ++ filter NewRelic.is_custom events
       ++ filter NewRelic.is_error events)%list.
Proof.
  unfold NewRelic.sendToNewRelic.
  cbn [NewRelic.spans_ok NewRelic.custom_ok NewRelic.errors_ok].
  destruct (NewRelic.is_empty (filter NewRelic.is_span events)) eqn:E1;
    destruct (NewRelic.is_empty (filter NewRelic.is_custom events)) eqn:E2;
    destruct (NewRelic.is_empty (filter NewRelic.is_error events)) eqn:E3;
    try apply is_empty_nil in E1; try apply is_empty_nil in E2;
    try apply is_empty_nil in E3;
    cbn; rewrite ?E1, ?E2, ?E3, ?app_nil_r; cbn; split; reflexivity.
Qed.

(** X27. When the New Relic exporter has an API key and its three
    requests go through, one [flush] hands on every queued event exactly
    once, spans first, then metrics and logs, then errors, each group in
    queue order, and empties the queue. *)
Theorem NewRelic_flush_hands_on_each_event_once :
  forall (x : NewRelic.t),
    ObservMetrics.truthy_string (NewRelic.apiKey x) = true ->
    let run := NewRelic.flush (NewRelic.mkNetwork true true true) x in
    NewRelic.delivered (snd run)
    = (filter NewRelic.is_span (NewRelic.batchedEvents x)
         ++ filter NewRelic.is_custom (NewRelic.batchedEvents x)
         ++ filter NewRelic.is_error (NewRelic.batchedEvents x))%list /\
    Permutation (NewRelic.batchedEvents x) (NewRelic.delivered (snd run)) /\
    NewRelic.batchedEvents (fst run) = [].
Proof.
  intros x Hk run.
  assert (H : NewRelic.delivered (snd run)
              = (filter NewRelic.is_span (NewRelic.batchedEvents x)
                   ++ filter NewRelic.is_custom (NewRelic.batchedEvents x)
                   ++ filter NewRelic.is_error (NewRelic.batchedEvents x))%list /\
              NewRelic.batchedEvents (fst run) = []).
  { subst run. unfold NewRelic.flush.
    destruct (NewRelic.batchedEvents x) as [|e l] eqn:E; [split; [reflexivity | exact E]|].
    rewrite Hk.
    destruct (NewRelic_sendToNewRelic_ok (e :: l)) as [Hok Hd].
    destruct (NewRelic.sendToNewRelic _ (e :: l)) as [ok out].
    cbn [fst snd] in Hok, Hd. subst ok. cbn [fst snd]. split; [exact Hd | reflexivity]. }
  destruct H as [Hd Hb]. split; [exact Hd|]. split; [|exact Hb].
  rewrite Hd. apply NewRelic_three_way.
Qed.

Lemma NewRelic_flush_hands_on_each_event_once_witness :
  let span := Fixtures.mockEvent Severity.info in
  let failure :=
    TelemetryEvent.mk (1%Z, 0%Q) 1 "ecommerce" EventType.error "ecommerce.error" []
      (BusinessContext.mk "ecommerce" None None BusinessImpact.reliability None)
      (Some Severity.error) in
  let x := NewRelic.mk (Some "key") (Some 50%Z) [failure; span] in
  NewRelic.delivered (snd (NewRelic.flush (NewRelic.mkNetwork true true true) x))
  = [span; failure].
Proof.
  intros span failure x.
  destruct (NewRelic_flush_hands_on_each_event_once x eq_refl) as (Hd & _ & _).
  rewrite Hd. reflexivity.
Defined.

(** X28. The New Relic exporter can deliver an event twice: when the
    spans request goes through and the request for metrics and logs
    fails, every span event among the first 25 queued events has been
    handed on and is queued again for the retry. *)
Theorem NewRelic_partial_failure_requeues_delivered_spans :
  forall (x : NewRelic.t) (net : NewRelic.Network) (metric e : TelemetryEvent.t),
    ObservMetrics.truthy_string (NewRelic.apiKey x) = true ->
    NewRelic.spans_ok net = true ->
    NewRelic.custom_ok net = false ->
    In metric (NewRelic.batchedEvents x) -> NewRelic.is_custom metric = true ->
    In e (firstn 25 (NewRelic.batchedEvents x)) -> NewRelic.is_span e = true ->
    let run := NewRelic.flush net x in
    In e (NewRelic.delivered (snd run)) /\ In e (NewRelic.batchedEvents (fst run)).
Proof.
  intros x net metric e Hk Hs Hc Hm Hmc He Hes run. subst run.
  unfold NewRelic.flush.
  destruct (NewRelic.batchedEvents x) as [|e0 l] eqn:E; [destruct Hm|].
  rewrite Hk. unfold NewRelic.sendToNewRelic. rewrite Hs, Hc.
  assert (Hspan : In e (filter NewRelic.is_span (e0 :: l))).
  { apply filter_In. split; [|exact Hes].
    rewrite <- (firstn_skipn 25 (e0 :: l)). apply in_or_app. left. exact He. }
  assert (Hcustom : In metric (filter NewRelic.is_custom (e0 :: l))).
  { apply filter_In. split; assumption. }
  destruct (filter NewRelic.is_span (e0 :: l)) as [|s ss] eqn:Es; [destruct Hspan|].
  destruct (filter NewRelic.is_custom (e0 :: l)) as [|c cs] eqn:Ec; [destruct Hcustom|].
  cbn [NewRelic.is_empty negb fst snd NewRelic.delivered NewRelic.batchedEvents
       NewRelic.set_batch app].
  split.
  - rewrite app_nil_r. exact Hspan.
  - rewrite app_nil_r. exact He.
Qed.

Lemma NewRelic_partial_failure_requeues_delivered_spans_witness :
  let span := Fixtures.mockEvent Severity.info in
  let metric :=
    TelemetryEvent.mk (1%Z, 0%Q) 1 "ecommerce" EventType.metric
      "ecommerce.business.cart_value" []
      (BusinessContext.mk "ecommerce" None None BusinessImpact.reliability None)
      (Some Severity.info) in
  let x := NewRelic.mk (Some "key") (Some 50%Z) [span; metric] in
  let run := NewRelic.flush (NewRelic.mkNetwork true false true) x in
  In span (NewRelic.delivered (snd run)) /\ In span (NewRelic.batchedEvents (fst run)).
Proof.
  intros span metric x run.
  apply (NewRelic_partial_failure_requeues_delivered_spans x
           (NewRelic.mkNetwork true false true) metric span eq_refl eq_refl eq_refl).
  - right. left. reflexivity.
  - reflexivity.
  - left. reflexivity.
  - reflexivity.
Defined.
